(** * Time accounting and approval engine of the payroll front end

    A shallow embedding of the hour-entry validation, the normal/overtime
    split and the approval workflow that live inside the React components
    of the front end, and the properties they have.

    Components embedded, each in a module of its name:
    - [PayrollReview], the coordinator's approval screen, in its version with
      the partial approval (status 3): [calculateHoursBreakdown], the bulk
      handlers, [weeklyTotals] and the buttons of the reports view;
    - [OvertimeReport], the monthly overtime report, and the older copy of it
      that is kept in CalendarInstructions.tsx;
    - [CalendarHoursEntry], the operative's entry form, in two versions: the
      one that takes an hour count and enforces the daily and weekly ceilings
      ([CalendarHoursEntryLimits]) and the one that takes a time range, a
      description and on-site evidence ([CalendarHoursEntryRange]);
    - [OperativeDashboard], the operative's dashboard, for what it does with
      an entry the form hands over, and the edit button of
      [HoursHistoryByDate].

    Conventions of the embedding.
    - A JavaScript number is an exact rational; [None] stands for NaN.
      Minute counts are integers (they come from [Number] applied to the
      digit groups of an HH:MM string), hour counts are rationals.  The
      program adds binary64 numbers: a sum of the embedding is the sum of the
      program where that one is exact, as it is for the multiples of half an
      hour the form with ceilings is meant for, and a counter is stated as
      the sum of what its loop adds to it.  Two sums accumulated apart need
      not be equal in the program where they are in the rationals; the
      counters of a week are therefore also given over an arbitrary addition
      ([WeekCounters]) and run on binary64 numbers ([Doubles]).
    - A calendar date is the count of days since 1970-01-01 (a Thursday),
      which is what [parseISO] / [new Date(fecha + 'T12:00:00')] denote once
      the time of day is dropped; time zones are not modelled.
    - React state is passed explicitly; a handler returns what it did: the
      new store for the approval handlers, the outcome (nothing, an error
      text, a call of [onSave]) for the form. *)

From Stdlib Require Import ZArith QArith Qround Lqa Lia.
From Stdlib Require Import String Ascii.
From Stdlib Require PrimFloat.
From stdpp Require Import gmap strings list sorting.

Local Open Scope Z_scope.

(** ** JavaScript values *)

Module JS.

(** Hours: a finite number or NaN. *)
Definition number := option Q.

(** Minutes: an integer or NaN. *)
Definition minutes := option Z.

Definition nadd (a b : number) : number :=
  match a, b with
  | Some x, Some y => Some (x + y)%Q
  | _, _ => None
  end.

(** [a > b] on numbers; any comparison with NaN is false. *)
Definition ngt (a b : number) : bool :=
  match a, b with
  | Some x, Some y => negb (Qle_bool x y)
  | _, _ => false
  end.

Definition madd (a b : minutes) : minutes :=
  match a, b with
  | Some x, Some y => Some (x + y)
  | _, _ => None
  end.

Definition msub (a b : minutes) : minutes :=
  match a, b with
  | Some x, Some y => Some (x - y)
  | _, _ => None
  end.

Definition mmul (a b : minutes) : minutes :=
  match a, b with
  | Some x, Some y => Some (x * y)
  | _, _ => None
  end.

(** [Math.max] and [Math.min] return NaN as soon as one argument is NaN. *)
Definition mmax (a b : minutes) : minutes :=
  match a, b with
  | Some x, Some y => Some (Z.max x y)
  | _, _ => None
  end.

Definition mmin (a b : minutes) : minutes :=
  match a, b with
  | Some x, Some y => Some (Z.min x y)
  | _, _ => None
  end.

Definition mlt (a b : minutes) : bool :=
  match a, b with
  | Some x, Some y => x <? y
  | _, _ => false
  end.

(** Equality of numbers up to the representation of the rational. *)
Definition num_eq (a b : number) : Prop :=
  match a, b with
  | Some x, Some y => (x == y)%Q
  | None, None => True
  | _, _ => False
  end.

(** An optional value is there (not [undefined], not [null]). *)
Definition present {A} (o : option A) : bool :=
  match o with
  | Some _ => true
  | None => false
  end.

(** [!s] for an optional string field: absent or empty. *)
Definition falsy (o : option string) : bool :=
  match o with
  | None => true
  | Some EmptyString => true
  | Some _ => false
  end.

(** [s.split(c)] *)
Fixpoint split (c : ascii) (s : string) : list string :=
  match s with
  | EmptyString => [EmptyString]
  | String a s' =>
      if Ascii.eqb a c then EmptyString :: split c s'
      else match split c s' with
           | h :: t => String a h :: t
           | [] => [String a EmptyString]
           end
  end.

Definition digit (a : ascii) : option Z :=
  let n := Z.of_nat (nat_of_ascii a) in
  if (48 <=? n) && (n <=? 57) then Some (n - 48) else None.

Fixpoint digits (acc : Z) (s : string) : option Z :=
  match s with
  | EmptyString => Some acc
  | String a s' =>
      match digit a with
      | Some d => digits (acc * 10 + d) s'
      | None => None
      end
  end.

(** [Number(s)] on the strings that occur in a time of day: the empty
    string is 0, a run of decimal digits is its value, and every other
    string is NaN (signs, fractions and exponents do not occur in the
    HH:MM values this code handles and are mapped to NaN here). *)
Definition Number (s : string) : minutes := digits 0 s.

(** [Number] applied to an array slot that may be [undefined]. *)
Definition NumberAt (parts : list string) (i : nat) : minutes :=
  match parts !! i with
  | Some s => Number s
  | None => None
  end.

Definition dquote : ascii := ascii_of_nat 34.

(** [s.replace] of every double-quote character by nothing. *)
Fixpoint stripQuotes (s : string) : string :=
  match s with
  | EmptyString => EmptyString
  | String a s' =>
      if Ascii.eqb a dquote then stripQuotes s' else String a (stripQuotes s')
  end.

(** [s || dflt] on strings. *)
Definition orElse (s dflt : string) : string :=
  match s with
  | EmptyString => dflt
  | _ => s
  end.

Definition isSpace (a : ascii) : bool :=
  let n := nat_of_ascii a in
  ((9 <=? n) && (n <=? 13))%nat || (n =? 32)%nat.

Fixpoint trimStart (s : string) : string :=
  match s with
  | EmptyString => EmptyString
  | String a s' => if isSpace a then trimStart s' else s
  end.

Fixpoint trimEnd (s : string) : string :=
  match s with
  | EmptyString => EmptyString
  | String a s' =>
      match trimEnd s' with
      | EmptyString => if isSpace a then EmptyString else String a EmptyString
      | t => String a t
      end
  end.

(** [s.trim()] for ASCII white space. *)
Definition trim (s : string) : string := trimEnd (trimStart s).

(** Nearest multiple of 1/100, a tie going to the larger magnitude. *)
Definition roundHundredths (q : Q) : Q :=
  (inject_Z (Qfloor (q * 100 + (1 # 2))) / 100)%Q.

(** [parseFloat(x.toFixed(2))] *)
Definition toFixed2 (x : number) : number :=
  match x with
  | Some q =>
      if Qle_bool 0 q then Some (roundHundredths q)
      else Some (- roundHundredths (- q))%Q
  | None => None
  end.

(** [m / 60] *)
Definition hoursOf (m : minutes) : number :=
  match m with
  | Some z => Some (inject_Z z / 60)%Q
  | None => None
  end.

End JS.

(** ** Calendar dates (date-fns and [Date]) *)

Module Dates.

(** Days since 1970-01-01. *)
Definition date := Z.

(** [d.getDay()]: 0 is Sunday, 6 is Saturday. *)
Definition getDay (d : date) : Z := (d + 4) mod 7.

(** [startOfWeek(d, { weekStartsOn: 1 })] *)
Definition startOfWeek (d : date) : date := d - (getDay d + 6) mod 7.

(** [endOfWeek(d, { weekStartsOn: 1 })] *)
Definition endOfWeek (d : date) : date := startOfWeek d + 6.

Definition isSameDay (a b : date) : bool := a =? b.

(** [isWithinInterval(d, { start, end })] on whole days. *)
Definition isWithinInterval (d start_ end_ : date) : bool :=
  (start_ <=? d) && (d <=? end_).

End Dates.

Import JS Dates.

(** ** Records shared by the components *)

(** The per-day ceilings of the settings map ([settings.daily_limits]). *)
Record DailyLimits := {
  monday : Q; tuesday : Q; wednesday : Q; thursday : Q;
  friday : Q; saturday : Q; sunday : Q
}.

(** The settings map returned by [settingsAPI.getAll()]; every key may be
    missing.  The schedule values are stored as JSON strings, hence the
    quotes that the readers strip. *)
Record Settings := {
  normal_hours_start : option string;
  normal_hours_end : option string;
  normal_hours_end_friday : option string;
  saturday_hours_start : option string;
  saturday_hours_end : option string;
  weekly_limit : option Q;
  daily_limits : option DailyLimits
}.

(** A timesheet record as the approval screens read it ([Reporte]).
    [aprobado]: 0 or absent is pending, 1 approved, 2 rejected, 3 approved
    for the normal hours only. *)
Record Reporte := {
  id : Z;
  horas : Q;
  fecha_trabajada : option date;
  cliente : string;
  nombre_company : option string;
  documento_id : Z;
  aprobado : option Z;
  aprobadopor : option Z;
  hora_inicio : option string;
  hora_fin : option string
}.

(** What [calculateHoursBreakdown] returns, in hours. *)
Record Breakdown := { normal : number; extra : number; total : number }.

(** The minute counts [calculateHoursBreakdown] works with before it rounds
    them to hundredths of an hour. *)
Record Split := {
  normalMinutes : minutes;
  extraMinutes : minutes;
  totalMinutes : minutes
}.

(** The rounding every return statement applies to a minute count. *)
Definition roundedHours (m : minutes) : number := toFixed2 (hoursOf m).

Definition splitHours (s : Split) : Breakdown :=
  {| normal := roundedHours (normalMinutes s);
     extra := roundedHours (extraMinutes s);
     total := roundedHours (totalMinutes s) |}.

(** Helper [timeToMinutes], the same text in every component that has it:
    HH:MM to minutes since midnight. *)
Definition timeToMinutes (timeStr : string) : minutes :=
  match timeStr with
  | EmptyString => Some 0
  | _ =>
      let parts := split ":" timeStr in
      let h := NumberAt parts 0 in
      let m := NumberAt parts 1 in
      madd (mmul h (Some 60)) m
  end.

(** [settings.key?.replace(..) || dflt] *)
Definition settingOr (v : option string) (dflt : string) : string :=
  match v with
  | Some s => orElse (stripQuotes s) dflt
  | None => dflt
  end.

(** The guard of the legacy path:
    [!report.hora_inicio || !report.hora_fin || !report.fecha_trabajada || !settings] *)
Definition lacksTimeRange (report : Reporte) (settings : option Settings) : bool :=
  falsy (hora_inicio report) || falsy (hora_fin report)
  || negb (present (fecha_trabajada report))
  || negb (present settings).

Definition legacyBreakdown (report : Reporte) : Breakdown :=
  {| normal := Some (horas report); extra := Some 0%Q; total := Some (horas report) |}.

(** The intersection of the worked range with the normal window. *)
Definition overlapMinutes (startMin endMin limitStart limitEnd : minutes) : minutes :=
  let overlapStart := mmax startMin limitStart in
  let overlapEnd := mmin endMin limitEnd in
  if mlt overlapStart overlapEnd then msub overlapEnd overlapStart else Some 0.

(** [endMin - startMin], plus a day when negative. *)
Definition workedMinutes (startMin endMin : minutes) : minutes :=
  let totalMinutes := msub endMin startMin in
  if mlt totalMinutes (Some 0) then madd totalMinutes (Some (24 * 60)) else totalMinutes.

(** The Friday override: [dayOfWeek === 5 && settings.normal_hours_end_friday]. *)
Definition fridayEnd (dayOfWeek : Z) (settings : Settings) (normalEndStr : string) : string :=
  match normal_hours_end_friday settings with
  | Some (String _ _ as s) => if dayOfWeek =? 5 then stripQuotes s else normalEndStr
  | _ => normalEndStr
  end.

(** ** Sorting

    [l.sort(cmp)] is stable; with [before x y] for [cmp(x, y) < 0], it gives
    what the insertion of the elements one by one from the right gives. *)
Fixpoint insertSorted {A} (before : A → A → bool) (x : A) (l : list A) : list A :=
  match l with
  | [] => [x]
  | y :: l' => if before y x then y :: insertSorted before x l' else x :: y :: l'
  end.

Definition stableSort {A} (before : A → A → bool) (l : list A) : list A :=
  foldr (insertSorted before) [] l.

(** ** PayrollReview: the approval screen *)

Module PayrollReview.

Definition minuteSplit (hi hf : string) (fecha : date) (settings : Settings) : Split :=
  let startMin := timeToMinutes hi in
  let endMin := timeToMinutes hf in
  let dayOfWeek := getDay fecha in
  let normalStartStr := settingOr (normal_hours_start settings) "07:30" in
  let normalEndStr := settingOr (normal_hours_end settings) "17:30" in
  let normalEndStr := fridayEnd dayOfWeek settings normalEndStr in
  let limitStart := timeToMinutes normalStartStr in
  let limitEnd := timeToMinutes normalEndStr in
  let normalMinutes := overlapMinutes startMin endMin limitStart limitEnd in
  let totalMinutes := workedMinutes startMin endMin in
  let extraMinutes := mmax (Some 0) (msub totalMinutes normalMinutes) in
  {| normalMinutes := normalMinutes;
     extraMinutes := extraMinutes;
     totalMinutes := totalMinutes |}.

Definition calculateHoursBreakdown (settings : option Settings) (report : Reporte) : Breakdown :=
  if lacksTimeRange report settings then legacyBreakdown report
  else
    match hora_inicio report, hora_fin report, fecha_trabajada report, settings with
    | Some hi, Some hf, Some fecha, Some st => splitHours (minuteSplit hi hf fecha st)
    | _, _, _, _ => legacyBreakdown report
    end.

(** *** Day and week scopes, bulk transitions *)

(** [r.aprobado === n] *)
Definition statusIs (r : Reporte) (n : Z) : bool :=
  match aprobado r with
  | Some k => k =? n
  | None => false
  end.

Definition getReportsForDate (reports : list Reporte) (d : date) : list Reporte :=
  List.filter
    (λ r, match fecha_trabajada r with
          | None => false
          | Some reportDate => isSameDay reportDate d
          end)
    reports.

(** The fields the approval requests send: [{ aprobado, aprobadopor }]. *)
Definition patch (newStatus coordinatorId : Z) (r : Reporte) : Reporte :=
  {| id := id r; horas := horas r; fecha_trabajada := fecha_trabajada r;
     cliente := cliente r; nombre_company := nombre_company r;
     documento_id := documento_id r;
     aprobado := Some newStatus; aprobadopor := Some coordinatorId;
     hora_inicio := hora_inicio r; hora_fin := hora_fin r |}.

(** Modelled from the spec: the entry store's [update(id, partialEntry)],
    which is a remote service; here [reportesAPI.update(id, patch)] followed
    by the reload of [fetchReports].  The record with that identifier gets
    the two fields, every other record is returned as it was, and the
    request is taken to succeed. *)
Definition update (i : Z) (newStatus coordinatorId : Z) (store : list Reporte)
  : list Reporte :=
  map (λ r, if id r =? i then patch newStatus coordinatorId r else r) store.

(** [Promise.all(pending.map(report => reportesAPI.update(report.id, ...)))] *)
Definition updateAll (pendingReports : list Reporte) (newStatus coordinatorId : Z)
    (store : list Reporte) : list Reporte :=
  foldl (λ st report, update (id report) newStatus coordinatorId st) store pendingReports.

Definition handleBulkApproval (coordinatorId : Z) (reports : list Reporte)
    (d : date) (newStatus : Z) : list Reporte :=
  let dayReports := getReportsForDate reports d in
  let pendingReports :=
    List.filter (λ r, negb (statusIs r 1) && negb (statusIs r 2)) dayReports in
  match pendingReports with
  | [] => reports
  | _ => updateAll pendingReports newStatus coordinatorId reports
  end.

Definition getPendingCountForDate (reports : list Reporte) (d : date) : nat :=
  length (List.filter (λ r, negb (statusIs r 1) && negb (statusIs r 2))
                      (getReportsForDate reports d)).

Definition handleBulkWeekApproval (coordinatorId : Z) (reports : list Reporte)
    (weekStart weekEnd : date) (newStatus : Z) : list Reporte :=
  let pendingReportsInWeek :=
    List.filter
      (λ report,
         match fecha_trabajada report with
         | None => false
         | Some reportDate =>
             if statusIs report 1 || statusIs report 2 then false
             else isWithinInterval reportDate weekStart weekEnd
         end)
      reports in
  match pendingReportsInWeek with
  | [] => reports
  | _ => updateAll pendingReportsInWeek newStatus coordinatorId reports
  end.

(** *** Weekly totals *)

Record ClientData := {
  client_total : number;
  client_approved : number;
  client_pending : number;
  client_rejected : number;
  client_name : string
}.

Record WeekData := {
  weekStart : date;
  weekEnd : date;
  totalHours : number;
  approved : number;
  pending : number;
  rejected : number;
  extraHours : number;
  byClient : gmap string ClientData
}.

(** [week.byClient.set(..)]: the week with its client table replaced. *)
Definition withByClient (week : WeekData) (table : gmap string ClientData) : WeekData :=
  {| weekStart := weekStart week; weekEnd := weekEnd week;
     totalHours := totalHours week; approved := approved week;
     pending := pending week; rejected := rejected week;
     extraHours := extraHours week; byClient := table |}.

Definition newWeek (ws we : date) : WeekData :=
  {| weekStart := ws; weekEnd := we; totalHours := Some 0%Q;
     approved := Some 0%Q; pending := Some 0%Q; rejected := Some 0%Q;
     extraHours := Some 0%Q; byClient := ∅ |}.

Definition newClient (name : string) : ClientData :=
  {| client_total := Some 0%Q; client_approved := Some 0%Q;
     client_pending := Some 0%Q; client_rejected := Some 0%Q;
     client_name := name |}.

(** The status branch of the loop body, on the week counters. *)
Definition countWeek (settings : option Settings) (report : Reporte) (week : WeekData)
  : WeekData :=
  let breakdown := calculateHoursBreakdown settings report in
  let extraHours' := nadd (extraHours week) (extra breakdown) in
  let totalHours' := nadd (totalHours week) (Some (horas report)) in
  let h := Some (horas report) in
  let '(a, p, r) :=
    if statusIs report 1 then (nadd (approved week) h, pending week, rejected week)
    else if statusIs report 2 then (approved week, pending week, nadd (rejected week) h)
    else if statusIs report 3 then
      let bd := calculateHoursBreakdown settings report in
      (nadd (approved week) (normal bd), pending week, nadd (rejected week) (extra bd))
    else (approved week, nadd (pending week) h, rejected week) in
  {| weekStart := weekStart week; weekEnd := weekEnd week;
     totalHours := totalHours'; approved := a; pending := p; rejected := r;
     extraHours := extraHours'; byClient := byClient week |}.

(** The same branch on the counters of the report's client. *)
Definition countClient (settings : option Settings) (report : Reporte)
    (clientData : ClientData) : ClientData :=
  let h := Some (horas report) in
  let total' := nadd (client_total clientData) h in
  let '(a, p, r) :=
    if statusIs report 1 then
      (nadd (client_approved clientData) h, client_pending clientData,
       client_rejected clientData)
    else if statusIs report 2 then
      (client_approved clientData, client_pending clientData,
       nadd (client_rejected clientData) h)
    else if statusIs report 3 then
      let bd := calculateHoursBreakdown settings report in
      (nadd (client_approved clientData) (normal bd), client_pending clientData,
       nadd (client_rejected clientData) (extra bd))
    else
      (client_approved clientData, nadd (client_pending clientData) h,
       client_rejected clientData) in
  {| client_total := total'; client_approved := a; client_pending := p;
     client_rejected := r; client_name := client_name clientData |}.

(** One iteration of [reports.forEach]; the map is keyed by the Monday that
    [format(weekStart, 'yyyy-MM-dd')] prints. *)
Definition addReport (settings : option Settings) (weeks : gmap Z WeekData)
    (report : Reporte) : gmap Z WeekData :=
  match fecha_trabajada report with
  | None => weeks
  | Some reportDate =>
      let ws := startOfWeek reportDate in
      let we := endOfWeek reportDate in
      let weekKey := ws in
      let clientKey := orElse (cliente report) "Sin Cliente" in
      let clientName := orElse (default EmptyString (nombre_company report)) clientKey in
      let week := default (newWeek ws we) (weeks !! weekKey) in
      let week := countWeek settings report week in
      let clientData := default (newClient clientName) (byClient week !! clientKey) in
      let clientData := countClient settings report clientData in
      let week := withByClient week (<[clientKey := clientData]> (byClient week)) in
      <[weekKey := week]> weeks
  end.

Definition weeksOf (settings : option Settings) (reports : list Reporte)
  : gmap Z WeekData :=
  foldl (addReport settings) ∅ reports.

Definition inMonthView (monthStart monthEnd : date) (week : WeekData) : bool :=
  isWithinInterval (weekStart week) monthStart monthEnd
  || isWithinInterval (weekEnd week) monthStart monthEnd.

(** The comparator [(a, b) => a.weekStart.getTime() - b.weekStart.getTime()]. *)
Definition weekBefore (a b : WeekData) : Prop := weekStart a <= weekStart b.

#[global] Instance weekBefore_dec a b : Decision (weekBefore a b).
Proof. unfold weekBefore. apply _. Defined.

(** [Array.from(weeks.values()).filter(..).sort(..)]: the weeks have
    pairwise different Mondays, so the sort fixes the order whatever order
    the values are listed in. *)
Definition weeklyTotals (settings : option Settings) (reports : list Reporte)
    (monthStart monthEnd : date) : list WeekData :=
  merge_sort weekBefore
    (List.filter (inMonthView monthStart monthEnd)
       (map snd (map_to_list (weeksOf settings reports)))).

(** *** The buttons of the reports view *)

Record View := { selectedDate : date; selectedEmployee : Z }.

Definition employeeReports (v : View) (reports : list Reporte) : list Reporte :=
  List.filter (λ r, documento_id r =? selectedEmployee v)
              (getReportsForDate reports (selectedDate v)).

(** The last branch of the badge cascade: none of 1, 2, 3. *)
Definition showsButtons (report : Reporte) : bool :=
  negb (statusIs report 1) && negb (statusIs report 2) && negb (statusIs report 3).

Definition hasExtras (settings : option Settings) (report : Reporte) : bool :=
  ngt (extra (calculateHoursBreakdown settings report)) (Some 0%Q).

Inductive Action :=
| AprobarTodo (i : Z)
| AprobarSinExtras (i : Z)
| RechazarTodo (i : Z)
| AprobarTodos (d : date)
| RechazarTodos (d : date)
| AprobarSemana (ws we : date)
| RechazarSemana (ws we : date).

(** Which buttons the screen renders. *)
Inductive offered (settings : option Settings) (v : View) (reports : list Reporte)
  : Action → Prop :=
| offer_approve report :
    In report (employeeReports v reports) → showsButtons report = true →
    offered settings v reports (AprobarTodo (id report))
| offer_normal_only report :
    In report (employeeReports v reports) → showsButtons report = true →
    hasExtras settings report = true →
    offered settings v reports (AprobarSinExtras (id report))
| offer_reject report :
    In report (employeeReports v reports) → showsButtons report = true →
    offered settings v reports (RechazarTodo (id report))
| offer_day_approve :
    (0 < getPendingCountForDate reports (selectedDate v))%nat →
    offered settings v reports (AprobarTodos (selectedDate v))
| offer_day_reject :
    (0 < getPendingCountForDate reports (selectedDate v))%nat →
    offered settings v reports (RechazarTodos (selectedDate v))
| offer_week_approve monthStart monthEnd week :
    In week (weeklyTotals settings reports monthStart monthEnd) →
    ngt (pending week) (Some 0%Q) = true →
    offered settings v reports (AprobarSemana (weekStart week) (weekEnd week))
| offer_week_reject monthStart monthEnd week :
    In week (weeklyTotals settings reports monthStart monthEnd) →
    ngt (pending week) (Some 0%Q) = true →
    offered settings v reports (RechazarSemana (weekStart week) (weekEnd week)).

(** What the click handler of each button does to the store. *)
Definition perform (coordinatorId : Z) (a : Action) (reports : list Reporte)
  : list Reporte :=
  match a with
  | AprobarTodo i => update i 1 coordinatorId reports
  | AprobarSinExtras i => update i 3 coordinatorId reports
  | RechazarTodo i => update i 2 coordinatorId reports
  | AprobarTodos d => handleBulkApproval coordinatorId reports d 1
  | RechazarTodos d => handleBulkApproval coordinatorId reports d 2
  | AprobarSemana ws we => handleBulkWeekApproval coordinatorId reports ws we 1
  | RechazarSemana ws we => handleBulkWeekApproval coordinatorId reports ws we 2
  end.

(** *** The calendar view *)

(** The badge of a day cell.  [dayStatus] returns [null] for a day without
    reports, one of four strings, or reaches the end of its body without a
    [return] ([undefined]). *)
Inductive DayStatus := Mixed | Pending | Rejected | Approved.

Inductive DayResult := Null | Undefined | Status (s : DayStatus).

Definition dayStatus (reports : list Reporte) (d : date) : DayResult :=
  let dayReports := getReportsForDate reports d in
  if (length dayReports =? 0)%nat then Null
  else
    let hasPending :=
      existsb (λ r, negb (statusIs r 1) && negb (statusIs r 2)) dayReports in
    let hasRejected := forallb (λ r, statusIs r 2) dayReports in
    let allApproved := forallb (λ r, statusIs r 1) dayReports in
    let allMixed :=
      existsb (λ r, statusIs r 2) dayReports && existsb (λ r, statusIs r 1) dayReports
      && (1 <? length dayReports)%nat in
    if allMixed then Status Mixed
    else if hasPending then Status Pending
    else if hasRejected then Status Rejected
    else if allApproved then Status Approved
    else Undefined.

(** *** The employees of the selected day *)

(** An entry of [uniqueEmployees]; the display name is not part of the
    embedding's [Reporte] and is left out. *)
Record Employee := { emp_id : Z; emp_reports : list Reporte }.

(** One iteration of [dayReports.forEach]: the entry of the employee is
    created if it is not there, then the report is pushed onto it.  A [Map]
    lists its entries in the order of their insertion. *)
Fixpoint pushReport (r : Reporte) (uniqueEmployees : list Employee) : list Employee :=
  match uniqueEmployees with
  | [] => [ {| emp_id := documento_id r; emp_reports := [] ++ [r] |} ]
  | e :: rest =>
      if emp_id e =? documento_id r
      then {| emp_id := emp_id e; emp_reports := emp_reports e ++ [r] |} :: rest
      else e :: pushReport r rest
  end.

Definition getEmployeesForSelectedDate (selectedDate : option date)
    (reports : list Reporte) : list Employee :=
  match selectedDate with
  | None => []
  | Some d => foldl (λ uniqueEmployees r, pushReport r uniqueEmployees) []
                    (getReportsForDate reports d)
  end.

(** *** The summary by technician *)

Record TechnicianData := { tech_total : Q; tech_reports : nat }.

(** One iteration of [reports.forEach] on the [summary] map, for a report
    that falls in the range. *)
Fixpoint addHours (r : Reporte) (summary : list (Z * TechnicianData))
  : list (Z * TechnicianData) :=
  match summary with
  | [] => [(documento_id r,
            {| tech_total := 0 + horas r; tech_reports := 0 + 1 |})]
  | (k, data) :: rest =>
      if k =? documento_id r
      then (k, {| tech_total := tech_total data + horas r;
                  tech_reports := tech_reports data + 1 |}) :: rest
      else (k, data) :: addHours r rest
  end.

(** The [summary] map once the loop is over.  [inRange] is the test
    [reportDate >= from && reportDate <= to]: [from] and [to] are instants
    built from the two date inputs, and which days pass depends on the zone
    of the browser, so the test is a parameter here. *)
Definition technicianSummary (inRange : date → bool) (reports : list Reporte)
  : list (Z * TechnicianData) :=
  foldl (λ summary r,
           match fecha_trabajada r with
           | None => summary
           | Some reportDate => if inRange reportDate then addHours r summary else summary
           end)
        [] reports.

(** [monthlyTechnicianSummary]; the range is [None] while one of the two
    date inputs is empty. *)
Definition monthlyTechnicianSummary (range : option (date → bool))
    (reports : list Reporte) : list TechnicianData :=
  match range with
  | None => []
  | Some inRange =>
      stableSort (λ a b, negb (Qle_bool (tech_total a) (tech_total b)))
                 (map snd (technicianSummary inRange reports))
  end.

End PayrollReview.

(** ** The hour counters of a week, over any addition

    The four hour counters that the loop of [weeklyTotals] keeps for a week,
    and the status branch of the loop body, with the addition of the numbers
    left open.  [PayrollReview.countWeek] is this branch on the rationals of
    the embedding ([countWeek_counters]); on the binary64 numbers of
    [Doubles] it is the arithmetic the program runs. *)

Module WeekCounters.

Record t (N : Type) := {
  totalHours : N;
  approved : N;
  pending : N;
  rejected : N
}.

(** What the loop reads of a report: its hours, its status, and the normal
    and overtime hours [calculateHoursBreakdown] returns for it. *)
Record Entry (N : Type) := {
  horas : N;
  aprobado : option Z;
  normal : N;
  extra : N
}.

Arguments totalHours {N}.
Arguments approved {N}.
Arguments pending {N}.
Arguments rejected {N}.
Arguments horas {N}.
Arguments aprobado {N}.
Arguments normal {N}.
Arguments extra {N}.

Section Arithmetic.

Context {N : Type} (add : N → N → N) (zero : N).

(** The counters of the week a report opens. *)
Definition fresh : t N :=
  {| totalHours := zero; approved := zero; pending := zero; rejected := zero |}.

(** [report.aprobado === n] *)
Definition statusIs (report : Entry N) (n : Z) : bool :=
  match aprobado report with
  | Some k => k =? n
  | None => false
  end.

(** [week.totalHours += report.horas] and the branch on [report.aprobado]. *)
Definition count (week : t N) (report : Entry N) : t N :=
  let totalHours' := add (totalHours week) (horas report) in
  if statusIs report 1 then
    {| totalHours := totalHours'; approved := add (approved week) (horas report);
       pending := pending week; rejected := rejected week |}
  else if statusIs report 2 then
    {| totalHours := totalHours'; approved := approved week;
       pending := pending week; rejected := add (rejected week) (horas report) |}
  else if statusIs report 3 then
    {| totalHours := totalHours'; approved := add (approved week) (normal report);
       pending := pending week; rejected := add (rejected week) (extra report) |}
  else
    {| totalHours := totalHours'; approved := approved week;
       pending := add (pending week) (horas report); rejected := rejected week |}.

(** The loop over the reports of one week. *)
Definition run (reports : list (Entry N)) : t N := foldl count fresh reports.

(** [approved + rejected + pending] *)
Definition counted (week : t N) : N :=
  add (add (approved week) (rejected week)) (pending week).

End Arithmetic.

End WeekCounters.

(** The numbers of the program: binary64 floating point. *)
Module Doubles.

Import PrimFloat.

#[local] Set Warnings "-inexact-float".

(** A report of [h] hours in status [status] whose breakdown has no
    overtime. *)
Definition plain (h : float) (status : Z) : WeekCounters.Entry float :=
  {| WeekCounters.horas := h; WeekCounters.aprobado := Some status;
     WeekCounters.normal := h; WeekCounters.extra := 0%float |}.

(** Three reports of one week: six minutes pending, six minutes approved,
    an hour and six minutes pending. *)
Definition shortEntries : list (WeekCounters.Entry float) :=
  [ plain 0.1%float 0; plain 0.1%float 1; plain 1.1%float 0 ].

Definition week : WeekCounters.t float :=
  WeekCounters.run PrimFloat.add 0%float shortEntries.

(** The total of that week in the program, and what its approved, rejected
    and pending hours add up to. *)
Definition total_shown : float := 1.3%float.
Definition counted_shown : float := 1.3000000000000003%float.

End Doubles.

(** ** OvertimeReport: the monthly overtime report *)

Module OvertimeReport.

Definition minuteSplit (hi hf : string) (fecha : date) (settings : Settings) : Split :=
  let startMin := timeToMinutes hi in
  let endMin := timeToMinutes hf in
  let totalMinutes := workedMinutes startMin endMin in
  let dayOfWeek := getDay fecha in
  if dayOfWeek =? 0 then
    {| normalMinutes := Some 0; extraMinutes := totalMinutes; totalMinutes := totalMinutes |}
  else
    let normalStartStr := settingOr (normal_hours_start settings) "07:30" in
    let normalEndStr := settingOr (normal_hours_end settings) "17:30" in
    let normalStartStr :=
      if dayOfWeek =? 6 then settingOr (saturday_hours_start settings) "07:30"
      else normalStartStr in
    let normalEndStr :=
      if dayOfWeek =? 6 then settingOr (saturday_hours_end settings) "12:00"
      else normalEndStr in
    let normalEndStr := fridayEnd dayOfWeek settings normalEndStr in
    let limitStart := timeToMinutes normalStartStr in
    let limitEnd := timeToMinutes normalEndStr in
    let normalMinutes := overlapMinutes startMin endMin limitStart limitEnd in
    let extraMinutes := mmax (Some 0) (msub totalMinutes normalMinutes) in
    {| normalMinutes := normalMinutes;
       extraMinutes := extraMinutes;
       totalMinutes := totalMinutes |}.

Definition calculateHoursBreakdown (settings : option Settings) (report : Reporte) : Breakdown :=
  if lacksTimeRange report settings then legacyBreakdown report
  else
    match hora_inicio report, hora_fin report, fecha_trabajada report, settings with
    | Some hi, Some hf, Some fecha, Some st =>
        let s := minuteSplit hi hf fecha st in
        if getDay fecha =? 0 then
          {| normal := Some 0%Q;
             extra := roundedHours (totalMinutes s);
             total := roundedHours (totalMinutes s) |}
        else splitHours s
    | _, _, _, _ => legacyBreakdown report
    end.

(** *** The summary by employee *)

(** The hour counters of a row of [summaryData]; the name and the area
    shown with them are not part of the embedding's [Reporte]. *)
Record Row := { row_normal : number; row_extra : number; row_total : number }.

(** The body of the [reduce] for a report that passes the filters: the row
    of the employee is created if it is not there, then the breakdown is
    added to it, the overtime only when the status is not 3. *)
Definition addToSummary (settings : option Settings) (acc : gmap Z Row)
    (report : Reporte) : gmap Z Row :=
  let breakdown := calculateHoursBreakdown settings report in
  let empId := documento_id report in
  let row :=
    default {| row_normal := Some 0%Q; row_extra := Some 0%Q; row_total := Some 0%Q |}
            (acc !! empId) in
  <[empId :=
      {| row_normal := nadd (row_normal row) (normal breakdown);
         row_extra :=
           if PayrollReview.statusIs report 3 then row_extra row
           else nadd (row_extra row) (extra breakdown);
         row_total := nadd (row_total row) (total breakdown) |}]> acc.

(** The callback of the [reduce].  [shown] is [None] while one of the two
    date inputs is empty; otherwise it is the test a dated report has to
    pass: its date within the range (a comparison of instants that depends
    on the zone of the browser) and its area the selected one (a field the
    embedding's [Reporte] does not have). *)
Definition summaryStep (settings : option Settings) (shown : option (Reporte → bool))
    (acc : gmap Z Row) (report : Reporte) : gmap Z Row :=
  match fecha_trabajada report, shown with
  | Some _, Some passes =>
      if passes report then addToSummary settings acc report else acc
  | _, _ => acc
  end.

Definition summaryData (settings : option Settings) (shown : option (Reporte → bool))
    (reports : list Reporte) : gmap Z Row :=
  foldl (summaryStep settings shown) ∅ reports.

(** [summaryList.reduce((sum, item) => sum + item.extra, 0)] *)
Definition totalExtras (summaryList : list Row) : number :=
  foldl (λ sum item, nadd sum (row_extra item)) (Some 0%Q) summaryList.

End OvertimeReport.

(** ** The older copy of the overtime report kept in CalendarInstructions.tsx *)

Module CalendarInstructions.

Definition minuteSplit (hi hf : string) (fecha : date) (settings : Settings) : Split :=
  let startMin := timeToMinutes hi in
  let endMin := timeToMinutes hf in
  let dayOfWeek := getDay fecha in
  let normalStartStr := settingOr (normal_hours_start settings) "07:30" in
  let normalEndStr := settingOr (normal_hours_end settings) "17:30" in
  let normalEndStr := fridayEnd dayOfWeek settings normalEndStr in
  let limitStart := timeToMinutes normalStartStr in
  let limitEnd := timeToMinutes normalEndStr in
  let normalMinutes := overlapMinutes startMin endMin limitStart limitEnd in
  let totalMinutes := workedMinutes startMin endMin in
  let extraMinutes := mmax (Some 0) (msub totalMinutes normalMinutes) in
  {| normalMinutes := normalMinutes;
     extraMinutes := extraMinutes;
     totalMinutes := totalMinutes |}.

Definition calculateHoursBreakdown (settings : option Settings) (report : Reporte) : Breakdown :=
  if lacksTimeRange report settings then legacyBreakdown report
  else
    match hora_inicio report, hora_fin report, fecha_trabajada report, settings with
    | Some hi, Some hf, Some fecha, Some st => splitHours (minuteSplit hi hf fecha st)
    | _, _, _, _ => legacyBreakdown report
    end.

End CalendarInstructions.

(** ** The operative's calendar entry form *)

(** [HoursRecord]: an already-recorded entry as the form receives it.  The
    [fecha] string (yyyy-MM-dd) is kept as the day it names. *)
Module HoursRecord.
Record t := {
  id : option Z;
  clienteId : string;
  horas : Q;
  fecha : date;
  areaCliente : option string
}.
End HoursRecord.

Record Cliente := {
  nombre : string;
  elementoPEP : string;
  areas : list string
}.

Definition isEmpty (s : string) : bool :=
  match s with
  | EmptyString => true
  | _ => false
  end.

(** [l.reduce((sum, record) => sum + record.horas, 0)] *)
Definition sumHoras (l : list HoursRecord.t) : Q :=
  foldl (λ sum record, (sum + HoursRecord.horas record)%Q) 0%Q l.

(** *** The form that takes an hour count and enforces the ceilings *)

Module CalendarHoursEntryLimits.

Definition WEEKLY_HOURS_LIMIT_DEFAULT : Q := 44.

Definition DAILY_LIMITS_DEFAULT : DailyLimits :=
  {| monday := 9; tuesday := 9; wednesday := 9; thursday := 9;
     friday := 8; saturday := 0; sunday := 0 |}.

Record Props := {
  clientes : list Cliente;
  existingRecords : list HoursRecord.t;
  recordToEdit : option HoursRecord.t;
  settings : option Settings
}.

(** The form state.  [horas] is the text of a numeric input: [None] when it
    is empty, otherwise what [parseFloat] reads. *)
Record State := {
  selectedDate : option date;
  selectedCliente : string;
  horas : option Q;
  areaCliente : string
}.

(** [settings?.weekly_limit || WEEKLY_HOURS_LIMIT_DEFAULT] *)
Definition activeWeeklyLimit (p : Props) : Q :=
  match settings p with
  | Some st =>
      match weekly_limit st with
      | Some q => if Qeq_bool q 0 then WEEKLY_HOURS_LIMIT_DEFAULT else q
      | None => WEEKLY_HOURS_LIMIT_DEFAULT
      end
  | None => WEEKLY_HOURS_LIMIT_DEFAULT
  end.

(** The table indexed by [getDay()]: 0 is Sunday. *)
Definition limitOfDay (l : DailyLimits) (dayOfWeek : Z) : Q :=
  match dayOfWeek with
  | 1 => monday l
  | 2 => tuesday l
  | 3 => wednesday l
  | 4 => thursday l
  | 5 => friday l
  | 6 => saturday l
  | _ => sunday l
  end.

Definition activeDailyLimits (p : Props) : DailyLimits :=
  match settings p with
  | Some st => default DAILY_LIMITS_DEFAULT (daily_limits st)
  | None => DAILY_LIMITS_DEFAULT
  end.

Definition getWeeklyHours (p : Props) (d : date) : Q :=
  let weekStart := startOfWeek d in
  let weekEnd := endOfWeek d in
  sumHoras
    (List.filter (λ record, isWithinInterval (HoursRecord.fecha record) weekStart weekEnd)
                 (existingRecords p)).

Definition getDailyHours (p : Props) (d : date) : Q :=
  sumHoras (List.filter (λ record, HoursRecord.fecha record =? d) (existingRecords p)).

Record WeeklyHoursInfo := { used : Q; remaining : Q }.

Definition weeklyHoursInfo (p : Props) (s : State) : WeeklyHoursInfo :=
  match selectedDate s with
  | None => {| used := 0; remaining := activeWeeklyLimit p |}
  | Some d =>
      let usedHours := getWeeklyHours p d in
      let editingHours :=
        match recordToEdit p with
        | Some r => HoursRecord.horas r
        | None => 0%Q
        end in
      let adjustedUsed := (usedHours - editingHours)%Q in
      {| used := adjustedUsed; remaining := (activeWeeklyLimit p - adjustedUsed)%Q |}
  end.

(** The effect that opens the form on a record to edit: its date, client,
    hour count and area are copied into the form. *)
Definition openForEdit (r : HoursRecord.t) : State :=
  {| selectedDate := Some (HoursRecord.fecha r);
     selectedCliente := HoursRecord.clienteId r;
     horas := Some (HoursRecord.horas r);
     areaCliente := default EmptyString (HoursRecord.areaCliente r) |}.

(** The texts [setWeeklyHoursError] receives, by template, with the numbers
    each one interpolates. *)
Inductive Mensaje :=
| ClienteNoEncontrado
| DiaNoPermitido (d : date)
| LimiteDiarioAlcanzado (registradas maximo : Q)
| LimiteDiarioExcedido (horasNumero registradas disponibles maximo : Q)
| LimiteSemanalExcedido (horasNumero disponibles limite : Q).

Inductive Outcome :=
| Ignored
| Rejected (m : Mensaje)
| Saved (clienteId : string) (horasNumero : Q) (fecha : date) (area : string).

(** The second half of [handleSubmit]: the daily and the weekly ceiling,
    reached once the fields are filled in and the client is found. *)
Definition checkLimits (p : Props) (s : State) (horasNumero : Q) (d : date) : Outcome :=
  let dayOfWeek := getDay d in
  let maxPermitido := limitOfDay (activeDailyLimits p) dayOfWeek in
  let horasYaRegistradas := getDailyHours p d in
  let horasEditando :=
    match recordToEdit p with
    | Some r => HoursRecord.horas r
    | None => 0%Q
    end in
  let horasExistentesAjustadas := (horasYaRegistradas - horasEditando)%Q in
  let totalHorasDia := (horasExistentesAjustadas + horasNumero)%Q in
  if Qeq_bool maxPermitido 0 then Rejected (DiaNoPermitido d)
  else if negb (Qle_bool totalHorasDia maxPermitido) then
    let disponibles := (maxPermitido - horasExistentesAjustadas)%Q in
    if Qle_bool disponibles 0
    then Rejected (LimiteDiarioAlcanzado horasExistentesAjustadas maxPermitido)
    else Rejected (LimiteDiarioExcedido horasNumero
                     horasExistentesAjustadas disponibles maxPermitido)
  else if negb (Qle_bool horasNumero (remaining (weeklyHoursInfo p s))) then
    Rejected (LimiteSemanalExcedido horasNumero
                (remaining (weeklyHoursInfo p s)) (activeWeeklyLimit p))
  else Saved (selectedCliente s) horasNumero d (trim (areaCliente s)).

Definition handleSubmit (p : Props) (s : State) : Outcome :=
  if isEmpty (selectedCliente s) then Ignored
  else if isEmpty (areaCliente s) || isEmpty (trim (areaCliente s)) then Ignored
  else
    match horas s with
    | None => Ignored
    | Some horasNumero =>
        if Qle_bool horasNumero 0 then Ignored
        else
          match selectedDate s with
          | None => Ignored
          | Some d =>
              match List.find (λ c, String.eqb (elementoPEP c) (selectedCliente s))
                              (clientes p) with
              | None => Rejected ClienteNoEncontrado
              | Some _ => checkLimits p s horasNumero d
              end
          end
    end.

(** *** Opening the form on a day, and the two selectors *)

(** [handleDayClick]; [today] is the day of [new Date()].  The result is
    the form state with the day selected when the dialog opens, [None] when
    the click is ignored. *)
Definition handleDayClick (today d : date) (s : State) : option State :=
  if today <? d then None
  else if getDay d =? 0 then None
  else Some {| selectedDate := Some d; selectedCliente := selectedCliente s;
               horas := horas s; areaCliente := areaCliente s |}.

(** [isDisabled] of a day cell: [isFuture || limitForDay === 0]. *)
Definition isDisabled (p : Props) (today day : date) : bool :=
  (today <? day) || Qeq_bool (limitOfDay (activeDailyLimits p) (getDay day)) 0.

(** A click on a day cell: a disabled button does not call its handler. *)
Definition clickDay (p : Props) (today day : date) (s : State) : option State :=
  if isDisabled p today day then None else handleDayClick today day s.

(** [l.includes(x)] *)
Definition includes (l : list string) (x : string) : bool :=
  existsb (String.eqb x) l.

Definition handleAreaChange (p : Props) (newArea : string) (s : State) : State :=
  let cleared :=
    if isEmpty (selectedCliente s) then false
    else
      match List.find (λ c, String.eqb (elementoPEP c) (selectedCliente s)) (clientes p) with
      | Some cliente => negb (includes (areas cliente) newArea)
      | None => false
      end in
  {| selectedDate := selectedDate s;
     selectedCliente := if cleared then EmptyString else selectedCliente s;
     horas := horas s;
     areaCliente := newArea |}.

Definition handleClienteChange (p : Props) (newClienteId : string) (s : State) : State :=
  let cleared :=
    if isEmpty (areaCliente s) then false
    else
      match List.find (λ c, String.eqb (elementoPEP c) newClienteId) (clientes p) with
      | Some nuevoCliente => negb (includes (areas nuevoCliente) (areaCliente s))
      | None => false
      end in
  {| selectedDate := selectedDate s;
     selectedCliente := newClienteId;
     horas := horas s;
     areaCliente := if cleared then EmptyString else areaCliente s |}.

(** [Array.from(new Set(l))]: the first occurrence of each value, in order. *)
Definition unique (l : list string) : list string :=
  foldl (λ seen x, if includes seen x then seen else seen ++ [x]) [] l.

(** [cleanAreas]; the default [sort()] compares the strings code unit by
    code unit, here character by character. *)
Definition cleanAreas (areas : list string) : list string :=
  stableSort String.ltb
    (unique (map trim
               (List.filter (λ area, negb (isEmpty area) && negb (isEmpty (trim area)))
                            areas))).

End CalendarHoursEntryLimits.

(** *** The form that takes a time range, a description and evidence *)

Module CalendarHoursEntryRange.

Definition WEEKLY_HOURS_LIMIT_DEFAULT : Q := 44.

Record Props := {
  clientes : list Cliente;
  existingRecords : list HoursRecord.t;
  recordToEdit : option HoursRecord.t;
  settings : option Settings
}.

Record Ubicacion := { lat : Q; lng : Q }.

Record State := {
  selectedDate : option date;
  selectedCliente : string;
  horaInicio : string;
  horaFin : string;
  areaCliente : string;
  dynamicAreas : list string;
  descripcion : string;
  tipoActividad : string;
  ubicacion : option Ubicacion;
  ubicacionRechazada : bool;
  firma : option string
}.

Definition activeWeeklyLimit (p : Props) : Q :=
  match settings p with
  | Some st =>
      match weekly_limit st with
      | Some q => if Qeq_bool q 0 then WEEKLY_HOURS_LIMIT_DEFAULT else q
      | None => WEEKLY_HOURS_LIMIT_DEFAULT
      end
  | None => WEEKLY_HOURS_LIMIT_DEFAULT
  end.

Definition getWeeklyHours (p : Props) (d : date) : Q :=
  let weekStart := startOfWeek d in
  let weekEnd := endOfWeek d in
  sumHoras
    (List.filter (λ record, isWithinInterval (HoursRecord.fecha record) weekStart weekEnd)
                 (existingRecords p)).

Inductive Mensaje :=
| FaltaHorario
| ClienteNoEncontrado
| HoraFinNoPosterior
| DescripcionObligatoria
| AreaNoDisponible (area : string)
| UbicacionRequerida
| FirmaRequerida.

(** The arguments of [onSave]. *)
Record Guardado := {
  g_cliente : string;
  g_horas : number;
  g_fecha : date;
  g_area : string;
  g_horaInicio : string;
  g_horaFin : string;
  g_descripcion : string;
  g_tipoActividad : string;
  g_latitud : option Q;
  g_longitud : option Q;
  g_firma : option string
}.

Inductive Outcome :=
| Ignored
| Rejected (m : Mensaje)
| Saved (g : Guardado).

(** [hh * 60 + mm] of [t.split(':').map(Number)] *)
Definition minutos (t : string) : minutes :=
  let parts := split ":" t in
  madd (mmul (NumberAt parts 0) (Some 60)) (NumberAt parts 1).

(** [x <= 0] on numbers; false on NaN. *)
Definition notPositive (x : number) : bool :=
  match x with
  | Some q => Qle_bool q 0
  | None => false
  end.

Definition includes (l : list string) (x : string) : bool :=
  existsb (String.eqb x) l.

Definition handleSubmit (p : Props) (s : State) : Outcome :=
  if isEmpty (selectedCliente s) then Ignored
  else if isEmpty (areaCliente s) || isEmpty (trim (areaCliente s)) then Ignored
  else if isEmpty (horaInicio s) || isEmpty (horaFin s) then Rejected FaltaHorario
  else
    match selectedDate s with
    | None => Ignored
    | Some d =>
        match List.find (λ c, String.eqb (elementoPEP c) (selectedCliente s))
                        (clientes p) with
        | None => Rejected ClienteNoEncontrado
        | Some selectedCompanyData =>
            let inicioMinutos := minutos (horaInicio s) in
            let finMinutos := minutos (horaFin s) in
            let horasCalculadas := hoursOf (msub finMinutos inicioMinutos) in
            if notPositive horasCalculadas then Rejected HoraFinNoPosterior
            else if isEmpty (descripcion s) || isEmpty (trim (descripcion s))
            then Rejected DescripcionObligatoria
            else
              let clienteAreas :=
                match dynamicAreas s with
                | [] => areas selectedCompanyData
                | _ => dynamicAreas s
                end in
              if negb (includes clienteAreas (trim (areaCliente s)))
              then Rejected (AreaNoDisponible (areaCliente s))
              else if String.eqb (tipoActividad s) "En Cliente"
                      && negb (present (ubicacion s))
                      && negb (ubicacionRechazada s)
              then Rejected UbicacionRequerida
              else if String.eqb (tipoActividad s) "En Cliente" && falsy (firma s)
              then Rejected FirmaRequerida
              else
                Saved {| g_cliente := selectedCliente s;
                         g_horas := horasCalculadas;
                         g_fecha := d;
                         g_area := trim (areaCliente s);
                         g_horaInicio := horaInicio s;
                         g_horaFin := horaFin s;
                         g_descripcion := descripcion s;
                         g_tipoActividad := tipoActividad s;
                         g_latitud := lat <$> ubicacion s;
                         g_longitud := lng <$> ubicacion s;
                         g_firma := if falsy (firma s) then None else firma s |}
        end
    end.

(** [settings?.key ? settings.key.replace(..) : dflt] *)
Definition proposed (v : option string) (dflt : string) : string :=
  match v with
  | Some (String _ _ as s) => stripQuotes s
  | _ => dflt
  end.

(** [handleDayClick]: the day is selected and the two times are set to the
    schedule of the settings; [None] when the click is ignored. *)
Definition handleDayClick (p : Props) (today d : date) (s : State) : option State :=
  if today <? d then None
  else
    let defaultStart := proposed (settings p ≫= normal_hours_start) "07:30" in
    let defaultEnd := proposed (settings p ≫= normal_hours_end) "17:30" in
    let defaultEndFriday := proposed (settings p ≫= normal_hours_end_friday) "16:30" in
    Some {| selectedDate := Some d;
            selectedCliente := selectedCliente s;
            horaInicio := defaultStart;
            horaFin := if getDay d =? 5 then defaultEndFriday else defaultEnd;
            areaCliente := areaCliente s;
            dynamicAreas := dynamicAreas s;
            descripcion := descripcion s;
            tipoActividad := tipoActividad s;
            ubicacion := ubicacion s;
            ubicacionRechazada := ubicacionRechazada s;
            firma := firma s |}.

End CalendarHoursEntryRange.

(** ** The operative's dashboard *)

Module OperativeDashboard.

(** [HoursRecord] as the dashboard keeps it: the fields the entry form
    reads, and the status. *)
Record Entry := { record : HoursRecord.t; aprobado : option Z }.

Record State := {
  clientes : list Cliente;
  hoursRecords : list Entry;
  editingRecord : option Entry
}.

Definition handleEditReport (e : Entry) (st : State) : State :=
  {| clientes := clientes st; hoursRecords := hoursRecords st; editingRecord := Some e |}.

Definition handleCancelEdit (st : State) : State :=
  {| clientes := clientes st; hoursRecords := hoursRecords st; editingRecord := None |}.

(** [editingRecord && editingRecord.id]: the identifier of the record being
    edited, when there is one and it is not 0. *)
Definition editingId (st : State) : option Z :=
  match editingRecord st with
  | Some e =>
      match HoursRecord.id (record e) with
      | Some i => if i =? 0 then None else Some i
      | None => None
      end
  | None => None
  end.

(** [r.id === editingRecord.id] *)
Definition hasId (i : Z) (r : Entry) : bool :=
  match HoursRecord.id (record r) with
  | Some j => j =? i
  | None => false
  end.

(** [handleSaveHours].  [respuesta] is what the request to the entry store
    answers: [None] when it fails (the records stay as they are and an error
    is shown), otherwise the identifier the store gave, which the creation
    uses. *)
Definition handleSaveHours (respuesta : option Z) (clienteId : string) (horas : Q)
    (fecha : date) (areaCliente : option string) (st : State) : State :=
  match List.find (λ c, String.eqb (elementoPEP c) clienteId) (clientes st) with
  | None => st
  | Some cliente =>
      match respuesta with
      | None => st
      | Some newId =>
          match editingId st with
          | Some i =>
              {| clientes := clientes st;
                 hoursRecords :=
                   map (λ r, if hasId i r
                             then {| record :=
                                       {| HoursRecord.id := HoursRecord.id (record r);
                                          HoursRecord.clienteId := clienteId;
                                          HoursRecord.horas := horas;
                                          HoursRecord.fecha := fecha;
                                          HoursRecord.areaCliente := areaCliente |};
                                     aprobado := Some 0 |}
                             else r)
                       (hoursRecords st);
                 editingRecord := None |}
          | None =>
              {| clientes := clientes st;
                 hoursRecords :=
                   hoursRecords st
                   ++ [ {| record :=
                             {| HoursRecord.id := Some newId;
                                HoursRecord.clienteId := clienteId;
                                HoursRecord.horas := horas;
                                HoursRecord.fecha := fecha;
                                HoursRecord.areaCliente := areaCliente |};
                           aprobado := Some 0 |} ];
                 editingRecord := editingRecord st |}
          end
      end
  end.

(** The props the dashboard gives the entry form; the version of the
    dashboard that loads the settings passes them, the other leaves them
    out. *)
Definition formProps (settings : option Settings) (st : State)
  : CalendarHoursEntryLimits.Props :=
  {| CalendarHoursEntryLimits.clientes := clientes st;
     CalendarHoursEntryLimits.existingRecords := map record (hoursRecords st);
     CalendarHoursEntryLimits.recordToEdit := record <$> editingRecord st;
     CalendarHoursEntryLimits.settings := settings |}.

(** A submission of the form: [handleSubmit] and, when it passes, the
    [onSave] it calls. *)
Definition submit (settings : option Settings) (respuesta : option Z)
    (s : CalendarHoursEntryLimits.State) (st : State) : State :=
  match CalendarHoursEntryLimits.handleSubmit (formProps settings st) s with
  | CalendarHoursEntryLimits.Saved clienteId horasNumero fecha area =>
      handleSaveHours respuesta clienteId horasNumero fecha (Some area) st
  | _ => st
  end.

End OperativeDashboard.

Module HoursHistoryByDate.

(** The edit button of a record of the history: [record.aprobado === 2 &&
    onEdit]; the dashboard passes [handleEditReport] as [onEdit]. *)
Definition showsEdit (r : OperativeDashboard.Entry) : bool :=
  match OperativeDashboard.aprobado r with
  | Some n => n =? 2
  | None => false
  end.

End HoursHistoryByDate.

(** * Vocabulary of the properties

    The predicates the theorems are stated with, and the sample data of the
    examples. *)

(** ** Dates and reports of the examples *)

(** 2024-01-01 is day 19723, a Monday; 2024-01-07 is the Sunday after. *)
Definition lunes : date := 19723.
Definition martes : date := 19724.
Definition sabado : date := 19728.
Definition domingo : date := 19729.

(** Settings loaded, with none of the keys set. *)
Definition noSettings : Settings :=
  {| normal_hours_start := None; normal_hours_end := None;
     normal_hours_end_friday := None; saturday_hours_start := None;
     saturday_hours_end := None; weekly_limit := None; daily_limits := None |}.

Definition mkReporte (i : Z) (h : Q) (f : option date) (st : option Z)
    (hi hf : option string) : Reporte :=
  {| id := i; horas := h; fecha_trabajada := f; cliente := "C1";
     nombre_company := None; documento_id := 1; aprobado := st;
     aprobadopor := None; hora_inicio := hi; hora_fin := hf |}.

Definition tuesdayReport : Reporte :=
  mkReporte 1 11 (Some martes) None (Some "07:00"%string) (Some "18:00"%string).

(** A report of the hours-only kind: no time range. *)
Definition hoursOnlyReport : Reporte := mkReporte 2 8 (Some martes) None None None.

Definition sundayReport : Reporte :=
  mkReporte 3 4 (Some domingo) None (Some "08:00"%string) (Some "12:00"%string).

(** Approved for its normal hours only. *)
Definition partlyApproved : Reporte :=
  mkReporte 10 10 (Some martes) (Some 3) (Some "07:30"%string) (Some "18:30"%string).

Definition stillPending : Reporte :=
  mkReporte 11 8 (Some martes) (Some 0) None None.

(** Pending, with one hour past the end of the normal window. *)
Definition overtimePending : Reporte :=
  mkReporte 12 11 (Some martes) (Some 0) (Some "07:30"%string) (Some "18:30"%string).

Definition tuesdayView : PayrollReview.View :=
  {| PayrollReview.selectedDate := martes; PayrollReview.selectedEmployee := 1 |}.

Definition weekSample : list Reporte :=
  [ mkReporte 20 8 (Some lunes) (Some 1) None None;
    mkReporte 21 11 (Some martes) (Some 3) (Some "07:00"%string) (Some "18:00"%string);
    mkReporte 22 4 (Some sabado) (Some 2) None None;
    mkReporte 23 6 (Some domingo) None None None;
    mkReporte 24 5 (Some (domingo + 1)) (Some 0) None None ].

(** The first week of January 2024 in the sample: 29h in all, 18h approved
    (8h and the 10 normal hours of the partly approved report), 5h rejected
    (4h and its overtime hour), 6h pending. *)
Definition firstWeek : PayrollReview.WeekData :=
  hd (PayrollReview.newWeek 0 0)
     (PayrollReview.weeklyTotals (Some noSettings) weekSample lunes (lunes + 30)).

(** ** The overtime split *)

(** The report carries a time range: the three fields are there and the two
    times are not empty. *)
Definition hasTimeRange (report : Reporte) (hi hf : string) (fecha : date) : Prop :=
  hora_inicio report = Some hi ∧ hora_fin report = Some hf
  ∧ fecha_trabajada report = Some fecha ∧ hi ≠ EmptyString ∧ hf ≠ EmptyString.

(** The string is a time of day: it reads as [m] minutes within one day. *)
Definition timeOfDay (t : string) (m : Z) : Prop :=
  timeToMinutes t = Some m ∧ 0 <= m < 24 * 60.

(** The three minute counts are numbers, none negative, and the first two
    add up to the third. *)
Definition partitions (s : Split) : Prop :=
  ∃ n e t,
    s = {| normalMinutes := Some n; extraMinutes := Some e; totalMinutes := Some t |}
    ∧ 0 <= n ∧ 0 <= e ∧ n + e = t.

(** The hours returned are the minute counts of [s], each rounded. *)
Definition returnsSplit (bd : Breakdown) (s : Split) : Prop :=
  num_eq (normal bd) (roundedHours (normalMinutes s))
  ∧ num_eq (extra bd) (roundedHours (extraMinutes s))
  ∧ num_eq (total bd) (roundedHours (totalMinutes s)).

(** The splitter of the approval screen computes a strictly positive number
    of overtime minutes for the report. *)
Definition positiveOvertime (settings : option Settings) (r : Reporte) : Prop :=
  ∃ st hi hf fecha m,
    settings = Some st ∧ hasTimeRange r hi hf fecha
    ∧ extraMinutes (PayrollReview.minuteSplit hi hf fecha st) = Some m ∧ 0 < m.

(** ** Scopes of the bulk transitions *)

(** Whether one of the selected reports has the identifier of [r]. *)
Definition selected (pendingReports : list Reporte) (r : Reporte) : bool :=
  existsb (λ p, id r =? id p) pendingReports.

(** The test both bulk handlers apply: neither approved nor rejected. *)
Definition bulkTakes (r : Reporte) : bool :=
  negb (PayrollReview.statusIs r 1) && negb (PayrollReview.statusIs r 2).

(** The report is dated [d]. *)
Definition onDay (d : date) (r : Reporte) : bool :=
  match fecha_trabajada r with
  | None => false
  | Some reportDate => isSameDay reportDate d
  end.

(** The report is dated within [ws .. we]. *)
Definition inWeek (ws we : date) (r : Reporte) : bool :=
  match fecha_trabajada r with
  | None => false
  | Some reportDate => isWithinInterval reportDate ws we
  end.

(** ** Weekly sums *)

(** The sum of a list of numbers. *)
Definition nsum (l : list number) : number := foldr nadd (Some 0%Q) l.

(** The sum a loop accumulates over a list, in the order of the list:
    [sum += part(r)] for each [r], from 0. *)
Definition running {A} (part : A → number) (l : list A) : number :=
  foldl (λ sum r, nadd sum (part r)) (Some 0%Q) l.

(** The reports whose work date falls in the week that starts on Monday [k]. *)
Definition inWeekOf (k : date) (r : Reporte) : bool :=
  match fecha_trabajada r with
  | Some d => startOfWeek d =? k
  | None => false
  end.

Definition reportsOfWeek (k : date) (reports : list Reporte) : list Reporte :=
  List.filter (inWeekOf k) reports.

(** What one report adds to each counter of its week. *)
Definition storedHours (r : Reporte) : number := Some (horas r).

Definition approvedPart (settings : option Settings) (r : Reporte) : number :=
  if PayrollReview.statusIs r 1 then Some (horas r)
  else if PayrollReview.statusIs r 3
       then normal (PayrollReview.calculateHoursBreakdown settings r)
  else Some 0%Q.

Definition rejectedPart (settings : option Settings) (r : Reporte) : number :=
  if PayrollReview.statusIs r 2 then Some (horas r)
  else if PayrollReview.statusIs r 3
       then extra (PayrollReview.calculateHoursBreakdown settings r)
  else Some 0%Q.

Definition pendingPart (r : Reporte) : number :=
  if PayrollReview.statusIs r 1 || PayrollReview.statusIs r 2 || PayrollReview.statusIs r 3
  then Some 0%Q
  else Some (horas r).

(** The counters of a week of the approval screen, and what the loop reads
    of a report, as [WeekCounters] takes them. *)
Definition countersOf (week : PayrollReview.WeekData) : WeekCounters.t number :=
  {| WeekCounters.totalHours := PayrollReview.totalHours week;
     WeekCounters.approved := PayrollReview.approved week;
     WeekCounters.pending := PayrollReview.pending week;
     WeekCounters.rejected := PayrollReview.rejected week |}.

Definition entryOf (settings : option Settings) (report : Reporte)
  : WeekCounters.Entry number :=
  {| WeekCounters.horas := Some (horas report);
     WeekCounters.aprobado := aprobado report;
     WeekCounters.normal := normal (PayrollReview.calculateHoursBreakdown settings report);
     WeekCounters.extra := extra (PayrollReview.calculateHoursBreakdown settings report) |}.

(** ** Recorded hours and the entry being edited *)

(** The hours recorded on day [d], and in the Monday-to-Sunday week of [d]. *)
Definition hoursOfDay (d : date) (records : list HoursRecord.t) : Q :=
  sumHoras (List.filter (λ record, HoursRecord.fecha record =? d) records).

Definition hoursOfWeek (d : date) (records : list HoursRecord.t) : Q :=
  sumHoras
    (List.filter
       (λ record, isWithinInterval (HoursRecord.fecha record) (startOfWeek d) (endOfWeek d))
       records).

(** [Others p l]: [l] is the list of the employee's records without the one
    being edited, if one is. *)
Inductive Others (p : CalendarHoursEntryLimits.Props) : list HoursRecord.t → Prop :=
| others_new :
    CalendarHoursEntryLimits.recordToEdit p = None →
    Others p (CalendarHoursEntryLimits.existingRecords p)
| others_edit r l1 l2 :
    CalendarHoursEntryLimits.recordToEdit p = Some r →
    CalendarHoursEntryLimits.existingRecords p = l1 ++ r :: l2 →
    Others p (l1 ++ l2).

(** The form edits a record on the day the record has. *)
Definition editsOnItsDay (p : CalendarHoursEntryLimits.Props) (d : date) : Prop :=
  ∀ r, CalendarHoursEntryLimits.recordToEdit p = Some r → HoursRecord.fecha r = d.

(** The record being edited, if one is, has its date in the week of [d]. *)
Definition editsInItsWeek (p : CalendarHoursEntryLimits.Props) (d : date) : Prop :=
  ∀ r, CalendarHoursEntryLimits.recordToEdit p = Some r →
       isWithinInterval (HoursRecord.fecha r) (startOfWeek d) (endOfWeek d) = true.

(** [recordToEdit ? recordToEdit.horas : 0] *)
Definition horasEditando (p : CalendarHoursEntryLimits.Props) : Q :=
  match CalendarHoursEntryLimits.recordToEdit p with
  | Some r => HoursRecord.horas r
  | None => 0%Q
  end.

(** The candidate has a client, an area, a positive hour count [h] and a
    date [d], and its client is in the list: the checks that come before the
    ceilings all pass. *)
Definition passesFieldChecks (p : CalendarHoursEntryLimits.Props)
    (s : CalendarHoursEntryLimits.State) (h : Q) (d : date) : Prop :=
  isEmpty (CalendarHoursEntryLimits.selectedCliente s) = false
  ∧ isEmpty (CalendarHoursEntryLimits.areaCliente s) = false
  ∧ isEmpty (trim (CalendarHoursEntryLimits.areaCliente s)) = false
  ∧ CalendarHoursEntryLimits.horas s = Some h ∧ (0 < h)%Q
  ∧ CalendarHoursEntryLimits.selectedDate s = Some d
  ∧ present (List.find (λ c, String.eqb (elementoPEP c)
                                (CalendarHoursEntryLimits.selectedCliente s))
                       (CalendarHoursEntryLimits.clientes p)) = true.

(** The submission fails on the daily ceiling, with either of its two texts. *)
Definition dailyLimitViolation (o : CalendarHoursEntryLimits.Outcome) : Prop :=
  match o with
  | CalendarHoursEntryLimits.Rejected (CalendarHoursEntryLimits.LimiteDiarioAlcanzado _ _) =>
      True
  | CalendarHoursEntryLimits.Rejected
      (CalendarHoursEntryLimits.LimiteDiarioExcedido _ _ _ _) => True
  | _ => False
  end.

(** The submission fails on the weekly ceiling. *)
Definition weeklyLimitViolation (o : CalendarHoursEntryLimits.Outcome) : Prop :=
  match o with
  | CalendarHoursEntryLimits.Rejected
      (CalendarHoursEntryLimits.LimiteSemanalExcedido _ _ _) => True
  | _ => False
  end.

(** The figures a rejection names are those of a day with [day] hours
    recorded and of a week with [week] hours recorded. *)
Definition namesTotals (m : CalendarHoursEntryLimits.Mensaje) (day week : Q) : Prop :=
  match m with
  | CalendarHoursEntryLimits.LimiteDiarioAlcanzado registradas _ => (registradas == day)%Q
  | CalendarHoursEntryLimits.LimiteDiarioExcedido _ registradas disponibles maximo =>
      (registradas == day)%Q ∧ (disponibles == maximo - day)%Q
  | CalendarHoursEntryLimits.LimiteSemanalExcedido _ disponibles limite =>
      (disponibles == limite - week)%Q
  | _ => True
  end.

(** ** Evidence of on-site work *)

Definition onSite : string := "En Cliente".

(** The state with a location and a signature supplied. *)
Definition withEvidence (s : CalendarHoursEntryRange.State)
    (u : CalendarHoursEntryRange.Ubicacion) (f : string) : CalendarHoursEntryRange.State :=
  {| CalendarHoursEntryRange.selectedDate := CalendarHoursEntryRange.selectedDate s;
     CalendarHoursEntryRange.selectedCliente := CalendarHoursEntryRange.selectedCliente s;
     CalendarHoursEntryRange.horaInicio := CalendarHoursEntryRange.horaInicio s;
     CalendarHoursEntryRange.horaFin := CalendarHoursEntryRange.horaFin s;
     CalendarHoursEntryRange.areaCliente := CalendarHoursEntryRange.areaCliente s;
     CalendarHoursEntryRange.dynamicAreas := CalendarHoursEntryRange.dynamicAreas s;
     CalendarHoursEntryRange.descripcion := CalendarHoursEntryRange.descripcion s;
     CalendarHoursEntryRange.tipoActividad := CalendarHoursEntryRange.tipoActividad s;
     CalendarHoursEntryRange.ubicacion := Some u;
     CalendarHoursEntryRange.ubicacionRechazada :=
       CalendarHoursEntryRange.ubicacionRechazada s;
     CalendarHoursEntryRange.firma := Some f |}.

(** ** Submissions of the examples *)

Definition acme : Cliente :=
  {| nombre := "Acme"; elementoPEP := "PEP1"; areas := ["Campo"%string] |}.

Definition mkRecord (i : Z) (h : Q) (d : date) : HoursRecord.t :=
  {| HoursRecord.id := Some i; HoursRecord.clienteId := "PEP1";
     HoursRecord.horas := h; HoursRecord.fecha := d;
     HoursRecord.areaCliente := Some "Campo"%string |}.

Definition limitsProps (existing : list HoursRecord.t) (edit : option HoursRecord.t)
    (st : option Settings) : CalendarHoursEntryLimits.Props :=
  {| CalendarHoursEntryLimits.clientes := [acme];
     CalendarHoursEntryLimits.existingRecords := existing;
     CalendarHoursEntryLimits.recordToEdit := edit;
     CalendarHoursEntryLimits.settings := st |}.

Definition limitsState (d : date) (h : Q) : CalendarHoursEntryLimits.State :=
  {| CalendarHoursEntryLimits.selectedDate := Some d;
     CalendarHoursEntryLimits.selectedCliente := "PEP1";
     CalendarHoursEntryLimits.horas := Some h;
     CalendarHoursEntryLimits.areaCliente := "Campo" |}.

(** Settings that allow 12 hours on every day and 44 a week. *)
Definition longDays : Settings :=
  {| normal_hours_start := None; normal_hours_end := None;
     normal_hours_end_friday := None; saturday_hours_start := None;
     saturday_hours_end := None; weekly_limit := Some 44%Q;
     daily_limits :=
       Some {| monday := 12; tuesday := 12; wednesday := 12; thursday := 12;
               friday := 12; saturday := 12; sunday := 12 |} |}.

(** Ten hours from Monday to Thursday and two on Friday: 42 hours. *)
Definition fullWeek : list HoursRecord.t :=
  [ mkRecord 1 10 lunes; mkRecord 2 10 martes; mkRecord 3 10 (lunes + 2);
    mkRecord 4 10 (lunes + 3); mkRecord 5 2 (lunes + 4) ].

Definition rangeProps (existing : list HoursRecord.t) : CalendarHoursEntryRange.Props :=
  {| CalendarHoursEntryRange.clientes := [acme];
     CalendarHoursEntryRange.existingRecords := existing;
     CalendarHoursEntryRange.recordToEdit := None;
     CalendarHoursEntryRange.settings := Some longDays |}.

Definition rangeState (d : date) (hi hf tipo : string)
    (u : option CalendarHoursEntryRange.Ubicacion) (refused : bool)
    (f : option string) : CalendarHoursEntryRange.State :=
  {| CalendarHoursEntryRange.selectedDate := Some d;
     CalendarHoursEntryRange.selectedCliente := "PEP1";
     CalendarHoursEntryRange.horaInicio := hi;
     CalendarHoursEntryRange.horaFin := hf;
     CalendarHoursEntryRange.areaCliente := "Campo";
     CalendarHoursEntryRange.dynamicAreas := [];
     CalendarHoursEntryRange.descripcion := "Mantenimiento";
     CalendarHoursEntryRange.tipoActividad := tipo;
     CalendarHoursEntryRange.ubicacion := u;
     CalendarHoursEntryRange.ubicacionRechazada := refused;
     CalendarHoursEntryRange.firma := f |}.

(** ** Final statuses and day badges *)

(** The record is approved or rejected. *)
Definition settled (r : Reporte) : Prop := aprobado r = Some 1 ∨ aprobado r = Some 2.

(** Some report of the list has status [n]. *)
Definition someWith (n : Z) (l : list Reporte) : Prop :=
  ∃ r, In r l ∧ aprobado r = Some n.

(** Every report of the list has status [n], and there is one. *)
Definition allWith (n : Z) (l : list Reporte) : Prop :=
  l ≠ [] ∧ ∀ r, In r l → aprobado r = Some n.

(** What a bulk action with status [n] makes of one record in its scope. *)
Definition bulkResult (inScope : Reporte → bool) (n coordinatorId : Z) (r : Reporte)
  : Reporte :=
  if inScope r && bulkTakes r then PayrollReview.patch n coordinatorId r else r.

Definition approvedOne : Reporte := mkReporte 30 8 (Some martes) (Some 1) None None.

Definition rejectedOne : Reporte := mkReporte 31 8 (Some martes) (Some 2) None None.

(** ** Clients of a week *)

(** The key of the client table: [report.cliente || 'Sin Cliente']. *)
Definition clientKey (r : Reporte) : string := orElse (cliente r) "Sin Cliente".

(** The reports of the week of Monday [k] that go to the row of client [c]. *)
Definition reportsOfClient (k : date) (c : string) (reports : list Reporte)
  : list Reporte :=
  List.filter (λ r, String.eqb (clientKey r) c) (reportsOfWeek k reports).

(** The overtime the splitter of the approval screen finds in a report. *)
Definition overtimeOf (settings : option Settings) (r : Reporte) : number :=
  extra (PayrollReview.calculateHoursBreakdown settings r).

(** The week of Monday [k] touches the month on screen. *)
Definition touchesMonth (k monthStart monthEnd : date) : Prop :=
  isWithinInterval k monthStart monthEnd || isWithinInterval (k + 6) monthStart monthEnd
  = true.

(** The counter [field] of client [c] in the week of Monday [k] of a table
    of weeks, 0 when the week or the client is not there. *)
Definition clientField (field : PayrollReview.ClientData → number)
    (weeks : gmap Z PayrollReview.WeekData) (k : date) (c : string) : number :=
  match weeks !! k with
  | Some w =>
      match PayrollReview.byClient w !! c with
      | Some cd => field cd
      | None => Some 0%Q
      end
  | None => Some 0%Q
  end.

(** ** Reports by employee *)

(** The reports of a list that belong to employee [i]. *)
Definition reportsOf (i : Z) (l : list Reporte) : list Reporte :=
  List.filter (λ r, documento_id r =? i) l.

(** The reports whose work date passes the range test. *)
Definition reportsInRange (inRange : date → bool) (reports : list Reporte)
  : list Reporte :=
  List.filter (λ r, match fecha_trabajada r with
                    | Some d => inRange d
                    | None => false
                    end)
              reports.

(** The sum of a list of hour counts. *)
Definition qsum (l : list Q) : Q := foldr Qplus 0%Q l.

(** The entries [uniqueEmployees] are the grouping of [l] by employee: one
    entry for each employee that has a report in [l], holding those reports
    in the order of [l]. *)
Definition grouped (uniqueEmployees : list PayrollReview.Employee)
    (l : list Reporte) : Prop :=
  NoDup (map PayrollReview.emp_id uniqueEmployees)
  ∧ (∀ e, In e uniqueEmployees →
          PayrollReview.emp_reports e ≠ []
          ∧ PayrollReview.emp_reports e = reportsOf (PayrollReview.emp_id e) l)
  ∧ (∀ r, In r l → In (documento_id r) (map PayrollReview.emp_id uniqueEmployees)).

(** The rows of [summary] are the tally of [l] by employee. *)
Definition tallied (summary : list (Z * PayrollReview.TechnicianData))
    (l : list Reporte) : Prop :=
  NoDup (map fst summary)
  ∧ (∀ k data, In (k, data) summary →
       (PayrollReview.tech_total data == qsum (map horas (reportsOf k l)))%Q
       ∧ PayrollReview.tech_reports data = length (reportsOf k l)
       ∧ reportsOf k l ≠ [])
  ∧ (∀ r, In r l → In (documento_id r) (map fst summary)).

(** Two employees on the same Tuesday. *)
Definition twoEmployees : list Reporte :=
  [ mkReporte 40 8 (Some martes) (Some 0) None None;
    {| id := 41; horas := 5; fecha_trabajada := Some martes; cliente := "C1";
       nombre_company := None; documento_id := 2; aprobado := Some 1;
       aprobadopor := None; hora_inicio := None; hora_fin := None |};
    mkReporte 42 3 (Some martes) (Some 2) None None ].

(** ** The normal window *)

(** The window the approval screen takes as normal hours on day [d], in
    minutes since midnight: start and end. *)
Definition normalWindow (settings : Settings) (d : date) : minutes * minutes :=
  (timeToMinutes (settingOr (normal_hours_start settings) "07:30"),
   timeToMinutes (fridayEnd (getDay d) settings
                            (settingOr (normal_hours_end settings) "17:30"))).

(** All of the [t] worked minutes are overtime. *)
Definition allOvertime (t : Z) : Split :=
  {| normalMinutes := Some 0; extraMinutes := Some t; totalMinutes := Some t |}.

(** All of the [t] worked minutes are normal. *)
Definition noOvertime (t : Z) : Split :=
  {| normalMinutes := Some t; extraMinutes := Some 0; totalMinutes := Some t |}.

(** The string has no colon. *)
Fixpoint noColon (s : string) : bool :=
  match s with
  | EmptyString => true
  | String a s' => negb (Ascii.eqb a ":") && noColon s'
  end.

(** A text between double quotes, as the settings service stores the
    schedule values. *)
Definition quoted (s : string) : string :=
  String dquote (s ++ String dquote EmptyString).

(** Settings with a schedule of 07:00 to 16:00, and to 15:00 on Fridays. *)
Definition quotedSchedule : Settings :=
  {| normal_hours_start := Some (quoted "07:00");
     normal_hours_end := Some (quoted "16:00");
     normal_hours_end_friday := Some (quoted "15:00");
     saturday_hours_start := None; saturday_hours_end := None;
     weekly_limit := None; daily_limits := None |}.

(** ** The overtime report *)

(** The dated reports that pass the filters of the overtime report. *)
Definition shownReports (passes : Reporte → bool) (reports : list Reporte)
  : list Reporte :=
  List.filter (λ r, present (fecha_trabajada r) && passes r) reports.

(** The overtime of a report that the overtime report pays: none when the
    report is approved for its normal hours only. *)
Definition paidOvertime (settings : option Settings) (r : Reporte) : number :=
  if PayrollReview.statusIs r 3 then Some 0%Q
  else extra (OvertimeReport.calculateHoursBreakdown settings r).

(** The counter [field] of the row of employee [e], 0 when there is no row. *)
Definition rowField (field : OvertimeReport.Row → number)
    (acc : gmap Z OvertimeReport.Row) (e : Z) : number :=
  match acc !! e with
  | Some row => field row
  | None => Some 0%Q
  end.

(** ** The selectors of the entry form *)

(** The area selected is one of the areas of the client selected, when both
    are selected and the client is in the list. *)
Definition consistentSelection (p : CalendarHoursEntryLimits.Props)
    (s : CalendarHoursEntryLimits.State) : Prop :=
  ∀ c, CalendarHoursEntryLimits.selectedCliente s ≠ EmptyString →
       CalendarHoursEntryLimits.areaCliente s ≠ EmptyString →
       List.find (λ c, String.eqb (elementoPEP c) (CalendarHoursEntryLimits.selectedCliente s))
                 (CalendarHoursEntryLimits.clientes p) = Some c →
       In (CalendarHoursEntryLimits.areaCliente s) (areas c).

(** Two clients with one area each. *)
Definition beta : Cliente :=
  {| nombre := "Beta"; elementoPEP := "PEP2"; areas := ["Taller"%string] |}.

Definition twoClients : CalendarHoursEntryLimits.Props :=
  {| CalendarHoursEntryLimits.clientes := [acme; beta];
     CalendarHoursEntryLimits.existingRecords := [];
     CalendarHoursEntryLimits.recordToEdit := None;
     CalendarHoursEntryLimits.settings := None |}.

(** ** The areas a time-range entry may name *)

(** [dynamicAreas.length > 0 ? dynamicAreas : selectedCompanyData.areas] *)
Definition areasOffered (c : Cliente) (s : CalendarHoursEntryRange.State) : list string :=
  match CalendarHoursEntryRange.dynamicAreas s with
  | [] => areas c
  | _ => CalendarHoursEntryRange.dynamicAreas s
  end.

(** ** The records of the dashboard *)

(** The records of the dashboard as the entry form receives them. *)
Definition recordsOf (st : OperativeDashboard.State) : list HoursRecord.t :=
  map OperativeDashboard.record (OperativeDashboard.hoursRecords st).

(** The record being edited, if one is, has an identifier that is not 0, is
    in the list, and no other record of the list has its identifier. *)
Definition editingWellFormed (st : OperativeDashboard.State) : Prop :=
  ∀ e, OperativeDashboard.editingRecord st = Some e →
       ∃ i l1 l2,
         HoursRecord.id (OperativeDashboard.record e) = Some i ∧ i ≠ 0
         ∧ OperativeDashboard.hoursRecords st = l1 ++ e :: l2
         ∧ ∀ r, In r (l1 ++ l2) → OperativeDashboard.hasId i r = false.

(** The form is open on the day of the record being edited, if one is. *)
Definition openOnEditedDay (st : OperativeDashboard.State)
    (s : CalendarHoursEntryLimits.State) : Prop :=
  ∀ e, OperativeDashboard.editingRecord st = Some e →
       CalendarHoursEntryLimits.selectedDate s
       = Some (HoursRecord.fecha (OperativeDashboard.record e)).

Definition mkEntry (i : Z) (h : Q) (d : date) (status : Z) : OperativeDashboard.Entry :=
  {| OperativeDashboard.record := mkRecord i h d;
     OperativeDashboard.aprobado := Some status |}.

(** A dashboard with six hours on Monday and a rejected record of two hours
    on Tuesday. *)
Definition sampleDashboard (editing : option OperativeDashboard.Entry)
  : OperativeDashboard.State :=
  {| OperativeDashboard.clientes := [acme];
     OperativeDashboard.hoursRecords := [mkEntry 1 6 lunes 1; mkEntry 2 2 martes 2];
     OperativeDashboard.editingRecord := editing |}.

(** ** More sample data *)

(** Settings whose start of the normal window cannot be read as a time. *)
Definition garbledSchedule : Settings :=
  {| normal_hours_start := Some "7h30"%string; normal_hours_end := None;
     normal_hours_end_friday := None; saturday_hours_start := None;
     saturday_hours_end := None; weekly_limit := None; daily_limits := None |}.

(** The time-range form with the quoted schedule. *)
Definition scheduleProps : CalendarHoursEntryRange.Props :=
  {| CalendarHoursEntryRange.clientes := [acme];
     CalendarHoursEntryRange.existingRecords := [];
     CalendarHoursEntryRange.recordToEdit := None;
     CalendarHoursEntryRange.settings := Some quotedSchedule |}.

(** The filter of the overtime report that lets every dated report pass. *)
Definition everyReport : Reporte → bool := λ _, true.

(** * Properties *)

(** ** The helpers read times and dates as expected *)

Example split_hhmm : split ":" "07:30" = ["07"; "30"]%string.
Proof. reflexivity. Qed.

Example number_07 : Number "07" = Some 7.
Proof. reflexivity. Qed.

Example monday_2024_01_01 : getDay 19723 = 1 /\ startOfWeek 19729 = 19723.
Proof. split; reflexivity. Qed.

(** * Properties of the overtime split *)

Lemma num_eq_refl x : num_eq x x.
Proof. destruct x; simpl; [reflexivity | exact I]. Qed.

Lemma num_eq_sym x y : num_eq x y → num_eq y x.
Proof. destruct x, y; simpl; auto. intros H. symmetry. exact H. Qed.

Lemma num_eq_trans x y z : num_eq x y → num_eq y z → num_eq x z.
Proof.
  destruct x, y, z; simpl; try tauto.
  intros H1 H2. rewrite H1. exact H2.
Qed.

Lemma returnsSplit_splitHours s : returnsSplit (splitHours s) s.
Proof. repeat split; apply num_eq_refl. Qed.

Lemma lacksTimeRange_false report st hi hf fecha :
  hasTimeRange report hi hf fecha → lacksTimeRange report (Some st) = false.
Proof.
  intros (Hi & Hf & Hd & Hni & Hnf). unfold lacksTimeRange.
  rewrite Hi, Hf, Hd. destruct hi; [done |]. destruct hf; [done |]. reflexivity.
Qed.

Lemma worked_overlap a b (limitStart limitEnd : minutes) :
  0 <= a < 24 * 60 → 0 <= b < 24 * 60 →
  ∃ n t,
    overlapMinutes (Some a) (Some b) limitStart limitEnd = Some n
    ∧ workedMinutes (Some a) (Some b) = Some t
    ∧ 0 <= n <= t.
Proof.
  intros Ha Hb. unfold overlapMinutes, workedMinutes.
  destruct limitStart as [ls |], limitEnd as [le |]; simpl;
    destruct (b - a <? 0) eqn:Hneg;
    try (destruct (Z.max a ls <? Z.min b le) eqn:Hov);
    eexists _, _; (split; [reflexivity |]); (split; [reflexivity |]); lia.
Qed.

Lemma extra_is_rest n t :
  0 <= n <= t → mmax (Some 0) (msub (Some t) (Some n)) = Some (t - n).
Proof. intros H. simpl. f_equal. lia. Qed.

Lemma PayrollReview_partitions hi hf fecha st a b :
  timeOfDay hi a → timeOfDay hf b →
  partitions (PayrollReview.minuteSplit hi hf fecha st).
Proof.
  intros [Ha Ra] [Hb Rb]. unfold PayrollReview.minuteSplit. rewrite Ha, Hb.
  destruct (worked_overlap a b
              (timeToMinutes (settingOr (normal_hours_start st) "07:30"))
              (timeToMinutes (fridayEnd (getDay fecha) st
                                (settingOr (normal_hours_end st) "17:30"))) Ra Rb)
    as (n & t & Hn & Ht & Hnt).
  cbv zeta. rewrite Hn, Ht, (extra_is_rest n t Hnt).
  exists n, (t - n), t. repeat split; lia.
Qed.

Lemma OvertimeReport_partitions hi hf fecha st a b :
  timeOfDay hi a → timeOfDay hf b →
  partitions (OvertimeReport.minuteSplit hi hf fecha st).
Proof.
  intros [Ha Ra] [Hb Rb]. unfold OvertimeReport.minuteSplit. rewrite Ha, Hb.
  cbv zeta. destruct (getDay fecha =? 0).
  - destruct (worked_overlap a b None None Ra Rb) as (n & t & _ & Ht & Hnt).
    rewrite Ht. exists 0, t, t. repeat split; lia.
  - match goal with
    | |- context [overlapMinutes _ _ ?ls ?le] =>
        destruct (worked_overlap a b ls le Ra Rb) as (n & t & Hn & Ht & Hnt)
    end.
    rewrite Hn, Ht, (extra_is_rest n t Hnt).
    exists n, (t - n), t. repeat split; lia.
Qed.

Lemma roundedHours_zero : num_eq (Some 0%Q) (roundedHours (Some 0)).
Proof. vm_compute. reflexivity. Qed.

Lemma OvertimeReport_returns report st hi hf fecha :
  hasTimeRange report hi hf fecha →
  returnsSplit (OvertimeReport.calculateHoursBreakdown (Some st) report)
               (OvertimeReport.minuteSplit hi hf fecha st).
Proof.
  intros H. unfold OvertimeReport.calculateHoursBreakdown.
  rewrite (lacksTimeRange_false _ st _ _ _ H).
  destruct H as (-> & -> & -> & _ & _).
  destruct (getDay fecha =? 0) eqn:Hd; [| apply returnsSplit_splitHours].
  unfold OvertimeReport.minuteSplit. cbv zeta. rewrite Hd.
  split; [apply roundedHours_zero | split; apply num_eq_refl].
Qed.

(** C3: for a report that carries a time range whose two ends are times of
    day, on any date and under any settings, the minute counts behind the
    returned breakdown are non-negative and normal + overtime = total, in the
    approval screen's splitter and in the overtime report's alike; the hours
    returned are those counts, each rounded to hundredths. *)
Theorem split_never_loses_minutes report st hi hf fecha a b :
  hasTimeRange report hi hf fecha → timeOfDay hi a → timeOfDay hf b →
  (partitions (PayrollReview.minuteSplit hi hf fecha st)
   ∧ returnsSplit (PayrollReview.calculateHoursBreakdown (Some st) report)
                  (PayrollReview.minuteSplit hi hf fecha st))
  ∧ (partitions (OvertimeReport.minuteSplit hi hf fecha st)
     ∧ returnsSplit (OvertimeReport.calculateHoursBreakdown (Some st) report)
                    (OvertimeReport.minuteSplit hi hf fecha st)).
Proof.
  intros H Ha Hb. split; split.
  - eapply PayrollReview_partitions; eassumption.
  - unfold PayrollReview.calculateHoursBreakdown.
    rewrite (lacksTimeRange_false _ st _ _ _ H).
    destruct H as (-> & -> & -> & _ & _). apply returnsSplit_splitHours.
  - eapply OvertimeReport_partitions; eassumption.
  - apply OvertimeReport_returns. exact H.
Qed.

Lemma split_never_loses_minutes_witness :
  (partitions (PayrollReview.minuteSplit "07:00" "18:00" martes noSettings)
   ∧ returnsSplit (PayrollReview.calculateHoursBreakdown (Some noSettings) tuesdayReport)
                  (PayrollReview.minuteSplit "07:00" "18:00" martes noSettings))
  ∧ (partitions (OvertimeReport.minuteSplit "07:00" "18:00" martes noSettings)
     ∧ returnsSplit (OvertimeReport.calculateHoursBreakdown (Some noSettings) tuesdayReport)
                    (OvertimeReport.minuteSplit "07:00" "18:00" martes noSettings)).
Proof.
  apply (split_never_loses_minutes tuesdayReport noSettings "07:00" "18:00" martes 420 1080).
  - repeat split; discriminate.
  - split; [reflexivity | lia].
  - split; [reflexivity | lia].
Defined.

(** The scenarios of the schedule: a Tuesday from 07:00 to 18:00 is 10h
    normal and 1h of overtime; in the overtime report a Saturday from 08:00
    to 14:00 is 4h normal and 2h of overtime. *)
Example weekday_scenario :
  PayrollReview.minuteSplit "07:00" "18:00" martes noSettings
  = {| normalMinutes := Some 600; extraMinutes := Some 60; totalMinutes := Some 660 |}
  ∧ OvertimeReport.minuteSplit "08:00" "14:00" sabado noSettings
    = {| normalMinutes := Some 240; extraMinutes := Some 120; totalMinutes := Some 360 |}.
Proof. split; reflexivity. Qed.

(** Each count is rounded on its own, so the hours returned need not add up:
    20 and 20 minutes out of 40 come back as 0.33h and 0.33h out of 0.67h. *)
Example rounded_hours_need_not_add_up :
  let report :=
    mkReporte 4 (2 # 3) (Some martes) None (Some "07:10"%string) (Some "07:50"%string) in
  let bd := PayrollReview.calculateHoursBreakdown (Some noSettings) report in
  PayrollReview.minuteSplit "07:10" "07:50" martes noSettings
  = {| normalMinutes := Some 20; extraMinutes := Some 20; totalMinutes := Some 40 |}
  ∧ num_eq (normal bd) (Some (33 # 100))
  ∧ num_eq (extra bd) (Some (33 # 100))
  ∧ num_eq (total bd) (Some (67 # 100)).
Proof. repeat split. Qed.

(** ** Rounding of minute counts *)

(** Division by the two constants of the code, for linear arithmetic. *)
Ltac qdiv :=
  unfold Qdiv in *;
  change (/ 100)%Q with (1 # 100)%Q in *;
  change (/ 60)%Q with (1 # 60)%Q in *.

Lemma roundHundredths_nonneg q : (0 <= q)%Q → (0 <= roundHundredths q)%Q.
Proof.
  intros Hq. unfold roundHundredths.
  assert (H : 0 <= Qfloor (q * 100 + (1 # 2))).
  { transitivity (Qfloor 0%Q); [reflexivity | apply Qfloor_resp_le; lra]. }
  rewrite Zle_Qle in H. change (inject_Z 0) with 0%Q in H. qdiv. lra.
Qed.

Lemma roundHundredths_pos q : (1 # 60 <= q)%Q → (0 < roundHundredths q)%Q.
Proof.
  intros Hq. unfold roundHundredths.
  assert (H : 1 <= Qfloor (q * 100 + (1 # 2))).
  { transitivity (Qfloor 1%Q); [reflexivity | apply Qfloor_resp_le; lra]. }
  rewrite Zle_Qle in H. change (inject_Z 1) with 1%Q in H. qdiv. lra.
Qed.

Lemma roundHundredths_zero : (roundHundredths (inject_Z 0 / 60) == 0)%Q.
Proof. vm_compute. reflexivity. Qed.

(** A rounded minute count is positive exactly when the count is. *)
Lemma roundedHours_positive m :
  ngt (roundedHours (Some m)) (Some 0%Q) = true ↔ 0 < m.
Proof.
  unfold roundedHours, hoursOf, toFixed2.
  destruct (Z_lt_le_dec 0 m) as [Hpos | Hneg].
  - assert (Hm : (1 <= inject_Z m)%Q).
    { change 1%Q with (inject_Z 1). rewrite <- Zle_Qle. lia. }
    assert (Hq : Qle_bool 0 (inject_Z m / 60) = true).
    { apply Qle_bool_iff. qdiv. lra. }
    rewrite Hq. simpl. split; [intros _; exact Hpos | intros _].
    apply negb_true_iff. destruct (Qle_bool _ 0) eqn:Hle; [| reflexivity].
    apply Qle_bool_iff in Hle.
    pose proof (roundHundredths_pos (inject_Z m / 60)) as Hr.
    assert ((1 # 60 <= inject_Z m / 60)%Q) by (qdiv; lra).
    specialize (Hr ltac:(assumption)). lra.
  - split; [| lia]. intros H. exfalso.
    assert (Hm : (inject_Z m <= 0)%Q).
    { change 0%Q with (inject_Z 0). rewrite <- Zle_Qle. lia. }
    destruct (Qle_bool 0 (inject_Z m / 60)) eqn:Hq; simpl in H;
      apply negb_true_iff in H.
    + apply Qle_bool_iff in Hq.
      assert (Hz : (inject_Z m == 0)%Q) by (qdiv; lra).
      assert (Hr : (roundHundredths (inject_Z m / 60) == 0)%Q).
      { unfold roundHundredths. rewrite Hz. vm_compute. reflexivity. }
      assert (Hle : Qle_bool (roundHundredths (inject_Z m / 60)) 0 = true).
      { apply Qle_bool_iff. lra. }
      congruence.
    + assert (Hle : Qle_bool (- roundHundredths (- (inject_Z m / 60))) 0 = true).
      { apply Qle_bool_iff.
        pose proof (roundHundredths_nonneg (- (inject_Z m / 60))) as Hr.
        assert ((0 <= - (inject_Z m / 60))%Q) by (qdiv; lra).
        specialize (Hr ltac:(assumption)). lra. }
      congruence.
Qed.

(** * The legacy path *)

(** C10: a report that lacks its start time, its end time or its work date,
    and any report while the settings are not loaded, gets normal = its
    stored hours, overtime = 0 and total = its stored hours, in the approval
    screen, in the overtime report and in the report's older copy. *)
Theorem legacy_entries_have_no_overtime settings report :
  falsy (hora_inicio report) = true ∨ falsy (hora_fin report) = true
  ∨ fecha_trabajada report = None ∨ settings = None →
  let stored :=
    {| normal := Some (horas report); extra := Some 0%Q; total := Some (horas report) |} in
  PayrollReview.calculateHoursBreakdown settings report = stored
  ∧ OvertimeReport.calculateHoursBreakdown settings report = stored
  ∧ CalendarInstructions.calculateHoursBreakdown settings report = stored.
Proof.
  intros H stored.
  assert (Hl : lacksTimeRange report settings = true).
  { unfold lacksTimeRange.
    destruct H as [-> | [-> | [-> | ->]]]; simpl;
      rewrite ?orb_true_r; reflexivity. }
  unfold PayrollReview.calculateHoursBreakdown,
    OvertimeReport.calculateHoursBreakdown,
    CalendarInstructions.calculateHoursBreakdown.
  rewrite Hl. repeat split.
Qed.

Lemma legacy_entries_have_no_overtime_witness :
  PayrollReview.calculateHoursBreakdown (Some noSettings) hoursOnlyReport
  = {| normal := Some 8%Q; extra := Some 0%Q; total := Some 8%Q |}
  ∧ OvertimeReport.calculateHoursBreakdown (Some noSettings) hoursOnlyReport
    = {| normal := Some 8%Q; extra := Some 0%Q; total := Some 8%Q |}
  ∧ CalendarInstructions.calculateHoursBreakdown (Some noSettings) hoursOnlyReport
    = {| normal := Some 8%Q; extra := Some 0%Q; total := Some 8%Q |}.
Proof.
  apply (legacy_entries_have_no_overtime (Some noSettings) hoursOnlyReport).
  left. reflexivity.
Defined.

(** * Sundays *)

(** The overtime report gives a Sunday no normal minutes. *)
Lemma OvertimeReport_sunday hi hf fecha st :
  getDay fecha = 0 →
  normalMinutes (OvertimeReport.minuteSplit hi hf fecha st) = Some 0
  ∧ extraMinutes (OvertimeReport.minuteSplit hi hf fecha st)
    = totalMinutes (OvertimeReport.minuteSplit hi hf fecha st).
Proof.
  intros Hd. unfold OvertimeReport.minuteSplit. cbv zeta.
  rewrite Hd. simpl. split; reflexivity.
Qed.

(** C2: the approval screen's splitter has no Sunday case.  On Sunday
    2024-01-07, 08:00 to 12:00 under the default schedule, it counts 240
    normal minutes and no overtime, where the overtime report counts 0 normal
    minutes and 240 of overtime. *)
Theorem PayrollReview_sunday_counts_normal_minutes :
  getDay domingo = 0
  ∧ PayrollReview.minuteSplit "08:00" "12:00" domingo noSettings
    = {| normalMinutes := Some 240; extraMinutes := Some 0; totalMinutes := Some 240 |}
  ∧ num_eq (normal (PayrollReview.calculateHoursBreakdown (Some noSettings) sundayReport))
           (Some 4%Q)
  ∧ num_eq (extra (PayrollReview.calculateHoursBreakdown (Some noSettings) sundayReport))
           (Some 0%Q)
  ∧ OvertimeReport.minuteSplit "08:00" "12:00" domingo noSettings
    = {| normalMinutes := Some 0; extraMinutes := Some 240; totalMinutes := Some 240 |}.
Proof. repeat split. Qed.

(** * Approval transitions *)

Section Transitions.

Import PayrollReview.

Variable coordinatorId : Z.

Lemma patch_id n r : id (patch n coordinatorId r) = id r.
Proof. reflexivity. Qed.

Lemma patch_patch n r :
  patch n coordinatorId (patch n coordinatorId r) = patch n coordinatorId r.
Proof. reflexivity. Qed.

Lemma update_lookup i n store k :
  update i n coordinatorId store !! k
  = (λ r, if id r =? i then patch n coordinatorId r else r) <$> store !! k.
Proof. unfold update. apply list_lookup_fmap. Qed.

(** The batch of updates rewrites exactly the selected identifiers. *)
Lemma updateAll_lookup pendingReports n store k :
  updateAll pendingReports n coordinatorId store !! k
  = (λ r, if selected pendingReports r then patch n coordinatorId r else r)
      <$> store !! k.
Proof.
  unfold updateAll. revert store.
  induction pendingReports as [| p ps IH]; intros store; simpl.
  - destruct (store !! k); reflexivity.
  - rewrite IH, update_lookup. destruct (store !! k) as [r |]; simpl; [| reflexivity].
    f_equal. destruct (id r =? id p) eqn:Hp; simpl.
    + destruct (selected ps _); [apply patch_patch | reflexivity].
    + reflexivity.
Qed.

Lemma handleBulkApproval_lookup reports d n k r' :
  handleBulkApproval coordinatorId reports d n !! k = Some r' →
  ∃ r, reports !! k = Some r ∧ (r' = r ∨ r' = patch n coordinatorId r).
Proof.
  unfold handleBulkApproval.
  set (ps := List.filter _ (getReportsForDate reports d)).
  assert (H : updateAll ps n coordinatorId reports !! k = Some r' →
              ∃ r, reports !! k = Some r ∧ (r' = r ∨ r' = patch n coordinatorId r)).
  { rewrite updateAll_lookup. destruct (reports !! k) as [r |]; [| discriminate].
    simpl. intros [= <-]. exists r. split; [reflexivity |].
    destruct (selected ps r); auto. }
  destruct ps; [| exact H]. intros Hk. exists r'. auto.
Qed.

Lemma handleBulkWeekApproval_lookup reports ws we n k r' :
  handleBulkWeekApproval coordinatorId reports ws we n !! k = Some r' →
  ∃ r, reports !! k = Some r ∧ (r' = r ∨ r' = patch n coordinatorId r).
Proof.
  unfold handleBulkWeekApproval.
  set (ps := List.filter _ reports).
  assert (H : updateAll ps n coordinatorId reports !! k = Some r' →
              ∃ r, reports !! k = Some r ∧ (r' = r ∨ r' = patch n coordinatorId r)).
  { rewrite updateAll_lookup. destruct (reports !! k) as [r |]; [| discriminate].
    simpl. intros [= <-]. exists r. split; [reflexivity |].
    destruct (selected ps r); auto. }
  destruct ps; [| exact H]. intros Hk. exists r'. auto.
Qed.

End Transitions.

(** ** Bulk approval *)

Section Bulk.

Import PayrollReview.

Variable coordinatorId : Z.

Lemma same_id_same_record reports (p r : Reporte) :
  NoDup (map id reports) → In p reports → In r reports → id r = id p → p = r.
Proof.
  intros Hnd Hp Hin Heq. induction reports as [| x xs IH]; [destruct Hin |].
  simpl in Hnd. apply NoDup_cons in Hnd. destruct Hnd as [Hx Hxs].
  destruct Hin as [-> | Hin], Hp as [-> | Hp]; auto.
  - exfalso. apply Hx. rewrite Heq. apply list_elem_of_In, in_map, Hp.
  - exfalso. apply Hx. rewrite <- Heq. apply list_elem_of_In, in_map, Hin.
Qed.

Lemma selected_filter (f : Reporte → bool) reports r :
  NoDup (map id reports) → In r reports →
  selected (List.filter f reports) r = f r.
Proof.
  intros Hnd Hin. unfold selected.
  destruct (f r) eqn:Hf.
  - apply existsb_exists. exists r. split; [| apply Z.eqb_refl].
    apply filter_In. auto.
  - apply not_true_is_false. intros H. apply existsb_exists in H.
    destruct H as (p & Hp & Heq). apply filter_In in Hp. destruct Hp as [Hp Hfp].
    apply Z.eqb_eq in Heq.
    assert (p = r) by (eapply same_id_same_record; eassumption).
    congruence.
Qed.

Lemma filter_twice (f g : Reporte → bool) l :
  List.filter f (List.filter g l) = List.filter (λ x, g x && f x) l.
Proof.
  induction l as [| x l IH]; simpl; [reflexivity |].
  destruct (g x); simpl; [destruct (f x) |]; rewrite IH; reflexivity.
Qed.

(** What the day-scope handler does to each record of the store: a record
    of that day that is neither approved nor rejected gets the new status,
    partially approved ones included; every other record stays. *)
Lemma handleBulkApproval_effect reports d n k r :
  NoDup (map id reports) → reports !! k = Some r →
  handleBulkApproval coordinatorId reports d n !! k
  = Some (if onDay d r && bulkTakes r then patch n coordinatorId r else r).
Proof.
  intros Hnd Hk. unfold handleBulkApproval, getReportsForDate.
  assert (Hin : In r reports).
  { apply list_elem_of_In, list_elem_of_lookup. eauto. }
  rewrite filter_twice.
  pose proof (selected_filter (λ x, onDay d x && bulkTakes x) reports r Hnd Hin) as Hsel.
  cbv beta in Hsel.
  change (List.filter _ reports) with (List.filter (λ x, onDay d x && bulkTakes x) reports).
  destruct (List.filter _ reports) eqn:Hps.
  - rewrite Hk. simpl in Hsel. rewrite <- Hsel. reflexivity.
  - rewrite updateAll_lookup, Hk, <- Hsel. reflexivity.
Qed.

(** The week-scope handler, record by record. *)
Lemma handleBulkWeekApproval_effect reports ws we n k r :
  NoDup (map id reports) → reports !! k = Some r →
  handleBulkWeekApproval coordinatorId reports ws we n !! k
  = Some (if inWeek ws we r && bulkTakes r then patch n coordinatorId r else r).
Proof.
  intros Hnd Hk. unfold handleBulkWeekApproval.
  assert (Hin : In r reports).
  { apply list_elem_of_In, list_elem_of_lookup. eauto. }
  match goal with
  | |- context [List.filter ?f reports] =>
      pose proof (selected_filter f reports r Hnd Hin) as Hsel;
      assert (Hf : f r = inWeek ws we r && bulkTakes r)
  end.
  { unfold inWeek, bulkTakes. destruct (fecha_trabajada r); [| reflexivity].
    destruct (statusIs r 1), (statusIs r 2); simpl;
      rewrite ?andb_false_r, ?andb_true_r; reflexivity. }
  cbv beta in Hsel, Hf. rewrite Hf in Hsel.
  destruct (List.filter _ reports) eqn:Hps.
  - rewrite Hk. simpl in Hsel. rewrite <- Hsel. reflexivity.
  - rewrite updateAll_lookup, Hk, <- Hsel. reflexivity.
Qed.

(** Approved and rejected records keep their status under both handlers. *)
Lemma bulk_keeps_approved_and_rejected reports d ws we n k r :
  NoDup (map id reports) → reports !! k = Some r → bulkTakes r = false →
  handleBulkApproval coordinatorId reports d n !! k = Some r
  ∧ handleBulkWeekApproval coordinatorId reports ws we n !! k = Some r.
Proof.
  intros Hnd Hk Hb.
  rewrite (handleBulkApproval_effect _ _ _ _ _ Hnd Hk),
    (handleBulkWeekApproval_effect _ _ _ _ _ _ Hnd Hk), Hb, !andb_false_r.
  split; reflexivity.
Qed.

End Bulk.

(** C1: the bulk handlers take every record that is neither approved nor
    rejected.  With one record approved for its normal hours only (status 3)
    and one pending record on the same Tuesday, "approve all" for that day,
    and likewise for that week, sets both to approved: the record in the
    terminal state 3 does not keep its status.  The day's bulk buttons are
    shown for that record alone, too. *)
Theorem bulk_approval_overwrites_partial_approval :
  let reports := [partlyApproved; stillPending] in
  aprobado <$> PayrollReview.handleBulkApproval 7 reports martes 1 = [Some 1; Some 1]
  ∧ aprobado <$> PayrollReview.handleBulkWeekApproval 7 reports lunes domingo 1
    = [Some 1; Some 1]
  ∧ aprobado <$> PayrollReview.handleBulkApproval 7 reports martes 2 = [Some 2; Some 2]
  ∧ PayrollReview.getPendingCountForDate [partlyApproved] martes = 1%nat
  ∧ aprobado <$> PayrollReview.handleBulkApproval 7 [partlyApproved] martes 1 = [Some 1].
Proof. repeat split. Qed.

(** ** Approval of the normal hours only *)

Section PartialApproval.

Import PayrollReview.

Variable coordinatorId : Z.

Lemma lacksTimeRange_true_inv report settings :
  lacksTimeRange report settings = false →
  ∃ st hi hf fecha, settings = Some st ∧ hasTimeRange report hi hf fecha.
Proof.
  unfold lacksTimeRange, hasTimeRange. intros H.
  apply orb_false_elim in H. destruct H as [H Hs].
  apply orb_false_elim in H. destruct H as [H Hd].
  apply orb_false_elim in H. destruct H as [Hi Hf].
  destruct settings as [st |]; [| discriminate].
  destruct (fecha_trabajada report) as [fecha |]; [| discriminate].
  destruct (hora_inicio report) as [[| c hi] |]; try discriminate.
  destruct (hora_fin report) as [[| c' hf] |]; try discriminate.
  exists st, (String c hi), (String c' hf), fecha. repeat split; discriminate.
Qed.

(** The button's test on the rounded hours is the test on the minutes. *)
Lemma hasExtras_overtime settings r :
  hasExtras settings r = true ↔ positiveOvertime settings r.
Proof.
  unfold hasExtras, calculateHoursBreakdown.
  destruct (lacksTimeRange r settings) eqn:Hl.
  - split; [discriminate |].
    intros (st & hi & hf & fecha & m & -> & Hr & _).
    rewrite (lacksTimeRange_false _ st _ _ _ Hr) in Hl. discriminate.
  - destruct (lacksTimeRange_true_inv _ _ Hl) as (st & hi & hf & fecha & -> & Hr).
    pose proof Hr as (Hi & Hf & Hd & _). rewrite Hi, Hf, Hd.
    cbn [extra splitHours].
    split.
    + intros H. exists st, hi, hf, fecha.
      destruct (extraMinutes (minuteSplit hi hf fecha st)) as [m |] eqn:Hm;
        [| discriminate H].
      exists m. repeat split; try assumption; try (apply Hr).
      apply roundedHours_positive. exact H.
    + intros (st' & hi' & hf' & fecha' & m & [= <-] & (Hi' & Hf' & Hd' & _) & Hm & Hpos).
      assert (hi' = hi) by congruence. assert (hf' = hf) by congruence.
      assert (fecha' = fecha) by congruence. subst.
      rewrite Hm. apply roundedHours_positive. exact Hpos.
Qed.

Lemma employeeReports_In v reports r :
  In r (employeeReports v reports) → In r reports.
Proof.
  unfold employeeReports, getReportsForDate. intros H.
  apply filter_In in H. destruct H as [H _]. apply filter_In in H. tauto.
Qed.

(** C6: among the buttons the approval screen offers, only "approve
    without overtime" on that very record brings a record to status 3
    (approved for the normal hours only); the record was pending (none of
    statuses 1, 2, 3) and the splitter computes strictly positive overtime
    minutes for it.  For a record without positive computed overtime the
    button is not offered. *)
Theorem partial_approval_only_from_pending_with_overtime
    settings v (reports : list Reporte) :
  NoDup (map id reports) →
  (∀ a k r r',
      offered settings v reports a →
      reports !! k = Some r →
      perform coordinatorId a reports !! k = Some r' →
      aprobado r' = Some 3 → aprobado r ≠ Some 3 →
      a = AprobarSinExtras (id r) ∧ showsButtons r = true
      ∧ positiveOvertime settings r)
  ∧ (∀ r, In r reports → ¬ positiveOvertime settings r →
          ¬ offered settings v reports (AprobarSinExtras (id r))).
Proof.
  intros Hnd.
  assert (Hoff : ∀ r, In r reports →
            offered settings v reports (AprobarSinExtras (id r)) →
            showsButtons r = true ∧ positiveOvertime settings r).
  { intros r Hin Ho. inversion Ho as [| report Hrep Hshow Hext Heq | | | | |].
    apply employeeReports_In in Hrep.
    assert (report = r) by (eapply same_id_same_record; eauto).
    subst report. split; [exact Hshow | apply hasExtras_overtime; exact Hext]. }
  split.
  - intros a k r r' Ho Hk Hk' H3 Hn3.
    assert (Hin : In r reports).
    { apply list_elem_of_In, list_elem_of_lookup. eauto. }
    assert (Hbulk : ∀ n, n ≠ 3 → r' = r ∨ r' = patch n coordinatorId r → False).
    { intros n Hn [-> | ->]; [congruence |]. simpl in H3. congruence. }
    destruct a as [i | i | i | d | d | ws we | ws we]; simpl in Hk'.
    + rewrite update_lookup, Hk in Hk'. simpl in Hk'. injection Hk' as <-.
      exfalso. apply (Hbulk 1); [lia |]. destruct (id r =? i); auto.
    + rewrite update_lookup, Hk in Hk'. simpl in Hk'. injection Hk' as <-.
      destruct (id r =? i) eqn:Hi; [| congruence].
      apply Z.eqb_eq in Hi. subst i.
      split; [reflexivity | apply Hoff; assumption].
    + rewrite update_lookup, Hk in Hk'. simpl in Hk'. injection Hk' as <-.
      exfalso. apply (Hbulk 2); [lia |]. destruct (id r =? i); auto.
    + apply handleBulkApproval_lookup in Hk'. destruct Hk' as (r0 & Hk0 & Hr).
      assert (r0 = r) by congruence. subst. exfalso. apply (Hbulk 1); [lia | exact Hr].
    + apply handleBulkApproval_lookup in Hk'. destruct Hk' as (r0 & Hk0 & Hr).
      assert (r0 = r) by congruence. subst. exfalso. apply (Hbulk 2); [lia | exact Hr].
    + apply handleBulkWeekApproval_lookup in Hk'. destruct Hk' as (r0 & Hk0 & Hr).
      assert (r0 = r) by congruence. subst. exfalso. apply (Hbulk 1); [lia | exact Hr].
    + apply handleBulkWeekApproval_lookup in Hk'. destruct Hk' as (r0 & Hk0 & Hr).
      assert (r0 = r) by congruence. subst. exfalso. apply (Hbulk 2); [lia | exact Hr].
  - intros r Hin Hno Ho. apply Hno. apply Hoff; assumption.
Qed.

End PartialApproval.

Lemma partial_approval_only_from_pending_with_overtime_witness :
  let reports := [overtimePending; stillPending] in
  (PayrollReview.AprobarSinExtras 12 = PayrollReview.AprobarSinExtras (id overtimePending)
   ∧ PayrollReview.showsButtons overtimePending = true
   ∧ positiveOvertime (Some noSettings) overtimePending)
  ∧ ¬ PayrollReview.offered (Some noSettings) tuesdayView reports
        (PayrollReview.AprobarSinExtras (id stillPending)).
Proof.
  intros reports.
  assert (Hnd : NoDup (map id reports)).
  { apply (bool_decide_unpack _). vm_compute. exact I. }
  destruct (partial_approval_only_from_pending_with_overtime
              7 (Some noSettings) tuesdayView reports Hnd) as [Hreach Hnot].
  split.
  - apply (Hreach (PayrollReview.AprobarSinExtras 12) 0%nat overtimePending
             (PayrollReview.patch 3 7 overtimePending)).
    + apply (PayrollReview.offer_normal_only _ _ _ overtimePending).
      * left. reflexivity.
      * reflexivity.
      * reflexivity.
    + reflexivity.
    + reflexivity.
    + reflexivity.
    + discriminate.
  - apply Hnot.
    + right. left. reflexivity.
    + intros (st & hi & hf & fecha & m & _ & (Hi & _) & _). discriminate Hi.
Defined.

(** * Weekly totals *)

#[global] Instance num_eq_equivalence : Equivalence num_eq.
Proof.
  split.
  - intros x. apply num_eq_refl.
  - intros x y. apply num_eq_sym.
  - intros x y z. apply num_eq_trans.
Qed.

#[global] Instance nadd_proper : Proper (num_eq ==> num_eq ==> num_eq) nadd.
Proof.
  intros [a |] [a' |] Ha [b |] [b' |] Hb; simpl in *; try tauto.
  rewrite Ha, Hb. reflexivity.
Qed.

Lemma nadd_assoc a b c : num_eq (nadd (nadd a b) c) (nadd a (nadd b c)).
Proof. destruct a, b, c; simpl; try exact I. ring. Qed.

Lemma nadd_comm a b : num_eq (nadd a b) (nadd b a).
Proof. destruct a, b; simpl; try exact I. ring. Qed.

Lemma nadd_zero_r a : num_eq (nadd a (Some 0%Q)) a.
Proof. destruct a; simpl; try exact I. ring. Qed.

Lemma nadd_zero_l a : num_eq (nadd (Some 0%Q) a) a.
Proof. destruct a; simpl; try exact I. ring. Qed.

Lemma nsum_ext {A} (f g : A → number) (l : list A) :
  (∀ x, In x l → num_eq (f x) (g x)) → num_eq (nsum (map f l)) (nsum (map g l)).
Proof.
  induction l as [| x l IH]; intros H; simpl; [reflexivity |].
  rewrite (H x (or_introl eq_refl)), IH; [reflexivity |].
  intros y Hy. apply H. right. exact Hy.
Qed.

Lemma foldl_nadd {A} (f : A → number) acc l :
  num_eq (foldl (λ sum item, nadd sum (f item)) acc l) (nadd acc (nsum (map f l))).
Proof.
  revert acc. induction l as [| x l IH]; intros acc; simpl.
  - rewrite nadd_zero_r. reflexivity.
  - rewrite IH, nadd_assoc. reflexivity.
Qed.

Lemma running_nsum {A} (part : A → number) l : num_eq (running part l) (nsum (map part l)).
Proof. unfold running. rewrite foldl_nadd, nadd_zero_l. reflexivity. Qed.

Section Aggregation.

Import PayrollReview.

Variable settings : option Settings.

Lemma statusIs_excl r a b : a ≠ b → statusIs r a = true → statusIs r b = false.
Proof.
  unfold statusIs. destruct (aprobado r); [| discriminate].
  intros Hab Ha. apply Z.eqb_eq in Ha. apply Z.eqb_neq. congruence.
Qed.

(** What a report adds to the three status counters, by status. *)
Lemma parts_of_a_report r :
  (PayrollReview.statusIs r 3 = false →
   (PayrollReview.statusIs r 1 = true
    ∧ approvedPart settings r = storedHours r
    ∧ rejectedPart settings r = Some 0%Q ∧ pendingPart r = Some 0%Q)
   ∨ (PayrollReview.statusIs r 2 = true
      ∧ approvedPart settings r = Some 0%Q
      ∧ rejectedPart settings r = storedHours r ∧ pendingPart r = Some 0%Q)
   ∨ (PayrollReview.statusIs r 1 = false ∧ PayrollReview.statusIs r 2 = false
      ∧ approvedPart settings r = Some 0%Q
      ∧ rejectedPart settings r = Some 0%Q ∧ pendingPart r = storedHours r))
  ∧ (PayrollReview.statusIs r 3 = true →
     approvedPart settings r = normal (PayrollReview.calculateHoursBreakdown settings r)
     ∧ rejectedPart settings r = extra (PayrollReview.calculateHoursBreakdown settings r)
     ∧ pendingPart r = Some 0%Q).
Proof.
  unfold approvedPart, rejectedPart, pendingPart, storedHours.
  destruct (PayrollReview.statusIs r 1) eqn:H1.
  - rewrite (statusIs_excl r 1 2), (statusIs_excl r 1 3) by (lia || assumption).
    split; [intros _; left; auto | discriminate].
  - destruct (PayrollReview.statusIs r 2) eqn:H2.
    + rewrite (statusIs_excl r 2 3) by (lia || assumption).
      split; [intros _; right; left; auto | discriminate].
    + destruct (PayrollReview.statusIs r 3); simpl.
      * split; [discriminate | auto].
      * split; [intros _; right; right; auto | discriminate].
Qed.

Lemma addReport_other weeks r k :
  inWeekOf k r = false → addReport settings weeks r !! k = weeks !! k.
Proof.
  unfold inWeekOf, addReport. destruct (fecha_trabajada r) as [d |]; [| reflexivity].
  intros H. apply Z.eqb_neq in H. cbv zeta. rewrite lookup_insert_ne; [reflexivity | exact H].
Qed.

Lemma addReport_same weeks r k :
  inWeekOf k r = true →
  ∃ table,
    addReport settings weeks r !! k
    = Some (withByClient
              (countWeek settings r (default (newWeek k (k + 6)) (weeks !! k))) table).
Proof.
  unfold inWeekOf, addReport. destruct (fecha_trabajada r) as [d |]; [| discriminate].
  intros H. apply Z.eqb_eq in H. cbv zeta. unfold endOfWeek. rewrite H.
  eexists. apply lookup_insert_eq.
Qed.

Lemma countWeek_weekStart r w : weekStart (countWeek settings r w) = weekStart w.
Proof.
  unfold countWeek.
  destruct (statusIs r 1), (statusIs r 2), (statusIs r 3); reflexivity.
Qed.

Lemma foldl_addReport_weekStart reports weeks :
  (∀ k w, weeks !! k = Some w → weekStart w = k) →
  ∀ k w, foldl (addReport settings) weeks reports !! k = Some w → weekStart w = k.
Proof.
  revert weeks. induction reports as [| r rs IH]; intros weeks Hinv k w Hw; simpl in *.
  - eauto.
  - apply (IH (addReport settings weeks r)); [| exact Hw].
    clear - Hinv. intros k w Hw.
    destruct (inWeekOf k r) eqn:Hr.
    + destruct (addReport_same weeks r k Hr) as [table Heq].
      rewrite Heq in Hw. injection Hw as <-.
      change (weekStart (countWeek settings r (default (newWeek k (k + 6)) (weeks !! k))) = k).
      rewrite countWeek_weekStart.
      destruct (weeks !! k) as [w0 |] eqn:Hk; [apply (Hinv _ _ Hk) | reflexivity].
    + rewrite (addReport_other weeks r k Hr) in Hw. eauto.
Qed.

Lemma weeklyTotals_In reports monthStart monthEnd week :
  In week (weeklyTotals settings reports monthStart monthEnd) →
  weeksOf settings reports !! weekStart week = Some week.
Proof.
  unfold weeklyTotals. intros H.
  apply list_elem_of_In in H. rewrite merge_sort_Permutation in H.
  apply list_elem_of_In, filter_In in H. destruct H as [H _].
  apply in_map_iff in H. destruct H as ([k w] & <- & H). simpl.
  apply list_elem_of_In, elem_of_map_to_list in H.
  assert (weekStart w = k) as ->; [| exact H].
  eapply foldl_addReport_weekStart; [| exact H].
  intros k' w'. rewrite lookup_empty. discriminate.
Qed.

Lemma countWeek_weekEnd r w : weekEnd (countWeek settings r w) = weekEnd w.
Proof.
  unfold countWeek.
  destruct (statusIs r 1), (statusIs r 2), (statusIs r 3); reflexivity.
Qed.

Lemma foldl_addReport_weekEnd reports weeks :
  (∀ (k : date) w, weeks !! k = Some w → weekEnd w = k + 6) →
  ∀ (k : date) w,
    foldl (addReport settings) weeks reports !! k = Some w → weekEnd w = k + 6.
Proof.
  revert weeks. induction reports as [| r rs IH]; intros weeks Hinv k w Hw; simpl in *.
  - eauto.
  - apply (IH (addReport settings weeks r)); [| exact Hw].
    clear - Hinv. intros k w Hw.
    destruct (inWeekOf k r) eqn:Hr.
    + destruct (addReport_same weeks r k Hr) as [table Heq].
      rewrite Heq in Hw. injection Hw as <-.
      change (weekEnd (countWeek settings r (default (newWeek k (k + 6)) (weeks !! k)))
              = k + 6).
      rewrite countWeek_weekEnd.
      destruct (weeks !! k) as [w0 |] eqn:Hk; [apply (Hinv _ _ Hk) | reflexivity].
    + rewrite (addReport_other weeks r k Hr) in Hw. eauto.
Qed.

Lemma foldl_addReport_keeps reports weeks (k : date) :
  is_Some (weeks !! k) → is_Some (foldl (addReport settings) weeks reports !! k).
Proof.
  revert weeks. induction reports as [| r rs IH]; intros weeks Hk; simpl; [exact Hk |].
  apply IH. destruct (inWeekOf k r) eqn:Hr.
  - destruct (addReport_same weeks r k Hr) as [table ->]. eauto.
  - rewrite (addReport_other weeks r k Hr). exact Hk.
Qed.

Lemma foldl_addReport_has reports weeks r d :
  In r reports → fecha_trabajada r = Some d →
  is_Some (foldl (addReport settings) weeks reports !! startOfWeek d).
Proof.
  revert weeks. induction reports as [| x xs IH]; intros weeks Hin Hd; [destruct Hin |].
  simpl. destruct Hin as [-> | Hin]; [| apply IH; assumption].
  apply foldl_addReport_keeps.
  destruct (addReport_same weeks r (startOfWeek d)) as [table ->]; [| eauto].
  unfold inWeekOf. rewrite Hd. apply Z.eqb_refl.
Qed.

(** Every week that has a dated report and touches the month on screen is
    listed. *)
Lemma weeklyTotals_lists reports monthStart monthEnd r d :
  In r reports → fecha_trabajada r = Some d →
  isWithinInterval (startOfWeek d) monthStart monthEnd
  || isWithinInterval (endOfWeek d) monthStart monthEnd = true →
  ∃ week, In week (weeklyTotals settings reports monthStart monthEnd)
          ∧ weekStart week = startOfWeek d.
Proof.
  intros Hin Hd Hview.
  destruct (foldl_addReport_has reports ∅ r d Hin Hd) as [week Hweek].
  fold (weeksOf settings reports) in Hweek.
  assert (Hws : weekStart week = startOfWeek d).
  { eapply foldl_addReport_weekStart; [| exact Hweek].
    intros k' w'. rewrite lookup_empty. discriminate. }
  assert (Hwe : weekEnd week = startOfWeek d + 6).
  { eapply foldl_addReport_weekEnd; [| exact Hweek].
    intros k' w'. rewrite lookup_empty. discriminate. }
  exists week. split; [| exact Hws].
  unfold weeklyTotals. apply list_elem_of_In. rewrite merge_sort_Permutation.
  apply list_elem_of_In, filter_In. split.
  - apply in_map_iff. exists (startOfWeek d, week). split; [reflexivity |].
    apply list_elem_of_In, elem_of_map_to_list. exact Hweek.
  - unfold inMonthView. rewrite Hws, Hwe. exact Hview.
Qed.

(** *** One counter of the week record

    A counter is a field of the week that starts at 0, that the client
    table does not touch, and to which each report adds its part. *)
Section Counter.

Variable field : WeekData → number.
Variable part : Reporte → number.

Hypothesis field_new : ∀ ws we, field (newWeek ws we) = Some 0%Q.
Hypothesis field_table : ∀ w table, field (withByClient w table) = field w.
Hypothesis field_count :
  ∀ r w, num_eq (field (countWeek settings r w)) (nadd (field w) (part r)).

(** The week of key [k] after the loop. *)
Lemma foldl_addReport_counter reports weeks k w :
  foldl (addReport settings) weeks reports !! k = Some w →
  num_eq (field w)
         (nadd (field (default (newWeek k (k + 6)) (weeks !! k)))
               (nsum (map part (reportsOfWeek k reports)))).
Proof.
  revert weeks. induction reports as [| r rs IH]; intros weeks Hw; simpl in *.
  - rewrite Hw. simpl. symmetry. apply nadd_zero_r.
  - specialize (IH _ Hw). rewrite IH. clear IH Hw.
    destruct (inWeekOf k r) eqn:Hr; simpl.
    + destruct (addReport_same weeks r k Hr) as [table ->]. simpl.
      rewrite field_table, field_count. apply nadd_assoc.
    + rewrite (addReport_other weeks r k Hr). reflexivity.
Qed.

Lemma weeksOf_counter reports k w :
  weeksOf settings reports !! k = Some w →
  num_eq (field w) (nsum (map part (reportsOfWeek k reports))).
Proof.
  intros H. rewrite (foldl_addReport_counter reports ∅ k w H).
  rewrite lookup_empty. simpl. rewrite field_new. apply nadd_zero_l.
Qed.

End Counter.

Lemma totalHours_count r w :
  num_eq (totalHours (countWeek settings r w)) (nadd (totalHours w) (storedHours r)).
Proof.
  unfold countWeek, storedHours.
  destruct (statusIs r 1), (statusIs r 2), (statusIs r 3); reflexivity.
Qed.

Lemma approved_count r w :
  num_eq (approved (countWeek settings r w)) (nadd (approved w) (approvedPart settings r)).
Proof.
  unfold countWeek, approvedPart.
  destruct (statusIs r 1) eqn:H1; [reflexivity |].
  destruct (statusIs r 2) eqn:H2.
  - rewrite (statusIs_excl r 2 3) by (lia || assumption).
    simpl. symmetry. apply nadd_zero_r.
  - destruct (statusIs r 3); simpl; [reflexivity | symmetry; apply nadd_zero_r].
Qed.

Lemma rejected_count r w :
  num_eq (rejected (countWeek settings r w)) (nadd (rejected w) (rejectedPart settings r)).
Proof.
  unfold countWeek, rejectedPart.
  destruct (statusIs r 1) eqn:H1.
  - rewrite (statusIs_excl r 1 2), (statusIs_excl r 1 3) by (lia || assumption).
    simpl. symmetry. apply nadd_zero_r.
  - destruct (statusIs r 2) eqn:H2; [reflexivity |].
    destruct (statusIs r 3); simpl; [reflexivity | symmetry; apply nadd_zero_r].
Qed.

Lemma pending_count r w :
  num_eq (pending (countWeek settings r w)) (nadd (pending w) (pendingPart r)).
Proof.
  unfold countWeek, pendingPart.
  destruct (statusIs r 1), (statusIs r 2), (statusIs r 3); simpl;
    try reflexivity; symmetry; apply nadd_zero_r.
Qed.

(** The four counters of a listed week as sums over its reports. *)
Lemma weeksOf_counters reports k w :
  weeksOf settings reports !! k = Some w →
  let entries := reportsOfWeek k reports in
  num_eq (totalHours w) (nsum (map storedHours entries))
  ∧ num_eq (approved w) (nsum (map (approvedPart settings) entries))
  ∧ num_eq (rejected w) (nsum (map (rejectedPart settings) entries))
  ∧ num_eq (pending w) (nsum (map pendingPart entries)).
Proof.
  intros H entries. repeat split.
  - apply (weeksOf_counter totalHours storedHours); auto using totalHours_count.
  - apply (weeksOf_counter approved (approvedPart settings)); auto using approved_count.
  - apply (weeksOf_counter rejected (rejectedPart settings)); auto using rejected_count.
  - apply (weeksOf_counter pending pendingPart); auto using pending_count.
Qed.

End Aggregation.

(** C7, as amended: every week the aggregator lists has, as total, the sum
    of the stored hours of the reports whose work date falls in that
    Monday-to-Sunday week, and its approved, rejected and pending counters
    are the sums of what each of those reports contributes, each sum
    accumulated in the order of the reports.  A report that is not in status
    3 contributes its stored hours to exactly one of the three counters
    (approved in status 1, rejected in status 2, pending otherwise) and 0 to
    the other two; a report in status 3 (approved for the normal hours only)
    contributes the normal hours of its breakdown to approved, the overtime
    hours to rejected and 0 to pending.  No equality between approved +
    rejected + pending and the total is stated: the four counters are
    accumulated apart. *)
Theorem weekly_totals_account_for_every_entry
    settings reports monthStart monthEnd (week : PayrollReview.WeekData) :
  In week (PayrollReview.weeklyTotals settings reports monthStart monthEnd) →
  let entries := reportsOfWeek (PayrollReview.weekStart week) reports in
  let bd := PayrollReview.calculateHoursBreakdown settings in
  num_eq (PayrollReview.totalHours week) (running storedHours entries)
  ∧ num_eq (PayrollReview.approved week) (running (approvedPart settings) entries)
  ∧ num_eq (PayrollReview.rejected week) (running (rejectedPart settings) entries)
  ∧ num_eq (PayrollReview.pending week) (running pendingPart entries)
  ∧ (∀ r, In r entries → PayrollReview.statusIs r 3 = false →
       (PayrollReview.statusIs r 1 = true
        ∧ approvedPart settings r = storedHours r
        ∧ rejectedPart settings r = Some 0%Q ∧ pendingPart r = Some 0%Q)
       ∨ (PayrollReview.statusIs r 2 = true
          ∧ approvedPart settings r = Some 0%Q
          ∧ rejectedPart settings r = storedHours r ∧ pendingPart r = Some 0%Q)
       ∨ (PayrollReview.statusIs r 1 = false ∧ PayrollReview.statusIs r 2 = false
          ∧ approvedPart settings r = Some 0%Q
          ∧ rejectedPart settings r = Some 0%Q ∧ pendingPart r = storedHours r))
  ∧ (∀ r, In r entries → PayrollReview.statusIs r 3 = true →
       approvedPart settings r = normal (bd r)
       ∧ rejectedPart settings r = extra (bd r)
       ∧ pendingPart r = Some 0%Q).
Proof.
  intros Hin entries bd.
  apply weeklyTotals_In in Hin.
  destruct (weeksOf_counters settings reports _ _ Hin) as (Ht & Ha & Hr & Hp).
  fold entries in Ht, Ha, Hr, Hp.
  rewrite !running_nsum.
  repeat (split; [assumption |]).
  split; intros r _; apply (parts_of_a_report settings r).
Qed.

Example firstWeek_counters :
  PayrollReview.weekStart firstWeek = lunes
  ∧ num_eq (PayrollReview.totalHours firstWeek) (Some 29%Q)
  ∧ num_eq (PayrollReview.approved firstWeek) (Some 18%Q)
  ∧ num_eq (PayrollReview.rejected firstWeek) (Some 5%Q)
  ∧ num_eq (PayrollReview.pending firstWeek) (Some 6%Q).
Proof. vm_compute. repeat split. Qed.

Lemma weekly_totals_account_for_every_entry_witness :
  In firstWeek (PayrollReview.weeklyTotals (Some noSettings) weekSample lunes (lunes + 30))
  ∧ let entries := reportsOfWeek (PayrollReview.weekStart firstWeek) weekSample in
    num_eq (PayrollReview.totalHours firstWeek) (running storedHours entries)
    ∧ num_eq (PayrollReview.approved firstWeek)
             (running (approvedPart (Some noSettings)) entries)
    ∧ num_eq (PayrollReview.rejected firstWeek)
             (running (rejectedPart (Some noSettings)) entries)
    ∧ num_eq (PayrollReview.pending firstWeek) (running pendingPart entries).
Proof.
  assert (Hin : In firstWeek
                  (PayrollReview.weeklyTotals (Some noSettings) weekSample lunes (lunes + 30))).
  { vm_compute. left. reflexivity. }
  split; [exact Hin |].
  destruct (weekly_totals_account_for_every_entry
              (Some noSettings) weekSample lunes (lunes + 30) firstWeek Hin)
    as (Ht & Ha & Hr & Hp & _).
  repeat split; assumption.
Defined.

(** ** The counters in the arithmetic of the program *)

Section CountersArithmetic.

Context {N : Type} (add : N → N → N).

Import WeekCounters.

(** Whatever the addition, each counter is the running sum, in the order of
    the list, of what the reports add to it. *)
Lemma foldl_count_running (week : t N) (reports : list (Entry N)) :
  let after := foldl (count add) week reports in
  totalHours after = foldl (λ sum r, add sum (horas r)) (totalHours week) reports
  ∧ approved after
    = foldl (λ sum r, if statusIs r 1 then add sum (horas r)
                      else if statusIs r 2 then sum
                      else if statusIs r 3 then add sum (normal r) else sum)
            (approved week) reports
  ∧ rejected after
    = foldl (λ sum r, if statusIs r 1 then sum
                      else if statusIs r 2 then add sum (horas r)
                      else if statusIs r 3 then add sum (extra r) else sum)
            (rejected week) reports
  ∧ pending after
    = foldl (λ sum r, if statusIs r 1 || statusIs r 2 || statusIs r 3 then sum
                      else add sum (horas r))
            (pending week) reports.
Proof.
  revert week. induction reports as [| r rs IH]; intros week; simpl.
  - auto.
  - destruct (IH (count add week r)) as (Ht & Ha & Hr & Hp).
    rewrite Ht, Ha, Hr, Hp. unfold count.
    destruct (statusIs r 1), (statusIs r 2), (statusIs r 3); simpl; auto.
Qed.

End CountersArithmetic.

(** [PayrollReview.countWeek] is [WeekCounters.count] on exact rationals. *)
Lemma countWeek_counters settings report week :
  countersOf (PayrollReview.countWeek settings report week)
  = WeekCounters.count nadd (countersOf week) (entryOf settings report).
Proof.
  unfold PayrollReview.countWeek, WeekCounters.count, countersOf, entryOf.
  change (WeekCounters.statusIs ?e ?n) with (PayrollReview.statusIs report n).
  destruct (PayrollReview.statusIs report 1), (PayrollReview.statusIs report 2),
           (PayrollReview.statusIs report 3); reflexivity.
Qed.

(** Against C7 as stated: a week with six minutes pending, six minutes
    approved and an hour and six minutes pending, none of them in status 3.
    In the binary64 arithmetic of the program the total of the week is 1.3
    and approved + rejected + pending is 1.3000000000000003: the three
    counters do not add up to the total exactly. *)
Lemma weekly_counters_do_not_add_up_in_doubles :
  WeekCounters.totalHours Doubles.week = Doubles.total_shown
  ∧ WeekCounters.counted PrimFloat.add Doubles.week = Doubles.counted_shown
  ∧ PrimFloat.eqb (WeekCounters.counted PrimFloat.add Doubles.week)
                  (WeekCounters.totalHours Doubles.week) = false
  ∧ WeekCounters.counted PrimFloat.add Doubles.week ≠ WeekCounters.totalHours Doubles.week.
Proof.
  split; [reflexivity |]. split; [reflexivity |]. split; [reflexivity |].
  intros E.
  assert (H : PrimFloat.eqb (WeekCounters.counted PrimFloat.add Doubles.week)
                            (WeekCounters.totalHours Doubles.week)
              = PrimFloat.eqb (WeekCounters.totalHours Doubles.week)
                              (WeekCounters.totalHours Doubles.week)).
  { rewrite E. reflexivity. }
  vm_compute in H. discriminate H.
Qed.

(** * The entry form with ceilings *)

Lemma Qle_bool_false a b : Qle_bool a b = false ↔ (b < a)%Q.
Proof.
  split.
  - intros H. apply Qnot_le_lt. intros Hle. apply Qle_bool_iff in Hle. congruence.
  - intros H. apply not_true_is_false. intros Hle. apply Qle_bool_iff in Hle. lra.
Qed.

Lemma Qeq_bool_false a b : Qeq_bool a b = false ↔ ¬ (a == b)%Q.
Proof.
  split.
  - intros H Heq. apply Qeq_bool_iff in Heq. congruence.
  - intros H. apply not_true_is_false. intros Heq. apply Qeq_bool_iff in Heq. tauto.
Qed.

Lemma foldl_horas acc l :
  (foldl (λ sum record, sum + HoursRecord.horas record) acc l == acc + sumHoras l)%Q.
Proof.
  unfold sumHoras. revert acc. induction l as [| r l IH]; intros acc; simpl.
  - ring.
  - rewrite (IH (acc + HoursRecord.horas r)%Q), (IH (0 + HoursRecord.horas r)%Q). ring.
Qed.

Lemma sumHoras_cons r l : (sumHoras (r :: l) == HoursRecord.horas r + sumHoras l)%Q.
Proof. unfold sumHoras at 1. simpl. rewrite foldl_horas. ring. Qed.

Lemma sumHoras_app l1 l2 : (sumHoras (l1 ++ l2) == sumHoras l1 + sumHoras l2)%Q.
Proof.
  induction l1 as [| r l1 IH]; simpl.
  - unfold sumHoras at 2. simpl. ring.
  - rewrite !sumHoras_cons, IH. ring.
Qed.

Lemma sumHoras_nonneg l :
  Forall (λ r, 0 <= HoursRecord.horas r)%Q l → (0 <= sumHoras l)%Q.
Proof.
  induction 1 as [| r l Hr Hl IH].
  - unfold sumHoras. simpl. lra.
  - rewrite sumHoras_cons. lra.
Qed.

(** Taking one record out of the list takes its hours out of a filtered sum. *)
Lemma sumHoras_filter_without (f : HoursRecord.t → bool) l1 r l2 :
  (sumHoras (List.filter f (l1 ++ r :: l2))
   == sumHoras (List.filter f (l1 ++ l2)) + (if f r then HoursRecord.horas r else 0))%Q.
Proof.
  rewrite !List.filter_app, !sumHoras_app. simpl.
  destruct (f r); [rewrite sumHoras_cons |]; ring.
Qed.

Lemma day_in_its_week d : isWithinInterval d (startOfWeek d) (endOfWeek d) = true.
Proof.
  unfold isWithinInterval, endOfWeek, startOfWeek.
  pose proof (Z.mod_pos_bound (getDay d + 6) 7 ltac:(lia)).
  apply andb_true_intro. split; apply Z.leb_le; lia.
Qed.

Section Ceilings.

Import CalendarHoursEntryLimits.

Lemma adjusted_day p d others :
  Others p others → editsOnItsDay p d →
  (getDailyHours p d - horasEditando p == hoursOfDay d others)%Q.
Proof.
  unfold getDailyHours, horasEditando, hoursOfDay.
  intros [Hnone | r l1 l2 Hr Hex] Hday.
  - rewrite Hnone. ring.
  - rewrite Hr, Hex, sumHoras_filter_without.
    rewrite (Hday r Hr), Z.eqb_refl. ring.
Qed.

Lemma editsOnItsDay_week p d : editsOnItsDay p d → editsInItsWeek p d.
Proof. intros H r Hr. rewrite (H r Hr). apply day_in_its_week. Qed.

Lemma adjusted_week p d others :
  Others p others → editsInItsWeek p d →
  (getWeeklyHours p d - horasEditando p == hoursOfWeek d others)%Q.
Proof.
  unfold getWeeklyHours, horasEditando, hoursOfWeek.
  intros [Hnone | r l1 l2 Hr Hex] Hweek.
  - rewrite Hnone. ring.
  - rewrite Hr, Hex, sumHoras_filter_without.
    rewrite (Hweek r Hr). ring.
Qed.

Lemma remaining_week p s d others :
  selectedDate s = Some d → Others p others → editsInItsWeek p d →
  (remaining (weeklyHoursInfo p s) == activeWeeklyLimit p - hoursOfWeek d others)%Q.
Proof.
  intros Hd Ho He. unfold weeklyHoursInfo. rewrite Hd. simpl.
  rewrite <- (adjusted_week p d others Ho He). unfold horasEditando. reflexivity.
Qed.

(** A submission gets past the field checks only with a date and a positive
    hour count, and is then settled by the two ceilings. *)
Lemma handleSubmit_reaches_limits p s :
  (∀ m, handleSubmit p s = Rejected m → m ≠ ClienteNoEncontrado →
        ∃ h d, horas s = Some h ∧ selectedDate s = Some d ∧ (0 < h)%Q
               ∧ checkLimits p s h d = Rejected m)
  ∧ (∀ c h d a, handleSubmit p s = Saved c h d a →
        horas s = Some h ∧ selectedDate s = Some d ∧ (0 < h)%Q
        ∧ checkLimits p s h d = Saved c h d a).
Proof.
  unfold handleSubmit.
  destruct (isEmpty (selectedCliente s)); [split; intros; discriminate |].
  destruct (isEmpty (areaCliente s) || isEmpty (trim (areaCliente s)));
    [split; intros; discriminate |].
  destruct (horas s) as [h |]; [| split; intros; discriminate].
  destruct (Qle_bool h 0) eqn:Hh; [split; intros; discriminate |].
  apply Qle_bool_false in Hh.
  destruct (selectedDate s) as [d |]; [| split; intros; discriminate].
  destruct (List.find _ (clientes p)) as [found |].
  - split.
    + intros m Hm _. exists h, d. auto.
    + intros c h' d' a Hs.
      assert (h' = h ∧ d' = d) as [-> ->].
      { unfold checkLimits in Hs.
        repeat match type of Hs with
               | (if ?b then _ else _) = _ => destruct b
               end; try discriminate. injection Hs as _ <- <- _. auto. }
      auto.
  - split; [intros m [= <-] Hne; congruence | intros; discriminate].
Qed.

Ltac verdict :=
  repeat split;
  try tauto; try discriminate; try (intros; lra); try (intros [? ?]; lra);
  try (intros ? [= <-]; simpl; try split; lra).

(** The verdict of the two ceilings on a candidate, with the figures the
    rejections name, when the hours of the record being edited are taken out
    of a day with [day] hours and a week with [week] hours left. *)
Lemma checkLimits_verdict p s h d day week :
  selectedDate s = Some d →
  (getDailyHours p d - horasEditando p == day)%Q →
  (getWeeklyHours p d - horasEditando p == week)%Q →
  let maxPermitido := limitOfDay (activeDailyLimits p) (getDay d) in
  ¬ (maxPermitido == 0)%Q →
  (dailyLimitViolation (checkLimits p s h d) ↔ (maxPermitido < day + h)%Q)
  ∧ (weeklyLimitViolation (checkLimits p s h d)
     ↔ (day + h <= maxPermitido)%Q ∧ (activeWeeklyLimit p < week + h)%Q)
  ∧ ((day + h <= maxPermitido)%Q → (week + h <= activeWeeklyLimit p)%Q →
     checkLimits p s h d = Saved (selectedCliente s) h d (trim (areaCliente s)))
  ∧ (∀ m, checkLimits p s h d = Rejected m → namesTotals m day week).
Proof.
  intros Hd Hday Hweek maxPermitido Hopen.
  assert (Hrem : (remaining (weeklyHoursInfo p s) == activeWeeklyLimit p - week)%Q).
  { unfold weeklyHoursInfo. rewrite Hd. simpl. rewrite <- Hweek.
    unfold horasEditando. reflexivity. }
  unfold checkLimits. fold (horasEditando p). fold maxPermitido.
  apply Qeq_bool_false in Hopen. rewrite Hopen.
  destruct (Qle_bool (getDailyHours p d - horasEditando p + h) maxPermitido) eqn:Hd1; simpl.
  - apply Qle_bool_iff in Hd1.
    destruct (Qle_bool h (remaining (weeklyHoursInfo p s))) eqn:Hw1; simpl.
    + apply Qle_bool_iff in Hw1. verdict.
    + apply Qle_bool_false in Hw1. verdict.
  - apply Qle_bool_false in Hd1.
    destruct (Qle_bool (maxPermitido - (getDailyHours p d - horasEditando p)) 0);
      simpl; verdict.
Qed.

End Ceilings.

Section CeilingTheorems.

Import CalendarHoursEntryLimits.

Lemma handleSubmit_checkLimits p s h d :
  passesFieldChecks p s h d → handleSubmit p s = checkLimits p s h d.
Proof.
  intros (Hc & Ha & Hat & Hh & Hpos & Hd & Hf). unfold handleSubmit.
  rewrite Hc, Ha, Hat, Hh, Hd. simpl.
  apply Qle_bool_false in Hpos. rewrite Hpos.
  destruct (List.find _ (clientes p)); [reflexivity | discriminate].
Qed.

(** C5, as amended: for a candidate that passes the field checks and is
    new, or is an edit of one of the recorded entries submitted on that
    entry's own day: on a day whose configured maximum is 0 the validator
    fails with the day-closed violation; on any other day it fails with a
    daily-limit violation exactly when the hours already recorded that day,
    without the entry being edited, plus the candidate's hours exceed the
    maximum.  That violation carries the remaining headroom when some
    remains, and otherwise the hours already recorded and the maximum. *)
Theorem daily_ceiling p s h d others :
  passesFieldChecks p s h d → Others p others → editsOnItsDay p d →
  let maxPermitido := limitOfDay (activeDailyLimits p) (getDay d) in
  let recorded := hoursOfDay d others in
  ((maxPermitido == 0)%Q → handleSubmit p s = Rejected (DiaNoPermitido d))
  ∧ (¬ (maxPermitido == 0)%Q →
     (dailyLimitViolation (handleSubmit p s) ↔ (maxPermitido < recorded + h)%Q)
     ∧ ((maxPermitido < recorded + h)%Q → (0 < maxPermitido - recorded)%Q →
        ∃ reg disp,
          handleSubmit p s = Rejected (LimiteDiarioExcedido h reg disp maxPermitido)
          ∧ (reg == recorded)%Q ∧ (disp == maxPermitido - recorded)%Q)
     ∧ ((maxPermitido < recorded + h)%Q → (maxPermitido - recorded <= 0)%Q →
        ∃ reg,
          handleSubmit p s = Rejected (LimiteDiarioAlcanzado reg maxPermitido)
          ∧ (reg == recorded)%Q)).
Proof.
  intros Hf Ho He maxPermitido recorded.
  rewrite (handleSubmit_checkLimits p s h d Hf).
  pose proof (adjusted_day p d others Ho He) as Hadj.
  unfold horasEditando in Hadj. fold recorded in Hadj.
  unfold checkLimits. fold maxPermitido.
  set (adj := (getDailyHours p d - _)%Q) in *.
  split.
  - intros Hz. apply Qeq_bool_iff in Hz. rewrite Hz. reflexivity.
  - intros Hnz. apply Qeq_bool_false in Hnz. rewrite Hnz.
    destruct (Qle_bool (adj + h) maxPermitido) eqn:Hday; simpl.
    + apply Qle_bool_iff in Hday.
      split; [| split]; try (intros; lra).
      split; [| intros; lra].
      destruct (negb (Qle_bool h _)); simpl; tauto.
    + apply Qle_bool_false in Hday.
      destruct (Qle_bool (maxPermitido - adj) 0) eqn:Hdisp.
      * apply Qle_bool_iff in Hdisp.
        split; [simpl; split; [intros _; lra | tauto] |].
        split; [intros; lra |].
        intros _ _. exists adj. split; [reflexivity | exact Hadj].
      * apply Qle_bool_false in Hdisp.
        split; [simpl; split; [intros _; lra | tauto] |].
        split; [| intros; lra].
        intros _ _. exists adj, (maxPermitido - adj)%Q.
        split; [reflexivity |]. split; [exact Hadj | lra].
Qed.

(** C4, as amended: the form that takes an hour count saves a candidate,
    new or an edit of one of the recorded entries whose date lies in the
    Monday-to-Sunday week of the candidate's date, only if the hours recorded
    in that week, without the entry being edited, plus the candidate's hours
    do not exceed the weekly limit; the weekly rejection carries the
    remaining headroom of that week. *)
Theorem weekly_ceiling p s others :
  Others p others → (∀ d, selectedDate s = Some d → editsInItsWeek p d) →
  (∀ c h d a, handleSubmit p s = Saved c h d a →
      (hoursOfWeek d others + h <= activeWeeklyLimit p)%Q)
  ∧ (∀ h disp lim, handleSubmit p s = Rejected (LimiteSemanalExcedido h disp lim) →
      ∃ d, selectedDate s = Some d ∧ lim = activeWeeklyLimit p
           ∧ (disp == lim - hoursOfWeek d others)%Q
           ∧ (lim < hoursOfWeek d others + h)%Q).
Proof.
  intros Ho He.
  destruct (handleSubmit_reaches_limits p s) as [Hrej Hsav].
  split.
  - intros c h d a Hs. destruct (Hsav c h d a Hs) as (_ & Hd & _ & Hc).
    pose proof (remaining_week p s d others Hd Ho (He d Hd)) as Hrem.
    unfold checkLimits in Hc.
    destruct (Qeq_bool _ 0); [discriminate |].
    destruct (negb (Qle_bool _ (limitOfDay _ _)));
      [destruct (Qle_bool _ 0); discriminate |].
    destruct (Qle_bool h (remaining (weeklyHoursInfo p s))) eqn:Hw; [| discriminate].
    apply Qle_bool_iff in Hw. lra.
  - intros h disp lim Hr.
    destruct (Hrej _ Hr ltac:(discriminate)) as (h' & d & _ & Hd & _ & Hc).
    pose proof (remaining_week p s d others Hd Ho (He d Hd)) as Hrem.
    exists d. split; [exact Hd |].
    unfold checkLimits in Hc.
    destruct (Qeq_bool _ 0); [discriminate |].
    destruct (negb (Qle_bool _ (limitOfDay _ _)));
      [destruct (Qle_bool _ 0); discriminate |].
    destruct (Qle_bool h' (remaining (weeklyHoursInfo p s))) eqn:Hw; [discriminate |].
    apply Qle_bool_false in Hw. simpl in Hc. injection Hc as -> <- <-.
    split; [reflexivity |]. split; lra.
Qed.

End CeilingTheorems.

Section Revalidation.

Import CalendarHoursEntryLimits.

Lemma Forall_filter_horas (f : HoursRecord.t → bool) l :
  Forall (λ r, 0 <= HoursRecord.horas r)%Q l →
  Forall (λ r, 0 <= HoursRecord.horas r)%Q (List.filter f l).
Proof.
  rewrite !List.Forall_forall. intros H r Hr. apply filter_In in Hr. apply H, Hr.
Qed.

(** C8: an edit that keeps the hour count of the edited record, on the
    record's own day, is never refused by a ceiling the recorded entries
    already respect.  The validator takes the record's prior hours out of the
    day's and the week's totals before it checks the candidate: whatever
    hour count the edit submits, the submission fails on the daily ceiling
    exactly when the hours of the other records of the day plus the
    candidate's exceed the day's maximum, fails on the weekly ceiling exactly
    when it passes the daily one and the hours of the other records of the
    week plus the candidate's exceed the weekly limit, is saved otherwise,
    and every rejection names the hours of the other records.  With the
    candidate's hours equal to the prior ones the day and the week are where
    they were, so the only rejection left is the one for a client that is no
    longer in the list, and a candidate that passes the field checks is
    saved. *)
Theorem same_hours_edit_passes_ceilings p s r l1 l2 :
  recordToEdit p = Some r →
  existingRecords p = l1 ++ r :: l2 →
  selectedDate s = Some (HoursRecord.fecha r) →
  horas s = Some (HoursRecord.horas r) →
  Forall (λ x, 0 <= HoursRecord.horas x)%Q (existingRecords p) →
  (hoursOfDay (HoursRecord.fecha r) (existingRecords p)
   <= limitOfDay (activeDailyLimits p) (getDay (HoursRecord.fecha r)))%Q →
  (hoursOfWeek (HoursRecord.fecha r) (existingRecords p) <= activeWeeklyLimit p)%Q →
  let d := HoursRecord.fecha r in
  let maxPermitido := limitOfDay (activeDailyLimits p) (getDay d) in
  let day := hoursOfDay d (l1 ++ l2) in
  let week := hoursOfWeek d (l1 ++ l2) in
  (getDailyHours p d - HoursRecord.horas r == day)%Q
  ∧ (used (weeklyHoursInfo p s) == week)%Q
  ∧ (∀ m, handleSubmit p s = Rejected m → m = ClienteNoEncontrado)
  ∧ (passesFieldChecks p s (HoursRecord.horas r) d →
     handleSubmit p s
     = Saved (selectedCliente s) (HoursRecord.horas r) d (trim (areaCliente s)))
  ∧ (∀ s' h', passesFieldChecks p s' h' d → ¬ (maxPermitido == 0)%Q →
       (dailyLimitViolation (handleSubmit p s') ↔ (maxPermitido < day + h')%Q)
       ∧ (weeklyLimitViolation (handleSubmit p s')
          ↔ (day + h' <= maxPermitido)%Q ∧ (activeWeeklyLimit p < week + h')%Q)
       ∧ ((day + h' <= maxPermitido)%Q → (week + h' <= activeWeeklyLimit p)%Q →
          handleSubmit p s' = Saved (selectedCliente s') h' d (trim (areaCliente s')))
       ∧ (∀ m, handleSubmit p s' = Rejected m → namesTotals m day week)).
Proof.
  intros Hr Hex Hd Hh Hnn Hday Hweek d maxPermitido day week.
  set (h := HoursRecord.horas r) in *.
  assert (Ho : Others p (l1 ++ l2)) by (eapply others_edit; eassumption).
  assert (He : editsOnItsDay p d).
  { intros r' Hr'. rewrite Hr in Hr'. injection Hr' as <-. reflexivity. }
  pose proof (adjusted_day p d _ Ho He) as Hadj.
  pose proof (adjusted_week p d _ Ho (editsOnItsDay_week p d He)) as Hadjw.
  fold day in Hadj. fold week in Hadjw.
  assert (Hdsum : (hoursOfDay d (existingRecords p) == day + h)%Q).
  { unfold hoursOfDay, day. rewrite Hex, sumHoras_filter_without.
    unfold d. rewrite Z.eqb_refl. reflexivity. }
  assert (Hwsum : (hoursOfWeek d (existingRecords p) == week + h)%Q).
  { unfold hoursOfWeek, week. rewrite Hex, sumHoras_filter_without.
    unfold d. rewrite day_in_its_week. reflexivity. }
  assert (Hothers : (0 <= day)%Q).
  { apply sumHoras_nonneg, Forall_filter_horas.
    rewrite Hex in Hnn. rewrite List.Forall_app in Hnn |- *.
    destruct Hnn as [H1 H2]. apply List.Forall_cons_iff in H2. tauto. }
  fold d maxPermitido in Hday. fold d in Hweek.
  (* Once the hour count is positive, the three tests of [checkLimits] pass. *)
  assert (Hpass : (0 < h)%Q →
            checkLimits p s h d = Saved (selectedCliente s) h d (trim (areaCliente s))).
  { intros Hpos.
    destruct (checkLimits_verdict p s h d day week Hd Hadj Hadjw) as (_ & _ & Hsave & _).
    - fold maxPermitido. lra.
    - apply Hsave; fold maxPermitido; lra. }
  split.
  { unfold horasEditando in Hadj. rewrite Hr in Hadj. exact Hadj. }
  split.
  { unfold weeklyHoursInfo. rewrite Hd, Hr. simpl.
    unfold horasEditando in Hadjw. rewrite Hr in Hadjw. exact Hadjw. }
  split; [| split].
  - intros m Hm.
    destruct m as [| d' | reg mx | h' reg disp mx | h' disp lim];
      [reflexivity | exfalso ..];
      destruct (handleSubmit_reaches_limits p s) as [Hrej _];
      destruct (Hrej _ Hm ltac:(discriminate)) as (h0 & d0 & Hh0 & Hd0 & Hpos & Hc);
      rewrite Hh in Hh0; injection Hh0 as <-;
      rewrite Hd in Hd0; injection Hd0 as <-;
      specialize (Hpass Hpos); unfold h, d in Hpass, Hc;
      rewrite Hpass in Hc; discriminate Hc.
  - intros Hf. rewrite (handleSubmit_checkLimits p s h d Hf).
    apply Hpass. apply Hf.
  - intros s' h' Hf Hopen.
    rewrite (handleSubmit_checkLimits p s' h' d Hf).
    apply (checkLimits_verdict p s' h' d day week); [apply Hf | exact Hadj | exact Hadjw |].
    exact Hopen.
Qed.

End Revalidation.

(** The scenario of the daily ceiling: 9h allowed on a Monday, 6h recorded,
    4h requested, 3h left. *)
Example daily_scenario :
  CalendarHoursEntryLimits.handleSubmit
    (limitsProps [mkRecord 1 6 lunes] None None) (limitsState lunes 4)
  = CalendarHoursEntryLimits.Rejected
      (CalendarHoursEntryLimits.LimiteDiarioExcedido 4 6 3 9).
Proof. reflexivity. Qed.

(** The scenario of the weekly ceiling: at 42h one more hour is saved; at
    43h a request for three is refused with one hour left. *)
Example weekly_scenario :
  CalendarHoursEntryLimits.handleSubmit
    (limitsProps fullWeek None (Some longDays)) (limitsState (lunes + 4) 1)
  = CalendarHoursEntryLimits.Saved "PEP1" 1 (lunes + 4) "Campo"
  ∧ CalendarHoursEntryLimits.handleSubmit
      (limitsProps (fullWeek ++ [mkRecord 6 1 (lunes + 4)]) None (Some longDays))
      (limitsState (lunes + 4) 3)
    = CalendarHoursEntryLimits.Rejected
        (CalendarHoursEntryLimits.LimiteSemanalExcedido 3 1 44).
Proof. split; reflexivity. Qed.

(** Against C5 as stated, three submissions.  On a Monday with its 9 hours
    already recorded, one more hour exceeds the ceiling, and the violation
    names the 9 hours recorded and the limit of 9, not a remaining headroom.
    On a Sunday, closed by the default limits, a candidate whose client is
    not in the list is refused for its client, not for the day.  And with the
    record of eight hours of Tuesday still held as the record being edited,
    five hours on that full Monday are saved: the eight hours are taken out
    of the Monday they are not part of, 9 - 8 + 5 = 6. *)
Lemma daily_violation_is_not_as_stated :
  (let p := limitsProps [mkRecord 1 9 lunes] None None in
   let s := limitsState lunes 1 in
   (CalendarHoursEntryLimits.limitOfDay
      (CalendarHoursEntryLimits.activeDailyLimits p) (getDay lunes)
    < hoursOfDay lunes (CalendarHoursEntryLimits.existingRecords p) + 1)%Q
   ∧ CalendarHoursEntryLimits.handleSubmit p s
     = CalendarHoursEntryLimits.Rejected
         (CalendarHoursEntryLimits.LimiteDiarioAlcanzado 9 9)
   ∧ ¬ ∃ h reg disp mx,
         CalendarHoursEntryLimits.handleSubmit p s
         = CalendarHoursEntryLimits.Rejected
             (CalendarHoursEntryLimits.LimiteDiarioExcedido h reg disp mx))
  ∧ (let p := limitsProps [] None None in
     let s := {| CalendarHoursEntryLimits.selectedDate := Some domingo;
                 CalendarHoursEntryLimits.selectedCliente := "PEP9";
                 CalendarHoursEntryLimits.horas := Some 1%Q;
                 CalendarHoursEntryLimits.areaCliente := "Campo" |} in
     (CalendarHoursEntryLimits.limitOfDay
        (CalendarHoursEntryLimits.activeDailyLimits p) (getDay domingo) == 0)%Q
     ∧ CalendarHoursEntryLimits.handleSubmit p s
       = CalendarHoursEntryLimits.Rejected CalendarHoursEntryLimits.ClienteNoEncontrado)
  ∧ (let edited := mkRecord 2 8 martes in
     let p := limitsProps [mkRecord 1 9 lunes; edited] (Some edited) None in
     let s := limitsState lunes 5 in
     Others p [mkRecord 1 9 lunes]
     ∧ (CalendarHoursEntryLimits.limitOfDay
          (CalendarHoursEntryLimits.activeDailyLimits p) (getDay lunes)
        < hoursOfDay lunes [mkRecord 1 9 lunes] + 5)%Q
     ∧ CalendarHoursEntryLimits.handleSubmit p s
       = CalendarHoursEntryLimits.Saved "PEP1" 5 lunes "Campo").
Proof.
  split; [| split].
  - intros p s. split; [reflexivity |]. split; [reflexivity |].
    intros (h & reg & disp & mx & H). discriminate H.
  - intros p s. split; reflexivity.
  - intros edited p s. split; [| split; reflexivity].
    apply (others_edit p edited [mkRecord 1 9 lunes] []); reflexivity.
Qed.

Lemma daily_ceiling_witness :
  let edited := mkRecord 2 2 lunes in
  let p := limitsProps [mkRecord 1 6 lunes; edited] (Some edited) None in
  let s := limitsState lunes 4 in
  ∃ reg disp,
    CalendarHoursEntryLimits.handleSubmit p s
    = CalendarHoursEntryLimits.Rejected
        (CalendarHoursEntryLimits.LimiteDiarioExcedido 4 reg disp 9)
    ∧ (reg == 6)%Q ∧ (disp == 3)%Q.
Proof.
  intros edited p s.
  assert (Hf : passesFieldChecks p s 4 lunes).
  { repeat split; reflexivity. }
  assert (Ho : Others p [mkRecord 1 6 lunes]).
  { apply (others_edit p edited [mkRecord 1 6 lunes] []); reflexivity. }
  assert (He : editsOnItsDay p lunes).
  { intros r Hr. injection Hr as <-. reflexivity. }
  destruct (daily_ceiling p s 4 lunes _ Hf Ho He) as [_ Hopen].
  destruct Hopen as (_ & Hleft & _).
  - intros Hz. discriminate Hz.
  - destruct Hleft as (reg & disp & Heq & Hreg & Hdisp).
    + reflexivity.
    + reflexivity.
    + exists reg, disp. split; [exact Heq |]. split; [exact Hreg | exact Hdisp].
Defined.

Lemma weekly_ceiling_witness :
  let edited := mkRecord 5 2 (lunes + 4) in
  let p := limitsProps fullWeek (Some edited) (Some longDays) in
  let others := [ mkRecord 1 10 lunes; mkRecord 2 10 martes; mkRecord 3 10 (lunes + 2);
                  mkRecord 4 10 (lunes + 3) ] in
  (hoursOfWeek (lunes + 5)%Z others + 4 <= CalendarHoursEntryLimits.activeWeeklyLimit p)%Q.
Proof.
  intros edited p others.
  assert (Ho : Others p others).
  { apply (others_edit p edited others []); reflexivity. }
  destruct (weekly_ceiling p (limitsState (lunes + 5) 4) others Ho) as [Hsaved _].
  - intros d [= <-] r [= <-]. reflexivity.
  - apply (Hsaved "PEP1"%string 4%Q (lunes + 5) "Campo"%string). reflexivity.
Defined.

Lemma same_hours_edit_passes_ceilings_witness :
  let r := mkRecord 5 2 (lunes + 4) in
  let p := limitsProps (fullWeek ++ [mkRecord 6 2 (lunes + 5)]) (Some r) (Some longDays) in
  let s := CalendarHoursEntryLimits.openForEdit r in
  CalendarHoursEntryLimits.handleSubmit p s
  = CalendarHoursEntryLimits.Saved "PEP1" 2 (lunes + 4) "Campo"
  ∧ ∀ m, CalendarHoursEntryLimits.handleSubmit p s = CalendarHoursEntryLimits.Rejected m →
         m = CalendarHoursEntryLimits.ClienteNoEncontrado.
Proof.
  intros r p s. split; [reflexivity |].
  refine (proj1 (proj2 (proj2 (same_hours_edit_passes_ceilings p s r
           [mkRecord 1 10 lunes; mkRecord 2 10 martes; mkRecord 3 10 (lunes + 2);
            mkRecord 4 10 (lunes + 3)]
           [mkRecord 6 2 (lunes + 5)] _ _ _ _ _ _ _)))).
  - reflexivity.
  - reflexivity.
  - reflexivity.
  - reflexivity.
  - repeat constructor; discriminate.
  - discriminate.
  - discriminate.
Defined.

(** * The entry form with a time range *)

Section Evidence.

Import CalendarHoursEntryRange.

(** C9, as amended: an on-site candidate is saved only if the signature is
    present and the location is present or its request was refused
    ([ubicacionRechazada]).  For a candidate that would be saved with its
    evidence supplied, a missing location whose request was not refused
    gives the location-required failure, and otherwise a missing signature
    gives the signature-required failure. *)
Theorem on_site_evidence p s :
  tipoActividad s = onSite →
  (∀ g, handleSubmit p s = Saved g →
        falsy (firma s) = false
        ∧ (present (ubicacion s) = true ∨ ubicacionRechazada s = true))
  ∧ (∀ u f g, handleSubmit p (withEvidence s u f) = Saved g →
        (ubicacion s = None → ubicacionRechazada s = false →
         handleSubmit p s = Rejected UbicacionRequerida)
        ∧ (present (ubicacion s) = true ∨ ubicacionRechazada s = true →
           falsy (firma s) = true →
           handleSubmit p s = Rejected FirmaRequerida)).
Proof.
  intros Ht. unfold handleSubmit, withEvidence. simpl. rewrite Ht.
  change (String.eqb onSite "En Cliente") with true. simpl.
  destruct (isEmpty (selectedCliente s)); [split; intros; discriminate |].
  destruct (isEmpty (areaCliente s) || isEmpty (trim (areaCliente s)));
    [split; intros; discriminate |].
  destruct (isEmpty (horaInicio s) || isEmpty (horaFin s));
    [split; intros; discriminate |].
  destruct (selectedDate s) as [d |]; [| split; intros; discriminate].
  destruct (List.find _ (clientes p)) as [company |]; [| split; intros; discriminate].
  destruct (notPositive _); [split; intros; discriminate |].
  destruct (isEmpty (descripcion s) || isEmpty (trim (descripcion s)));
    [split; intros; discriminate |].
  destruct (negb (includes _ _)); [split; intros; discriminate |].
  destruct (ubicacion s) as [u0 |], (ubicacionRechazada s), (falsy (firma s));
    simpl; split; intros; try discriminate; try (split; intros); try discriminate;
    try reflexivity; intuition (try discriminate; auto).
Qed.

End Evidence.

(** Against C9 as stated: an on-site entry whose location request was
    refused is saved with a signature and no location. *)
Lemma on_site_saved_without_location :
  let s := rangeState martes "08:00" "12:00" onSite None true (Some "firma.png"%string) in
  CalendarHoursEntryRange.tipoActividad s = onSite
  ∧ CalendarHoursEntryRange.ubicacion s = None
  ∧ ∃ g, CalendarHoursEntryRange.handleSubmit (rangeProps []) s
         = CalendarHoursEntryRange.Saved g
         ∧ CalendarHoursEntryRange.g_latitud g = None
         ∧ CalendarHoursEntryRange.g_longitud g = None.
Proof.
  intros s. split; [reflexivity |]. split; [reflexivity |].
  eexists. split; [reflexivity |]. split; reflexivity.
Qed.

Lemma on_site_evidence_witness :
  let s := rangeState martes "08:00" "12:00" onSite None false None in
  CalendarHoursEntryRange.handleSubmit (rangeProps []) s
  = CalendarHoursEntryRange.Rejected CalendarHoursEntryRange.UbicacionRequerida.
Proof.
  intros s.
  destruct (on_site_evidence (rangeProps []) s eq_refl) as [_ Hmissing].
  destruct (Hmissing {| CalendarHoursEntryRange.lat := 4; CalendarHoursEntryRange.lng := 74 |}
                     "firma.png"%string
                     _ eq_refl) as [Hloc _].
  apply Hloc; reflexivity.
Defined.

(** Against C4 as stated, two submissions under a weekly limit of 44 with 42
    hours recorded in the week.  The form that takes a time range saves ten
    more hours: it has no weekly check.  The form that takes an hour count,
    still holding a record of eight hours of the Friday before as the record
    being edited, saves eight hours on the Friday of the full week: the eight
    hours are taken out of a week they are not part of, 42 - 8 + 8 = 42. *)
Lemma weekly_limit_is_exceeded_by_saved_entries :
  (let p := rangeProps fullWeek in
   let s := rangeState (lunes + 4) "07:30" "17:30" "En Oficina" None false None in
   (CalendarHoursEntryRange.activeWeeklyLimit p
    < CalendarHoursEntryRange.getWeeklyHours p (lunes + 4)%Z + 10)%Q
   ∧ ∃ g, CalendarHoursEntryRange.handleSubmit p s = CalendarHoursEntryRange.Saved g
          ∧ num_eq (CalendarHoursEntryRange.g_horas g) (Some 10%Q))
  ∧ (let edited := mkRecord 7 8 (lunes - 3) in
     let p := limitsProps (fullWeek ++ [edited]) (Some edited) (Some longDays) in
     let s := limitsState (lunes + 4) 8 in
     Others p fullWeek
     ∧ (CalendarHoursEntryLimits.activeWeeklyLimit p
        < hoursOfWeek (lunes + 4)%Z fullWeek + 8)%Q
     ∧ CalendarHoursEntryLimits.handleSubmit p s
       = CalendarHoursEntryLimits.Saved "PEP1" 8 (lunes + 4) "Campo").
Proof.
  split.
  - intros p s. split; [reflexivity |].
    eexists. split; [reflexivity | reflexivity].
  - intros edited p s. split; [| split; reflexivity].
    apply (others_edit p edited fullWeek []); reflexivity.
Qed.

(** * The calendar of the approval screen *)

Section DayBadge.

Import PayrollReview.

Lemma statusIs_true r n : statusIs r n = true ↔ aprobado r = Some n.
Proof.
  unfold statusIs. destruct (aprobado r) as [k |].
  - rewrite Z.eqb_eq. split; congruence.
  - split; discriminate.
Qed.

Lemma statusIs_false r n : statusIs r n = false ↔ aprobado r ≠ Some n.
Proof.
  rewrite <- statusIs_true. destruct (statusIs r n); split; congruence.
Qed.

Lemma existsb_status n l : existsb (λ r, statusIs r n) l = true ↔ someWith n l.
Proof.
  rewrite existsb_exists. unfold someWith.
  split; intros (r & Hin & H); exists r; split; auto; apply statusIs_true; exact H.
Qed.

Lemma forallb_status n l :
  forallb (λ r, statusIs r n) l = true ↔ ∀ r, In r l → aprobado r = Some n.
Proof.
  rewrite forallb_forall.
  split; intros H r Hin; apply statusIs_true; auto.
Qed.

Lemma two_statuses_two_reports l :
  someWith 2 l → someWith 1 l → (1 <? length l)%nat = true.
Proof.
  intros (x & Hx & H2) (y & Hy & H1). apply Nat.ltb_lt.
  destruct l as [| a [| b l]]; simpl in *; try lia.
  destruct Hx as [-> | []], Hy as [-> | []]. rewrite H2 in H1. discriminate H1.
Qed.

(** The cascade of [dayStatus] on a day that has reports, with the length
    test of [allMixed] resolved. *)
Lemma dayStatus_cascade reports d :
  getReportsForDate reports d ≠ [] →
  let dayReports := getReportsForDate reports d in
  dayStatus reports d
  = if existsb (λ r, statusIs r 2) dayReports && existsb (λ r, statusIs r 1) dayReports
    then Status Mixed
    else if existsb (λ r, negb (statusIs r 1) && negb (statusIs r 2)) dayReports
    then Status Pending
    else if forallb (λ r, statusIs r 2) dayReports then Status Rejected
    else if forallb (λ r, statusIs r 1) dayReports then Status Approved
    else Undefined.
Proof.
  intros Hne dayReports. unfold dayStatus. subst dayReports.
  destruct (getReportsForDate reports d) as [| x l]; [congruence |].
  change (length (x :: l) =? 0)%nat with false. cbv iota.
  destruct (existsb (λ r, statusIs r 2) (x :: l)) eqn:E2; [| reflexivity].
  destruct (existsb (λ r, statusIs r 1) (x :: l)) eqn:E1; [| reflexivity].
  rewrite (two_statuses_two_reports (x :: l)); [reflexivity | |];
    apply existsb_status; assumption.
Qed.

Lemma no_pending_all_settled l :
  existsb (λ r, negb (statusIs r 1) && negb (statusIs r 2)) l = false →
  ∀ r, In r l → statusIs r 1 = true ∨ statusIs r 2 = true.
Proof.
  intros H r Hin.
  destruct (statusIs r 1) eqn:H1; [auto |].
  destruct (statusIs r 2) eqn:H2; [auto |].
  exfalso. apply not_true_iff_false in H. apply H.
  apply existsb_exists. exists r. rewrite H1, H2. auto.
Qed.

Lemma forallb_false_exists (f : Reporte → bool) l :
  forallb f l = false → ∃ r, In r l ∧ f r = false.
Proof.
  induction l as [| x l IH]; simpl; [discriminate |].
  destruct (f x) eqn:Hx; simpl.
  - intros H. destruct (IH H) as (r & Hin & Hr). eauto.
  - intros _. eauto.
Qed.

Lemma dayStatus_empty reports d :
  getReportsForDate reports d = [] → dayStatus reports d = Null.
Proof. intros E. unfold dayStatus. rewrite E. reflexivity. Qed.

(** X1: the badge function of the calendar never reaches the end of its
    body without a [return]: for every store and every day it gives [null]
    or one of the four badges, and it gives [null] exactly when the day has
    no report. *)
Theorem dayStatus_never_undefined reports d :
  dayStatus reports d ≠ Undefined
  ∧ (dayStatus reports d = Null ↔ getReportsForDate reports d = []).
Proof.
  destruct (getReportsForDate reports d) as [| x l] eqn:Hday.
  - unfold dayStatus. rewrite Hday. simpl. split; [discriminate | tauto].
  - assert (Hne : getReportsForDate reports d ≠ []) by (rewrite Hday; discriminate).
    rewrite (dayStatus_cascade reports d Hne), Hday.
    remember (x :: l) as l' eqn:Hl'.
    split.
    + destruct (existsb (λ r, statusIs r 2) l') eqn:E2,
               (existsb (λ r, statusIs r 1) l') eqn:E1; simpl; try discriminate;
        (destruct (existsb (λ r, negb (statusIs r 1) && negb (statusIs r 2)) l') eqn:EP;
          [discriminate |]);
        (destruct (forallb (λ r, statusIs r 2) l') eqn:A2; [discriminate |]);
        (destruct (forallb (λ r, statusIs r 1) l') eqn:A1; [discriminate |]);
        exfalso;
        apply forallb_false_exists in A2; destruct A2 as (a & Ha & Ha2);
        apply forallb_false_exists in A1; destruct A1 as (b & Hb & Hb1);
        pose proof (no_pending_all_settled l' EP a Ha) as Sa;
        pose proof (no_pending_all_settled l' EP b Hb) as Sb.
      * apply not_true_iff_false in E1. apply E1, existsb_exists. exists a.
        split; [exact Ha | destruct Sa; congruence].
      * apply not_true_iff_false in E2. apply E2, existsb_exists. exists b.
        split; [exact Hb | destruct Sb; congruence].
      * apply not_true_iff_false in E2. apply E2, existsb_exists. exists b.
        split; [exact Hb | destruct Sb; congruence].
    + split; [| intros E; rewrite E in Hl'; discriminate Hl'].
      repeat match goal with
             | |- context [if ?b then _ else _] => destruct b
             end; discriminate.
Qed.

Lemma existsb_unsettled l :
  existsb (λ r, negb (statusIs r 1) && negb (statusIs r 2)) l = true
  ↔ ∃ r, In r l ∧ ¬ settled r.
Proof.
  rewrite existsb_exists. unfold settled.
  split; intros (r & Hin & H); exists r; (split; [exact Hin |]).
  - apply andb_prop in H. destruct H as [H1 H2].
    apply negb_true_iff in H1, H2. apply statusIs_false in H1, H2. tauto.
  - apply andb_true_intro.
    split; apply negb_true_iff, statusIs_false; tauto.
Qed.

Lemma allWith_someWith n m l : allWith n l → someWith m l → n = m.
Proof.
  intros [_ Hall] (r & Hin & Hm). specialize (Hall r Hin).
  rewrite Hall in Hm. injection Hm as ->. reflexivity.
Qed.

Lemma allWith_settled n l :
  n = 1 ∨ n = 2 → allWith n l → ¬ ∃ r, In r l ∧ ¬ settled r.
Proof.
  intros Hn [_ Hall] (r & Hin & Hr). apply Hr. specialize (Hall r Hin).
  unfold settled. destruct Hn as [-> | ->]; auto.
Qed.

(** The four badges, each from the condition that gives it. *)
Lemma dayStatus_sound reports d :
  let dayReports := getReportsForDate reports d in
  (someWith 1 dayReports ∧ someWith 2 dayReports → dayStatus reports d = Status Mixed)
  ∧ (¬ (someWith 1 dayReports ∧ someWith 2 dayReports) →
     (∃ r, In r dayReports ∧ ¬ settled r) → dayStatus reports d = Status Pending)
  ∧ (allWith 2 dayReports → dayStatus reports d = Status Rejected)
  ∧ (allWith 1 dayReports → dayStatus reports d = Status Approved).
Proof.
  intros dayReports.
  assert (Hne : (∃ r, In r dayReports) → getReportsForDate reports d ≠ []).
  { intros (r & Hr) E. fold dayReports in E. rewrite E in Hr. destruct Hr. }
  assert (Hcas : (∃ r, In r dayReports) → dayStatus reports d = _)
    by (intros H; apply (dayStatus_cascade reports d (Hne H))).
  cbv zeta in Hcas. fold dayReports in Hcas.
  pose proof (existsb_status 1 dayReports) as H1.
  pose proof (existsb_status 2 dayReports) as H2.
  pose proof (existsb_unsettled dayReports) as HU.
  pose proof (forallb_status 1 dayReports) as A1.
  pose proof (forallb_status 2 dayReports) as A2.
  assert (Hsome : ∀ n, allWith n dayReports → someWith n dayReports).
  { intros n [Hnil Hall]. destruct dayReports as [| x l]; [congruence |].
    exists x. split; [left; reflexivity | apply Hall; left; reflexivity]. }
  split; [| split; [| split]].
  - intros [S1 S2]. rewrite Hcas by (destruct S1 as (r & Hr & _); eauto).
    rewrite (proj2 H1 S1), (proj2 H2 S2). reflexivity.
  - intros Hno HUn. rewrite Hcas by (destruct HUn as (r & Hr & _); eauto).
    rewrite (proj2 HU HUn).
    destruct (existsb (λ r, statusIs r 2) dayReports) eqn:E2; [| reflexivity].
    destruct (existsb (λ r, statusIs r 1) dayReports) eqn:E1; [| reflexivity].
    exfalso. apply Hno. split; [apply H1 | apply H2]; reflexivity.
  - intros Hall. pose proof (Hsome 2 Hall) as S2.
    rewrite Hcas by (destruct S2 as (r & Hr & _); eauto).
    destruct (existsb (λ r, statusIs r 1) dayReports) eqn:E1.
    { pose proof (allWith_someWith 2 1 _ Hall (proj1 H1 eq_refl)). lia. }
    rewrite andb_false_r.
    destruct (existsb (λ r, negb (statusIs r 1) && negb (statusIs r 2)) dayReports) eqn:EP.
    { exfalso. apply (allWith_settled 2 dayReports); [auto | exact Hall |].
      apply HU. reflexivity. }
    rewrite (proj2 A2 (proj2 Hall)). reflexivity.
  - intros Hall. pose proof (Hsome 1 Hall) as S1.
    rewrite Hcas by (destruct S1 as (r & Hr & _); eauto).
    destruct (existsb (λ r, statusIs r 2) dayReports) eqn:E2.
    { pose proof (allWith_someWith 1 2 _ Hall (proj1 H2 eq_refl)). lia. }
    cbn [andb].
    destruct (existsb (λ r, negb (statusIs r 1) && negb (statusIs r 2)) dayReports) eqn:EP.
    { exfalso. apply (allWith_settled 1 dayReports); [auto | exact Hall |].
      apply HU. reflexivity. }
    destruct (forallb (λ r, statusIs r 2) dayReports) eqn:F2.
    { assert (allWith 2 dayReports) as Hall2 by (split; [apply Hall | apply A2, eq_refl]).
      pose proof (allWith_someWith 2 1 _ Hall2 S1). lia. }
    rewrite (proj2 A1 (proj2 Hall)). reflexivity.
Qed.

(** On a day that has reports one of the four conditions holds. *)
Lemma dayStatus_cases (l : list Reporte) :
  l ≠ [] →
  (someWith 1 l ∧ someWith 2 l)
  ∨ (¬ (someWith 1 l ∧ someWith 2 l) ∧ ∃ r, In r l ∧ ¬ settled r)
  ∨ allWith 2 l ∨ allWith 1 l.
Proof.
  intros Hnil.
  pose proof (existsb_status 1 l) as H1.
  pose proof (existsb_status 2 l) as H2.
  pose proof (existsb_unsettled l) as HU.
  destruct (existsb (λ r, statusIs r 1) l) eqn:E1,
           (existsb (λ r, statusIs r 2) l) eqn:E2.
  - left. split; [apply H1 | apply H2]; reflexivity.
  - assert (N2 : ¬ someWith 2 l) by (rewrite <- H2; discriminate).
    destruct (existsb (λ r, negb (statusIs r 1) && negb (statusIs r 2)) l) eqn:EP.
    + right. left. split; [tauto | apply HU; reflexivity].
    + right. right. right. split; [exact Hnil |]. intros r Hr.
      destruct (no_pending_all_settled l EP r Hr) as [S | S]; apply statusIs_true in S.
      * exact S.
      * exfalso. apply N2. exists r. auto.
  - assert (N1 : ¬ someWith 1 l) by (rewrite <- H1; discriminate).
    destruct (existsb (λ r, negb (statusIs r 1) && negb (statusIs r 2)) l) eqn:EP.
    + right. left. split; [tauto | apply HU; reflexivity].
    + right. right. left. split; [exact Hnil |]. intros r Hr.
      destruct (no_pending_all_settled l EP r Hr) as [S | S]; apply statusIs_true in S.
      * exfalso. apply N1. exists r. auto.
      * exact S.
  - assert (N1 : ¬ someWith 1 l) by (rewrite <- H1; discriminate).
    assert (N2 : ¬ someWith 2 l) by (rewrite <- H2; discriminate).
    right. left. split; [tauto |].
    destruct l as [| x l]; [congruence |].
    exists x. split; [left; reflexivity |].
    intros [S | S]; [apply N1 | apply N2]; exists x; split; auto; left; reflexivity.
Qed.

Lemma dayStatus_pending_unsettled reports d :
  dayStatus reports d = Status Pending →
  ∃ r, In r (getReportsForDate reports d) ∧ ¬ settled r.
Proof.
  intros E.
  destruct (dayStatus_sound reports d) as (SM & _ & SR & SA).
  destruct (getReportsForDate reports d) as [| x l] eqn:Hday.
  { rewrite (dayStatus_empty reports d Hday) in E. discriminate E. }
  destruct (dayStatus_cases (x :: l)) as [H | [[_ U] | [H | H]]];
    [discriminate | | exact U | |].
  - rewrite SM in E by exact H. discriminate E.
  - rewrite SR in E by exact H. discriminate E.
  - rewrite SA in E by exact H. discriminate E.
Qed.

(** X2: which badge a day gets.  Mixed: the day has an approved and a
    rejected report, whatever else it has, pending reports included.
    Approved: the day has reports and all are approved.  Rejected: it has
    reports and all are rejected.  Pending: some report is neither approved
    nor rejected (status 0, 3 or none) and the day does not have both an
    approved and a rejected one. *)
Theorem dayStatus_badges reports d :
  let dayReports := getReportsForDate reports d in
  (dayStatus reports d = Status Mixed ↔ someWith 1 dayReports ∧ someWith 2 dayReports)
  ∧ (dayStatus reports d = Status Approved ↔ allWith 1 dayReports)
  ∧ (dayStatus reports d = Status Rejected ↔ allWith 2 dayReports)
  ∧ (dayStatus reports d = Status Pending ↔
       ¬ (someWith 1 dayReports ∧ someWith 2 dayReports)
       ∧ ∃ r, In r dayReports ∧ ¬ settled r).
Proof.
  intros dayReports.
  destruct (dayStatus_sound reports d) as (SM & SP & SR & SA).
  fold dayReports in SM, SP, SR, SA.
  assert (Hcases : dayStatus reports d ≠ Null →
            (someWith 1 dayReports ∧ someWith 2 dayReports)
            ∨ (¬ (someWith 1 dayReports ∧ someWith 2 dayReports)
               ∧ ∃ r, In r dayReports ∧ ¬ settled r)
            ∨ allWith 2 dayReports ∨ allWith 1 dayReports).
  { intros Hnn. apply dayStatus_cases. intros E. apply Hnn.
    apply dayStatus_empty. exact E. }
  split; [| split; [| split]]; (split; [intros E | auto]).
  - destruct Hcases as [H | [[H U] | [H | H]]]; [rewrite E; discriminate | exact H | ..].
    + rewrite (SP H U) in E. discriminate E.
    + rewrite (SR H) in E. discriminate E.
    + rewrite (SA H) in E. discriminate E.
  - destruct Hcases as [H | [[H U] | [H | H]]]; [rewrite E; discriminate | ..].
    + rewrite (SM H) in E. discriminate E.
    + rewrite (SP H U) in E. discriminate E.
    + rewrite (SR H) in E. discriminate E.
    + exact H.
  - destruct Hcases as [H | [[H U] | [H | H]]]; [rewrite E; discriminate | ..].
    + rewrite (SM H) in E. discriminate E.
    + rewrite (SP H U) in E. discriminate E.
    + exact H.
    + rewrite (SA H) in E. discriminate E.
  - destruct Hcases as [H | [[H U] | [H | H]]]; [rewrite E; discriminate | ..].
    + rewrite (SM H) in E. discriminate E.
    + auto.
    + rewrite (SR H) in E. discriminate E.
    + rewrite (SA H) in E. discriminate E.
  - intros [H U]. auto.
Qed.

End DayBadge.

(** * What the approval actions leave alone *)

Section Settled.

Import PayrollReview.

Variable coordinatorId : Z.

Lemma lookup_In {A} (l : list A) k x : l !! k = Some x → In x l.
Proof. intros H. apply list_elem_of_In, list_elem_of_lookup. eauto. Qed.

Lemma handleBulkApproval_map reports d n :
  NoDup (map id reports) →
  handleBulkApproval coordinatorId reports d n
  = map (bulkResult (onDay d) n coordinatorId) reports.
Proof.
  intros Hnd. apply list_eq. intros k.
  change (map (bulkResult (onDay d) n coordinatorId) reports)
    with (bulkResult (onDay d) n coordinatorId <$> reports).
  rewrite list_lookup_fmap.
  destruct (reports !! k) as [r |] eqn:Hk; simpl.
  - apply handleBulkApproval_effect; assumption.
  - destruct (handleBulkApproval coordinatorId reports d n !! k) eqn:E; [| reflexivity].
    apply handleBulkApproval_lookup in E. destruct E as (r0 & Hr0 & _). congruence.
Qed.

Lemma handleBulkWeekApproval_map reports ws we n :
  NoDup (map id reports) →
  handleBulkWeekApproval coordinatorId reports ws we n
  = map (bulkResult (inWeek ws we) n coordinatorId) reports.
Proof.
  intros Hnd. apply list_eq. intros k.
  change (map (bulkResult (inWeek ws we) n coordinatorId) reports)
    with (bulkResult (inWeek ws we) n coordinatorId <$> reports).
  rewrite list_lookup_fmap.
  destruct (reports !! k) as [r |] eqn:Hk; simpl.
  - apply handleBulkWeekApproval_effect; assumption.
  - destruct (handleBulkWeekApproval coordinatorId reports ws we n !! k) eqn:E;
      [| reflexivity].
    apply handleBulkWeekApproval_lookup in E. destruct E as (r0 & Hr0 & _). congruence.
Qed.

Lemma bulkTakes_settled r : bulkTakes r = false ↔ settled r.
Proof.
  unfold bulkTakes, settled. rewrite <- !statusIs_true.
  destruct (statusIs r 1), (statusIs r 2); simpl; intuition congruence.
Qed.

Lemma bulkResult_fecha f n r :
  fecha_trabajada (bulkResult f n coordinatorId r) = fecha_trabajada r.
Proof. unfold bulkResult. destruct (f r && bulkTakes r); reflexivity. Qed.

Lemma bulkResult_id f n r : id (bulkResult f n coordinatorId r) = id r.
Proof. unfold bulkResult. destruct (f r && bulkTakes r); reflexivity. Qed.

Lemma bulkResult_horas f n r : horas (bulkResult f n coordinatorId r) = horas r.
Proof. unfold bulkResult. destruct (f r && bulkTakes r); reflexivity. Qed.

Lemma bulkResult_settled f n r :
  n = 1 ∨ n = 2 → f r = true → settled (bulkResult f n coordinatorId r).
Proof.
  intros Hn Hf. unfold bulkResult. rewrite Hf. simpl.
  destruct (bulkTakes r) eqn:Hb.
  - unfold settled. simpl. destruct Hn as [-> | ->]; auto.
  - apply bulkTakes_settled. exact Hb.
Qed.

Lemma bulkResult_keeps f n r : settled r → bulkResult f n coordinatorId r = r.
Proof.
  intros H. apply bulkTakes_settled in H. unfold bulkResult.
  rewrite H, andb_false_r. reflexivity.
Qed.

Lemma filter_map_same {A} (p : A → bool) (f : A → A) l :
  (∀ x, p (f x) = p x) → List.filter p (map f l) = map f (List.filter p l).
Proof.
  intros H. induction l as [| x l IH]; simpl; [reflexivity |].
  rewrite H. destruct (p x); simpl; rewrite IH; reflexivity.
Qed.

Lemma getReportsForDate_bulk f n reports d :
  getReportsForDate (map (bulkResult f n coordinatorId) reports) d
  = map (bulkResult f n coordinatorId) (getReportsForDate reports d).
Proof.
  unfold getReportsForDate. apply filter_map_same.
  intros r. rewrite bulkResult_fecha. reflexivity.
Qed.

Lemma getReportsForDate_onDay reports d r :
  In r (getReportsForDate reports d) ↔ In r reports ∧ onDay d r = true.
Proof. unfold getReportsForDate. apply filter_In. Qed.

Lemma map_ids_bulk f n reports :
  map id (map (bulkResult f n coordinatorId) reports) = map id reports.
Proof.
  rewrite map_map. apply map_ext. intros r. apply bulkResult_id.
Qed.

Lemma map_fixed {A} (f : A → A) l : (∀ x, In x l → f x = x) → map f l = l.
Proof.
  intros H. induction l as [| x l IH]; simpl; [reflexivity |].
  rewrite H by (left; reflexivity). rewrite IH; [reflexivity |].
  intros y Hy. apply H. right. exact Hy.
Qed.

(** X3: no button the approval screen offers changes a record that is
    approved or rejected.  With identifiers that are pairwise different,
    whatever action is offered (the three buttons of a report, the two of a
    day, the two of a week), a record in status 1 or 2 is the same record
    after the action. *)
Theorem approved_and_rejected_are_final settings v reports a k r :
  NoDup (map id reports) →
  offered settings v reports a →
  reports !! k = Some r → settled r →
  perform coordinatorId a reports !! k = Some r.
Proof.
  intros Hnd Hoff Hk Hs.
  assert (Hin : In r reports) by (eapply lookup_In; eauto).
  assert (Hb : bulkTakes r = false) by (apply bulkTakes_settled; exact Hs).
  assert (Hone : ∀ report n,
             In report (employeeReports v reports) → showsButtons report = true →
             update (id report) n coordinatorId reports !! k = Some r).
  { intros report n Hrep Hshow. rewrite update_lookup, Hk. simpl.
    destruct (id r =? id report) eqn:Hi; [| reflexivity].
    apply Z.eqb_eq in Hi. apply employeeReports_In in Hrep.
    assert (report = r) by (eapply same_id_same_record; eauto). subst report.
    exfalso. unfold showsButtons in Hshow. unfold bulkTakes in Hb.
    destruct (statusIs r 1), (statusIs r 2); simpl in *; discriminate. }
  destruct (bulk_keeps_approved_and_rejected coordinatorId reports
              (selectedDate v) 0 0 1 k r Hnd Hk Hb) as [Hd1 _].
  destruct (bulk_keeps_approved_and_rejected coordinatorId reports
              (selectedDate v) 0 0 2 k r Hnd Hk Hb) as [Hd2 _].
  inversion Hoff; subst; simpl; auto.
  - apply (bulk_keeps_approved_and_rejected coordinatorId reports 0 _ _ 1 k r Hnd Hk Hb).
  - apply (bulk_keeps_approved_and_rejected coordinatorId reports 0 _ _ 2 k r Hnd Hk Hb).
Qed.

(** X4: what the two bulk handlers do to the whole store.  With
    identifiers that are pairwise different, the store after the day action
    is the store before it, in the same order, where every report of that day
    that is neither approved nor rejected has the new status and the
    coordinator as approver and every other report is untouched; the week
    action does the same for the reports dated within the week. *)
Theorem bulk_actions_scope reports d ws we n :
  NoDup (map id reports) →
  handleBulkApproval coordinatorId reports d n
  = map (λ r, if onDay d r && bulkTakes r then patch n coordinatorId r else r) reports
  ∧ handleBulkWeekApproval coordinatorId reports ws we n
    = map (λ r, if inWeek ws we r && bulkTakes r then patch n coordinatorId r else r)
          reports.
Proof.
  intros Hnd. split.
  - apply handleBulkApproval_map. exact Hnd.
  - apply handleBulkWeekApproval_map. exact Hnd.
Qed.

(** X5: after "approve all" or "reject all" for a day, every report of
    that day is approved or rejected, the count of pending reports of the
    day is 0 (so the two buttons are no longer shown), the badge of the day
    is not "pending", and the same action again, with either status, changes
    nothing. *)
Theorem bulk_day_action_settles_the_day reports d n :
  NoDup (map id reports) → n = 1 ∨ n = 2 →
  let after := handleBulkApproval coordinatorId reports d n in
  (∀ r, In r (getReportsForDate after d) → settled r)
  ∧ getPendingCountForDate after d = 0%nat
  ∧ dayStatus after d ≠ Status Pending
  ∧ ∀ n', handleBulkApproval coordinatorId after d n' = after.
Proof.
  intros Hnd Hn after.
  assert (Hafter : after = map (bulkResult (onDay d) n coordinatorId) reports)
    by (apply handleBulkApproval_map; exact Hnd).
  assert (Hall : ∀ r, In r (getReportsForDate after d) → settled r).
  { intros r. rewrite Hafter, getReportsForDate_bulk, in_map_iff.
    intros (r0 & <- & Hr0). apply getReportsForDate_onDay in Hr0.
    apply bulkResult_settled; tauto. }
  assert (Hnone : List.filter (λ r, negb (statusIs r 1) && negb (statusIs r 2))
                              (getReportsForDate after d) = []).
  { destruct (List.filter _ (getReportsForDate after d)) as [| x l] eqn:E; [reflexivity |].
    assert (Hx : In x (x :: l)) by (left; reflexivity).
    rewrite <- E in Hx. apply filter_In in Hx. destruct Hx as [Hx Hp].
    apply Hall, bulkTakes_settled in Hx. unfold bulkTakes in Hx. congruence. }
  split; [exact Hall |]. split; [| split].
  - unfold getPendingCountForDate. rewrite Hnone. reflexivity.
  - intros E. apply dayStatus_pending_unsettled in E. destruct E as (r & Hr & Hu).
    apply Hu, Hall, Hr.
  - intros n'. unfold handleBulkApproval. fold after. rewrite Hnone. reflexivity.
Qed.

End Settled.

Lemma approved_and_rejected_are_final_witness :
  let reports := [approvedOne; overtimePending] in
  PayrollReview.perform 7 (PayrollReview.RechazarTodos martes) reports !! 0%nat
  = Some approvedOne.
Proof.
  intros reports.
  apply (approved_and_rejected_are_final 7 (Some noSettings) tuesdayView reports).
  - apply (bool_decide_unpack _). vm_compute. exact I.
  - apply (PayrollReview.offer_day_reject (Some noSettings) tuesdayView reports).
    vm_compute. lia.
  - reflexivity.
  - left. reflexivity.
Defined.

Lemma bulk_actions_scope_witness :
  let reports := [partlyApproved; approvedOne; sundayReport] in
  PayrollReview.handleBulkApproval 7 reports martes 1
  = map (λ r, if onDay martes r && bulkTakes r then PayrollReview.patch 1 7 r else r)
        reports
  ∧ PayrollReview.handleBulkWeekApproval 7 reports lunes domingo 1
    = map (λ r, if inWeek lunes domingo r && bulkTakes r
                then PayrollReview.patch 1 7 r else r)
          reports.
Proof.
  intros reports.
  apply (bulk_actions_scope 7 reports martes lunes domingo 1).
  apply (bool_decide_unpack _). vm_compute. exact I.
Defined.

Lemma bulk_day_action_settles_the_day_witness :
  let reports := [partlyApproved; stillPending; rejectedOne] in
  let after := PayrollReview.handleBulkApproval 7 reports martes 1 in
  PayrollReview.getPendingCountForDate after martes = 0%nat
  ∧ PayrollReview.handleBulkApproval 7 after martes 2 = after.
Proof.
  intros reports after.
  destruct (bulk_day_action_settles_the_day 7 reports martes 1) as (_ & H0 & _ & Hfix).
  - apply (bool_decide_unpack _). vm_compute. exact I.
  - left. reflexivity.
  - split; [exact H0 | apply Hfix].
Defined.

(** * The weeks of the calendar *)

Section Weeks.

Import PayrollReview.

Variable settings : option Settings.

#[local] Instance weekBefore_total : Total weekBefore.
Proof. intros a b. unfold weekBefore. lia. Qed.

#[local] Instance weekBefore_transitive : Transitive weekBefore.
Proof. intros a b c. unfold weekBefore. lia. Qed.

Lemma getDay_startOfWeek d : getDay (startOfWeek d) = 1.
Proof.
  unfold startOfWeek, getDay.
  pose proof (Z.mod_pos_bound (d + 4) 7 ltac:(lia)) as Hb.
  pose proof (Z.div_mod (d + 4) 7 ltac:(lia)) as Hd.
  pose proof (Z.mod_pos_bound ((d + 4) mod 7 + 6) 7 ltac:(lia)) as Hb'.
  pose proof (Z.div_mod ((d + 4) mod 7 + 6) 7 ltac:(lia)) as Hd'.
  set (m := (d + 4) mod 7) in *. set (q := (d + 4) / 7) in *.
  set (m' := (m + 6) mod 7) in *. set (q' := (m + 6) / 7) in *.
  symmetry. apply (Z.mod_unique_pos _ 7 (q + q' - 1)); lia.
Qed.

Lemma getDay_endOfWeek d : getDay (startOfWeek d + 6) = 0.
Proof.
  pose proof (getDay_startOfWeek d) as H. unfold getDay in *.
  pose proof (Z.div_mod (startOfWeek d + 4) 7 ltac:(lia)) as Hd.
  rewrite H in Hd.
  symmetry. apply (Z.mod_unique_pos _ 7 ((startOfWeek d + 4) / 7 + 1)); lia.
Qed.

Lemma startOfWeek_bounds d : startOfWeek d <= d <= startOfWeek d + 6.
Proof.
  pose proof (day_in_its_week d) as H. unfold isWithinInterval, endOfWeek in H.
  apply andb_prop in H. destruct H as [H1 H2].
  apply Z.leb_le in H1, H2. lia.
Qed.

Lemma foldl_addReport_from reports weeks (k : date) w :
  foldl (addReport settings) weeks reports !! k = Some w →
  is_Some (weeks !! k) ∨ ∃ r, In r reports ∧ inWeekOf k r = true.
Proof.
  revert weeks. induction reports as [| r rs IH]; intros weeks Hw; simpl in *.
  - left. eauto.
  - destruct (IH _ Hw) as [Hs | (r' & Hin & Hr')].
    + destruct (inWeekOf k r) eqn:Hr.
      * right. exists r. auto.
      * rewrite (addReport_other settings weeks r k Hr) in Hs. left. exact Hs.
    + right. exists r'. auto.
Qed.

Lemma weeksOf_has_report reports (k : date) w :
  weeksOf settings reports !! k = Some w →
  ∃ r d, In r reports ∧ fecha_trabajada r = Some d ∧ startOfWeek d = k.
Proof.
  intros Hw. apply foldl_addReport_from in Hw.
  destruct Hw as [Hs | (r & Hin & Hr)].
  - rewrite lookup_empty in Hs. destruct Hs as [? Hs]. discriminate Hs.
  - unfold inWeekOf in Hr. destruct (fecha_trabajada r) as [d |] eqn:Hd; [| discriminate].
    apply Z.eqb_eq in Hr. eauto.
Qed.

Lemma weeksOf_weekEnd reports (k : date) w :
  weeksOf settings reports !! k = Some w → weekEnd w = k + 6.
Proof.
  apply foldl_addReport_weekEnd. intros k' w'. rewrite lookup_empty. discriminate.
Qed.

Lemma weeklyTotals_inMonthView reports monthStart monthEnd week :
  In week (weeklyTotals settings reports monthStart monthEnd) →
  inMonthView monthStart monthEnd week = true.
Proof.
  unfold weeklyTotals. intros H.
  apply list_elem_of_In in H. rewrite merge_sort_Permutation in H.
  apply list_elem_of_In, filter_In in H. tauto.
Qed.

Lemma NoDup_map_filter {A B} (g : A → B) (f : A → bool) l :
  NoDup (map g l) → NoDup (map g (List.filter f l)).
Proof.
  induction l as [| x l IH]; simpl; [auto |].
  intros H. apply NoDup_cons in H. destruct H as [Hx Hl].
  destruct (f x); simpl; [| auto].
  apply NoDup_cons. split; [| auto].
  intros Hin. apply Hx. apply list_elem_of_In in Hin. apply list_elem_of_In.
  apply in_map_iff in Hin. destruct Hin as (y & Hy & Hin).
  apply filter_In in Hin. apply in_map_iff. exists y. tauto.
Qed.

Lemma weeklyTotals_NoDup reports monthStart monthEnd :
  NoDup (map weekStart (weeklyTotals settings reports monthStart monthEnd)).
Proof.
  unfold weeklyTotals.
  match goal with
  | |- NoDup (map weekStart ?l) => change (NoDup (weekStart <$> l))
  end.
  rewrite merge_sort_Permutation.
  apply NoDup_map_filter.
  replace (map weekStart (map snd (map_to_list (weeksOf settings reports))))
    with (map fst (map_to_list (weeksOf settings reports))).
  { apply (NoDup_fst_map_to_list (weeksOf settings reports)). }
  rewrite map_map. apply map_ext_in. intros [k w] Hin. simpl.
  apply list_elem_of_In, elem_of_map_to_list in Hin. symmetry.
  eapply foldl_addReport_weekStart; [| exact Hin].
  intros k' w'. rewrite lookup_empty. discriminate.
Qed.

Lemma StronglySorted_strict {A} (f : A → Z) l :
  StronglySorted (λ a b, f a <= f b) l → NoDup (map f l) →
  StronglySorted (λ a b, f a < f b) l.
Proof.
  induction 1 as [| x l Hl IH Hx]; simpl; intros Hnd; constructor.
  - apply IH. apply NoDup_cons in Hnd. tauto.
  - apply NoDup_cons in Hnd. destruct Hnd as [Hnx _].
    apply Forall_forall. intros y Hy.
    pose proof (proj1 (Forall_forall _ _) Hx y Hy) as Hle. cbv beta in Hle.
    assert (f x ≠ f y); [| lia].
    intros E. apply Hnx. rewrite E. apply list_elem_of_In, in_map.
    apply list_elem_of_In. exact Hy.
Qed.

(** X6: the weeks are listed in strictly increasing order of their first
    day, so no week is listed twice, and every week listed starts on a Monday
    and ends on the Sunday six days later. *)
Theorem weeklyTotals_in_order reports monthStart monthEnd :
  StronglySorted (λ a b, weekStart a < weekStart b)
                 (weeklyTotals settings reports monthStart monthEnd)
  ∧ ∀ week, In week (weeklyTotals settings reports monthStart monthEnd) →
            getDay (weekStart week) = 1
            ∧ weekEnd week = weekStart week + 6
            ∧ getDay (weekEnd week) = 0.
Proof.
  split.
  - apply StronglySorted_strict; [| apply weeklyTotals_NoDup].
    unfold weeklyTotals.
    apply (StronglySorted_merge_sort weekBefore).
  - intros week Hin. apply weeklyTotals_In in Hin.
    pose proof (weeksOf_weekEnd _ _ _ Hin) as He.
    destruct (weeksOf_has_report _ _ _ Hin) as (r & d & _ & _ & Hd).
    rewrite He, <- Hd.
    split; [apply getDay_startOfWeek | split; [reflexivity | apply getDay_endOfWeek]].
Qed.

(** X7: which weeks are listed: the week of Monday [k] is in the list
    exactly when some report has a work date in that week and the Monday or
    the Sunday of the week lies in the month on screen.  Reports without a
    work date open no week. *)
Theorem weeklyTotals_lists_exactly reports monthStart monthEnd (k : date) :
  (∃ week, In week (weeklyTotals settings reports monthStart monthEnd)
           ∧ weekStart week = k)
  ↔ (∃ r d, In r reports ∧ fecha_trabajada r = Some d ∧ startOfWeek d = k)
    ∧ touchesMonth k monthStart monthEnd.
Proof.
  unfold touchesMonth. split.
  - intros (week & Hin & Hk).
    pose proof (weeklyTotals_inMonthView _ _ _ _ Hin) as Hview.
    apply weeklyTotals_In in Hin. rewrite Hk in Hin.
    split; [eapply weeksOf_has_report; exact Hin |].
    unfold inMonthView in Hview.
    rewrite (weeksOf_weekEnd _ _ _ Hin), Hk in Hview. exact Hview.
  - intros [(r & d & Hin & Hd & Hs) Hview].
    destruct (weeklyTotals_lists settings reports monthStart monthEnd r d Hin Hd)
      as (week & Hweek & Hws).
    + unfold endOfWeek. rewrite Hs. exact Hview.
    + exists week. split; [exact Hweek | congruence].
Qed.

Lemma extraHours_count r w :
  num_eq (extraHours (countWeek settings r w))
         (nadd (extraHours w) (overtimeOf settings r)).
Proof.
  unfold countWeek, overtimeOf.
  destruct (statusIs r 1), (statusIs r 2), (statusIs r 3); simpl; reflexivity.
Qed.


End Weeks.


Section WeekBulk.

Import PayrollReview.

Variable coordinatorId : Z.
Variable settings : option Settings.

Lemma reportsOfWeek_bulk f n reports k :
  reportsOfWeek k (map (bulkResult f n coordinatorId) reports)
  = map (bulkResult f n coordinatorId) (reportsOfWeek k reports).
Proof.
  unfold reportsOfWeek. apply filter_map_same.
  intros r. unfold inWeekOf. rewrite bulkResult_fecha. reflexivity.
Qed.

Lemma nsum_zero {A} (f : A → number) l :
  (∀ x, In x l → f x = Some 0%Q) → num_eq (nsum (map f l)) (Some 0%Q).
Proof.
  induction l as [| x l IH]; simpl; intros H; [reflexivity |].
  rewrite (H x) by (left; reflexivity).
  rewrite IH by (intros y Hy; apply H; right; exact Hy).
  reflexivity.
Qed.

Lemma pendingPart_settled r : settled r → pendingPart r = Some 0%Q.
Proof.
  unfold settled, pendingPart. rewrite <- !statusIs_true.
  intros [-> | ->]; [reflexivity |]. rewrite orb_true_r. reflexivity.
Qed.

Lemma inWeekOf_inWeek k r : inWeekOf k r = true → inWeek k (k + 6) r = true.
Proof.
  unfold inWeekOf, inWeek. destruct (fecha_trabajada r) as [d |]; [| discriminate].
  intros H. apply Z.eqb_eq in H. subst k.
  apply (day_in_its_week d).
Qed.

(** X9: after "approve week" or "reject week" on a listed week, the week
    is still listed, with the same total, and its pending hours are 0, so
    its two buttons are no longer shown. *)
Theorem bulk_week_action_settles_the_week reports monthStart monthEnd week n :
  NoDup (map id reports) → n = 1 ∨ n = 2 →
  In week (weeklyTotals settings reports monthStart monthEnd) →
  let after :=
    handleBulkWeekApproval coordinatorId reports (weekStart week) (weekEnd week) n in
  ∃ week',
    In week' (weeklyTotals settings after monthStart monthEnd)
    ∧ weekStart week' = weekStart week
    ∧ num_eq (totalHours week') (totalHours week)
    ∧ num_eq (pending week') (Some 0%Q)
    ∧ ngt (pending week') (Some 0%Q) = false.
Proof.
  intros Hnd Hn Hin after.
  pose proof (weeklyTotals_inMonthView settings _ _ _ _ Hin) as Hview.
  apply weeklyTotals_In in Hin.
  set (k := weekStart week) in *.
  pose proof (weeksOf_weekEnd settings _ _ _ Hin) as Hend.
  set (f := bulkResult (inWeek k (k + 6)) n coordinatorId).
  assert (Hafter : after = map f reports).
  { unfold after. rewrite Hend. apply handleBulkWeekApproval_map. exact Hnd. }
  destruct (weeksOf_has_report settings _ _ _ Hin) as (r & d & Hr & Hd & Hk).
  destruct (weeklyTotals_lists settings after monthStart monthEnd (f r) d)
    as (week' & Hin' & Hws').
  { rewrite Hafter. apply in_map. exact Hr. }
  { unfold f. rewrite bulkResult_fecha. exact Hd. }
  { unfold inMonthView in Hview. fold k in Hview. rewrite Hend in Hview.
    unfold endOfWeek. rewrite Hk. exact Hview. }
  rewrite Hk in Hws'.
  exists week'. split; [exact Hin' |]. split; [exact Hws' |].
  apply weeklyTotals_In in Hin'. rewrite Hws' in Hin'.
  destruct (weeksOf_counters settings after k week' Hin') as (Ht' & _ & _ & Hp').
  destruct (weeksOf_counters settings reports k week Hin) as (Ht & _).
  cbv zeta in Ht', Hp', Ht.
  rewrite Hafter in Ht', Hp'. unfold f in Ht', Hp'.
  rewrite reportsOfWeek_bulk, map_map in Ht', Hp'.
  assert (Hzero : num_eq (pending week') (Some 0%Q)).
  { rewrite Hp'. apply nsum_zero. intros x Hx.
    apply pendingPart_settled, bulkResult_settled; [exact Hn |].
    apply filter_In in Hx. apply inWeekOf_inWeek. tauto. }
  split; [| split; [exact Hzero |]].
  - rewrite Ht', Ht. apply nsum_ext. intros x _.
    unfold storedHours. rewrite bulkResult_horas. reflexivity.
  - destruct (pending week') as [q |]; [| reflexivity]. simpl in *.
    apply negb_false_iff, Qle_bool_iff. rewrite Hzero. apply Qle_refl.
Qed.

End WeekBulk.

Lemma bulk_week_action_settles_the_week_witness :
  let after :=
    PayrollReview.handleBulkWeekApproval 7 weekSample
      (PayrollReview.weekStart firstWeek) (PayrollReview.weekEnd firstWeek) 1 in
  ∃ week',
    In week' (PayrollReview.weeklyTotals (Some noSettings) after lunes (lunes + 30))
    ∧ PayrollReview.weekStart week' = PayrollReview.weekStart firstWeek
    ∧ num_eq (PayrollReview.totalHours week') (PayrollReview.totalHours firstWeek)
    ∧ num_eq (PayrollReview.pending week') (Some 0%Q)
    ∧ ngt (PayrollReview.pending week') (Some 0%Q) = false.
Proof.
  apply (bulk_week_action_settles_the_week 7 (Some noSettings) weekSample lunes (lunes + 30)
           firstWeek 1).
  - apply (bool_decide_unpack _). vm_compute. exact I.
  - left. reflexivity.
  - vm_compute. left. reflexivity.
Defined.

Section Clients.

Import PayrollReview.

Variable settings : option Settings.

Lemma countWeek_byClient r w : byClient (countWeek settings r w) = byClient w.
Proof.
  unfold countWeek.
  destruct (statusIs r 1), (statusIs r 2), (statusIs r 3); reflexivity.
Qed.

(** The client table of the week a report goes to, after the report. *)
Lemma addReport_table weeks r (k : date) :
  inWeekOf k r = true →
  ∃ w name,
    addReport settings weeks r !! k = Some w
    ∧ byClient w
      = <[clientKey r :=
            countClient settings r
              (default (newClient name)
                       (byClient (default (newWeek k (k + 6)) (weeks !! k)) !! clientKey r))]>
          (byClient (default (newWeek k (k + 6)) (weeks !! k))).
Proof.
  unfold inWeekOf, addReport. destruct (fecha_trabajada r) as [d |]; [| discriminate].
  intros Hk. apply Z.eqb_eq in Hk. subst k.
  eexists _, _. rewrite lookup_insert_eq. split; [reflexivity |].
  simpl. rewrite !countWeek_byClient. reflexivity.
Qed.

Section ClientCounter.

Variable field : ClientData → number.
Variable part : Reporte → number.

Hypothesis field_new : ∀ name, field (newClient name) = Some 0%Q.
Hypothesis field_count :
  ∀ r cd, num_eq (field (countClient settings r cd)) (nadd (field cd) (part r)).

Lemma clientField_addReport weeks r (k : date) c :
  num_eq (clientField field (addReport settings weeks r) k c)
         (nadd (clientField field weeks k c)
               (if inWeekOf k r && String.eqb (clientKey r) c then part r else Some 0%Q)).
Proof.
  destruct (inWeekOf k r) eqn:Hr; simpl.
  - destruct (addReport_table weeks r k Hr) as (w & name & Hw & Htab).
    unfold clientField at 1. rewrite Hw, Htab.
    destruct (String.eqb (clientKey r) c) eqn:Hc.
    + apply String.eqb_eq in Hc. subst c. rewrite lookup_insert_eq.
      rewrite field_count. unfold clientField.
      destruct (weeks !! k) as [w0 |]; simpl.
      * destruct (byClient w0 !! clientKey r); simpl; [reflexivity |].
        rewrite field_new. reflexivity.
      * rewrite lookup_empty. simpl. rewrite field_new. reflexivity.
    + apply String.eqb_neq in Hc. rewrite lookup_insert_ne by exact Hc.
      unfold clientField. rewrite nadd_zero_r.
      destruct (weeks !! k) as [w0 |]; simpl; [reflexivity |].
      rewrite lookup_empty. reflexivity.
  - unfold clientField. rewrite (addReport_other settings weeks r k Hr).
    rewrite nadd_zero_r. reflexivity.
Qed.

Lemma foldl_addReport_client reports weeks (k : date) c :
  num_eq (clientField field (foldl (addReport settings) weeks reports) k c)
         (nadd (clientField field weeks k c) (nsum (map part (reportsOfClient k c reports)))).
Proof.
  revert weeks. induction reports as [| r rs IH]; intros weeks; simpl.
  - unfold reportsOfClient, reportsOfWeek. simpl. rewrite nadd_zero_r. reflexivity.
  - rewrite IH, clientField_addReport.
    unfold reportsOfClient, reportsOfWeek. simpl.
    destruct (inWeekOf k r); simpl.
    + destruct (String.eqb (clientKey r) c); simpl.
      * rewrite nadd_assoc. reflexivity.
      * rewrite nadd_zero_r. reflexivity.
    + rewrite nadd_zero_r. reflexivity.
Qed.

Lemma weeksOf_client reports (k : date) w c cd :
  weeksOf settings reports !! k = Some w → byClient w !! c = Some cd →
  num_eq (field cd) (nsum (map part (reportsOfClient k c reports))).
Proof.
  intros Hw Hc.
  pose proof (foldl_addReport_client reports ∅ k c) as H.
  fold (weeksOf settings reports) in H.
  unfold clientField in H. rewrite Hw, Hc, lookup_empty, nadd_zero_l in H.
  exact H.
Qed.

End ClientCounter.

Ltac by_status r :=
  destruct (PayrollReview.statusIs r 1) eqn:?H1,
           (PayrollReview.statusIs r 2) eqn:?H2,
           (PayrollReview.statusIs r 3) eqn:?H3;
  try (rewrite (statusIs_excl r 1 2) in * by (lia || assumption); discriminate);
  try (rewrite (statusIs_excl r 1 3) in * by (lia || assumption); discriminate);
  try (rewrite (statusIs_excl r 2 3) in * by (lia || assumption); discriminate);
  simpl; rewrite ?nadd_zero_r; try reflexivity.

Lemma client_total_count r cd :
  num_eq (client_total (countClient settings r cd))
         (nadd (client_total cd) (storedHours r)).
Proof. unfold countClient. by_status r. Qed.

Lemma client_approved_count r cd :
  num_eq (client_approved (countClient settings r cd))
         (nadd (client_approved cd) (approvedPart settings r)).
Proof. unfold countClient, approvedPart. by_status r. Qed.

Lemma client_rejected_count r cd :
  num_eq (client_rejected (countClient settings r cd))
         (nadd (client_rejected cd) (rejectedPart settings r)).
Proof. unfold countClient, rejectedPart. by_status r. Qed.

Lemma client_pending_count r cd :
  num_eq (client_pending (countClient settings r cd))
         (nadd (client_pending cd) (pendingPart r)).
Proof. unfold countClient, pendingPart. by_status r. Qed.

Lemma foldl_addReport_client_row reports weeks (k : date) w c :
  foldl (addReport settings) weeks reports !! k = Some w →
  is_Some (byClient w !! c)
  ↔ (∃ w0, weeks !! k = Some w0 ∧ is_Some (byClient w0 !! c))
    ∨ reportsOfClient k c reports ≠ [].
Proof.
  revert weeks w. induction reports as [| r rs IH]; intros weeks w Hw; simpl in *.
  - split.
    + intros H. left. eauto.
    + intros [(w0 & H0 & H) | H]; [congruence | exfalso; apply H; reflexivity].
  - rewrite (IH _ _ Hw). clear IH Hw.
    unfold reportsOfClient, reportsOfWeek. simpl.
    destruct (inWeekOf k r) eqn:Hr; simpl.
    + destruct (addReport_table weeks r k Hr) as (w1 & name & Hw1 & Htab).
      rewrite Hw1.
      destruct (String.eqb (clientKey r) c) eqn:Hc; simpl.
      * apply String.eqb_eq in Hc. subst c.
        split; intros _; [right; discriminate |].
        left. exists w1. split; [reflexivity |].
        rewrite Htab, lookup_insert_eq. eauto.
      * apply String.eqb_neq in Hc.
        assert (Hsame : (∃ w0, Some w1 = Some w0 ∧ is_Some (byClient w0 !! c))
                        ↔ (∃ w0, weeks !! k = Some w0 ∧ is_Some (byClient w0 !! c))).
        { split.
          - intros (w0 & [= <-] & H). rewrite Htab, lookup_insert_ne in H by exact Hc.
            destruct (weeks !! k) as [w0 |]; simpl in H; [eauto |].
            rewrite lookup_empty in H. destruct H as [? H]. discriminate H.
          - intros (w0 & H0 & H). exists w1. split; [reflexivity |].
            rewrite Htab, lookup_insert_ne by exact Hc. rewrite H0. exact H. }
        rewrite Hsame. reflexivity.
    + rewrite (addReport_other settings weeks r k Hr). reflexivity.
Qed.


End Clients.


(** * Reports by employee *)

Section Employees.

Import PayrollReview.

Lemma reportsOf_app i l1 l2 : reportsOf i (l1 ++ l2) = reportsOf i l1 ++ reportsOf i l2.
Proof. unfold reportsOf. apply List.filter_app. Qed.

Lemma reportsOf_nil_iff i l : reportsOf i l = [] ↔ ∀ r, In r l → documento_id r ≠ i.
Proof.
  unfold reportsOf. induction l as [| x l IH]; simpl.
  - split; [intros _ r [] | reflexivity].
  - destruct (documento_id x =? i) eqn:Hx.
    + apply Z.eqb_eq in Hx. split; [discriminate |].
      intros H. exfalso. apply (H x); auto.
    + apply Z.eqb_neq in Hx. rewrite IH. split.
      * intros H r [<- | Hr]; auto.
      * intros H r Hr. apply H. auto.
Qed.

Lemma pushReport_ids r gs :
  map emp_id (pushReport r gs)
  = map emp_id gs
    ++ (if existsb (λ e, emp_id e =? documento_id r) gs then [] else [documento_id r]).
Proof.
  induction gs as [| a gs IH]; simpl; [reflexivity |].
  destruct (emp_id a =? documento_id r); simpl.
  - rewrite app_nil_r. reflexivity.
  - rewrite IH. reflexivity.
Qed.

Lemma pushReport_In r gs e' :
  NoDup (map emp_id gs) → In e' (pushReport r gs) →
  (In e' gs ∧ emp_id e' ≠ documento_id r)
  ∨ (emp_id e' = documento_id r
     ∧ ((∃ e, In e gs ∧ emp_id e = documento_id r
              ∧ emp_reports e' = emp_reports e ++ [r])
        ∨ (emp_reports e' = [r] ∧ ∀ e, In e gs → emp_id e ≠ documento_id r))).
Proof.
  induction gs as [| a gs IH]; simpl; intros Hnd Hin.
  - destruct Hin as [<- | []]. right. simpl. split; [reflexivity |].
    right. split; [reflexivity | intros e []].
  - apply NoDup_cons in Hnd. destruct Hnd as [Ha Hnd].
    destruct (emp_id a =? documento_id r) eqn:Hid.
    + apply Z.eqb_eq in Hid. destruct Hin as [<- | Hin].
      * right. simpl. split; [exact Hid |]. left. exists a. auto.
      * left. split; [auto |]. intros E. apply Ha. rewrite Hid, <- E.
        apply list_elem_of_In, in_map. exact Hin.
    + apply Z.eqb_neq in Hid. destruct Hin as [<- | Hin].
      * left. auto.
      * destruct (IH Hnd Hin) as [[H1 H2] | [H1 [(e & He & Hid' & Hrep) | [Hrep Hno]]]].
        -- left. auto.
        -- right. split; [exact H1 |]. left. exists e. auto.
        -- right. split; [exact H1 |]. right. split; [exact Hrep |].
           intros e [<- | He]; auto.
Qed.

Lemma grouped_push r gs l : grouped gs l → grouped (pushReport r gs) (l ++ [r]).
Proof.
  intros (Hnd & Hrep & Hcov). split; [| split].
  - rewrite pushReport_ids.
    destruct (existsb (λ e, emp_id e =? documento_id r) gs) eqn:Hex.
    + rewrite app_nil_r. exact Hnd.
    + apply NoDup_app. split; [exact Hnd |]. split; [| apply NoDup_singleton].
      intros i Hi Hi'. apply list_elem_of_In in Hi'. destruct Hi' as [<- | []].
      apply list_elem_of_In, in_map_iff in Hi. destruct Hi as (e & He & Hin).
      apply not_true_iff_false in Hex. apply Hex, existsb_exists.
      exists e. split; [exact Hin | apply Z.eqb_eq; exact He].
  - intros e' Hin. rewrite reportsOf_app.
    destruct (pushReport_In r gs e' Hnd Hin)
      as [[H1 H2] | [H1 [(e & He & Hid & Hr) | [Hr Hno]]]].
    + destruct (Hrep e' H1) as [Hne Heq]. split; [exact Hne |].
      unfold reportsOf at 2. simpl.
      apply not_eq_sym, Z.eqb_neq in H2. rewrite H2, app_nil_r. exact Heq.
    + destruct (Hrep e He) as [Hne Heq]. rewrite Hr. split.
      * intros E. apply app_eq_nil in E. destruct E as [_ E]. discriminate E.
      * rewrite Heq, Hid, H1. unfold reportsOf at 3. simpl.
        rewrite Z.eqb_refl. reflexivity.
    + rewrite Hr. split; [discriminate |].
      unfold reportsOf at 2. simpl. rewrite H1, Z.eqb_refl.
      replace (reportsOf (documento_id r) l) with (@nil Reporte); [reflexivity |].
      symmetry. apply reportsOf_nil_iff. intros x Hx E.
      apply Hcov, in_map_iff in Hx. destruct Hx as (e & He & Hin').
      apply (Hno e Hin'). congruence.
  - intros x Hx. rewrite pushReport_ids. apply in_or_app.
    apply in_app_or in Hx. destruct Hx as [Hx | [<- | []]]; [left; auto |].
    destruct (existsb (λ e, emp_id e =? documento_id r) gs) eqn:Hex.
    + left. apply existsb_exists in Hex. destruct Hex as (e & He & Hid).
      apply Z.eqb_eq in Hid. rewrite <- Hid. apply in_map. exact He.
    + right. left. reflexivity.
Qed.

Lemma grouped_foldl l2 gs l1 :
  grouped gs l1 →
  grouped (foldl (λ uniqueEmployees r, pushReport r uniqueEmployees) gs l2) (l1 ++ l2).
Proof.
  revert gs l1. induction l2 as [| r l2 IH]; intros gs l1 H; simpl.
  - rewrite app_nil_r. exact H.
  - replace (l1 ++ r :: l2) with ((l1 ++ [r]) ++ l2) by (rewrite <- app_assoc; reflexivity).
    apply IH, grouped_push, H.
Qed.

(** X12: the employee cards of a day.  Each employee appears once; the
    reports on a card are not empty and are exactly the reports of that day
    and that employee, in the order of the store, which is the list the
    reports view shows for the employee; and every report of the day is on
    the card of its employee. *)
Theorem employees_of_the_selected_day reports d :
  let employees := getEmployeesForSelectedDate (Some d) reports in
  NoDup (map emp_id employees)
  ∧ (∀ e, In e employees →
       emp_reports e ≠ []
       ∧ emp_reports e
         = employeeReports {| selectedDate := d; selectedEmployee := emp_id e |} reports)
  ∧ (∀ r, In r (getReportsForDate reports d) →
       ∃ e, In e employees ∧ emp_id e = documento_id r).
Proof.
  intros employees.
  assert (H : grouped employees (getReportsForDate reports d)).
  { apply (grouped_foldl (getReportsForDate reports d) [] []).
    split; [constructor | split; [intros e [] | intros r []]]. }
  destruct H as (Hnd & Hrep & Hcov).
  split; [exact Hnd |]. split; [exact Hrep |].
  intros r Hr. apply Hcov, in_map_iff in Hr. destruct Hr as (e & He & Hin). eauto.
Qed.

End Employees.

Section Sorting.

Context {A : Type} (before : A → A → bool) (R : A → A → Prop).

Hypothesis before_true : ∀ a b, before a b = true → R a b.
Hypothesis before_false : ∀ a b, before a b = false → R b a.
Hypothesis R_trans : ∀ a b c, R a b → R b c → R a c.

Lemma insertSorted_Permutation x l : insertSorted before x l ≡ₚ x :: l.
Proof.
  induction l as [| y l IH]; simpl; [reflexivity |].
  destruct (before y x); [| reflexivity].
  rewrite IH. apply perm_swap.
Qed.

Lemma stableSort_Permutation l : stableSort before l ≡ₚ l.
Proof.
  unfold stableSort. induction l as [| x l IH]; simpl; [reflexivity |].
  rewrite insertSorted_Permutation, IH. reflexivity.
Qed.

Lemma insertSorted_sorted x l :
  StronglySorted R l → StronglySorted R (insertSorted before x l).
Proof.
  induction 1 as [| y l Hl IH Hy]; simpl.
  - constructor; constructor.
  - destruct (before y x) eqn:Hb.
    + constructor; [exact IH |].
      rewrite insertSorted_Permutation. constructor; [auto | exact Hy].
    + constructor; [constructor; assumption |].
      constructor; [auto |].
      eapply Forall_impl; [exact Hy |]. intros z Hz. cbv beta in *. eauto.
Qed.

Lemma stableSort_sorted l : StronglySorted R (stableSort before l).
Proof.
  unfold stableSort. induction l as [| x l IH]; simpl; [constructor |].
  apply insertSorted_sorted, IH.
Qed.

End Sorting.

Section Technicians.

Import PayrollReview.

Lemma qsum_app l1 l2 : (qsum (l1 ++ l2) == qsum l1 + qsum l2)%Q.
Proof.
  unfold qsum. induction l1 as [| x l1 IH]; simpl; [ring |].
  rewrite IH. ring.
Qed.

Lemma addHours_keys r sm :
  map fst (addHours r sm)
  = map fst sm ++ (if existsb (λ e, fst e =? documento_id r) sm then []
                   else [documento_id r]).
Proof.
  induction sm as [| [k data] sm IH]; simpl; [reflexivity |].
  destruct (k =? documento_id r); simpl.
  - rewrite app_nil_r. reflexivity.
  - rewrite IH. reflexivity.
Qed.

Lemma addHours_In r sm k' data' :
  NoDup (map fst sm) → In (k', data') (addHours r sm) →
  (In (k', data') sm ∧ k' ≠ documento_id r)
  ∨ (k' = documento_id r
     ∧ ((∃ data, In (k', data) sm
                 ∧ tech_total data' = (tech_total data + horas r)%Q
                 ∧ tech_reports data' = (tech_reports data + 1)%nat)
        ∨ (tech_total data' = (0 + horas r)%Q ∧ tech_reports data' = 1%nat
           ∧ ∀ e, In e sm → fst e ≠ documento_id r))).
Proof.
  induction sm as [| [k data] sm IH]; simpl; intros Hnd Hin.
  - destruct Hin as [[= <- <-] | []]. right. split; [reflexivity |].
    right. simpl. split; [reflexivity |]. split; [reflexivity | intros e []].
  - apply NoDup_cons in Hnd. destruct Hnd as [Ha Hnd].
    destruct (k =? documento_id r) eqn:Hid.
    + apply Z.eqb_eq in Hid. destruct Hin as [[= <- <-] | Hin].
      * right. split; [exact Hid |]. left. exists data. simpl. auto.
      * left. split; [auto |]. intros E. apply Ha. rewrite Hid, <- E.
        apply list_elem_of_In.
        change k' with (fst (k', data')). apply in_map. exact Hin.
    + apply Z.eqb_neq in Hid. destruct Hin as [[= <- <-] | Hin].
      * left. auto.
      * destruct (IH Hnd Hin)
          as [[H1 H2] | [H1 [(d0 & Hd0 & Ht & Hn) | (Ht & Hn & Hno)]]].
        -- left. auto.
        -- right. split; [exact H1 |]. left. exists d0. auto.
        -- right. split; [exact H1 |]. right. split; [exact Ht |].
           split; [exact Hn |]. intros e [<- | He]; simpl; auto.
Qed.

Lemma tallied_add r sm l : tallied sm l → tallied (addHours r sm) (l ++ [r]).
Proof.
  intros (Hnd & Hrow & Hcov). split; [| split].
  - rewrite addHours_keys.
    destruct (existsb (λ e, fst e =? documento_id r) sm) eqn:Hex.
    + rewrite app_nil_r. exact Hnd.
    + apply NoDup_app. split; [exact Hnd |]. split; [| apply NoDup_singleton].
      intros i Hi Hi'. apply list_elem_of_In in Hi'. destruct Hi' as [<- | []].
      apply list_elem_of_In, in_map_iff in Hi. destruct Hi as (e & He & Hin).
      apply not_true_iff_false in Hex. apply Hex, existsb_exists.
      exists e. split; [exact Hin | apply Z.eqb_eq; exact He].
  - intros k' data' Hin. rewrite reportsOf_app.
    destruct (addHours_In r sm k' data' Hnd Hin)
      as [[H1 H2] | [H1 [(d0 & Hd0 & Ht & Hn) | (Ht & Hn & Hno)]]].
    + destruct (Hrow k' data' H1) as (Ht & Hn & Hne).
      unfold reportsOf at 2 4 6. simpl.
      apply not_eq_sym, Z.eqb_neq in H2. rewrite H2, !app_nil_r. auto.
    + destruct (Hrow k' d0 Hd0) as (Ht0 & Hn0 & Hne).
      unfold reportsOf at 2 4 6. simpl. rewrite H1, Z.eqb_refl.
      rewrite map_app, qsum_app, length_app. simpl.
      rewrite Ht, Hn, Ht0, Hn0, H1. split; [ring |]. split; [reflexivity |].
      intros E. apply app_eq_nil in E. destruct E as [_ E]. discriminate E.
    + unfold reportsOf at 2 4 6. simpl. rewrite H1, Z.eqb_refl.
      replace (reportsOf (documento_id r) l) with (@nil Reporte).
      { simpl. rewrite Ht, Hn. split; [ring |]. split; [reflexivity | discriminate]. }
      symmetry. apply reportsOf_nil_iff. intros x Hx E.
      apply Hcov, in_map_iff in Hx. destruct Hx as (e & He & Hin').
      apply (Hno e Hin'). congruence.
  - intros x Hx. rewrite addHours_keys. apply in_or_app.
    apply in_app_or in Hx. destruct Hx as [Hx | [<- | []]]; [left; auto |].
    destruct (existsb (λ e, fst e =? documento_id r) sm) eqn:Hex.
    + left. apply existsb_exists in Hex. destruct Hex as (e & He & Hid).
      apply Z.eqb_eq in Hid. rewrite <- Hid. apply in_map. exact He.
    + right. left. reflexivity.
Qed.

Lemma tallied_foldl (inRange : date → bool) l2 sm l1 :
  tallied sm l1 →
  tallied (foldl (λ (summary : list (Z * TechnicianData)) (r : Reporte),
                    match fecha_trabajada r with
                    | None => summary
                    | Some reportDate =>
                        if inRange reportDate then addHours r summary else summary
                    end) sm l2)
          (l1 ++ reportsInRange inRange l2).
Proof.
  revert sm l1. induction l2 as [| r l2 IH]; intros sm l1 H; simpl.
  - rewrite app_nil_r. exact H.
  - unfold reportsInRange in *. simpl.
    destruct (fecha_trabajada r) as [d |]; [| apply IH, H].
    destruct (inRange d); [| apply IH, H].
    match goal with
    | |- tallied ?s _ => change (tallied s (l1 ++ [r] ++ reportsInRange inRange l2))
    end.
    rewrite app_assoc. apply IH, tallied_add, H.
Qed.

Lemma technicianSummary_tallied inRange reports :
  tallied (technicianSummary inRange reports) (reportsInRange inRange reports).
Proof.
  apply (tallied_foldl inRange reports [] []).
  split; [constructor | split; [intros k data [] | intros r []]].
Qed.


End Technicians.

(** * More on the overtime split *)

Section Splitters.

Lemma Split_eq n e t n' e' t' :
  n = n' → e = e' → t = t' →
  {| normalMinutes := Some n; extraMinutes := Some e; totalMinutes := Some t |}
  = {| normalMinutes := Some n'; extraMinutes := Some e'; totalMinutes := Some t' |}.
Proof. intros -> -> ->. reflexivity. Qed.

(** X14: the copies of the splitter agree where they should.  The older
    copy of the overtime report returns what the approval screen returns on
    every report; the overtime report returns what the approval screen
    returns on every report dated Monday to Friday (they differ only on
    Saturdays and Sundays). *)
Theorem splitters_agree_from_monday_to_friday settings report :
  CalendarInstructions.calculateHoursBreakdown settings report
  = PayrollReview.calculateHoursBreakdown settings report
  ∧ ∀ d, fecha_trabajada report = Some d → getDay d ≠ 0 → getDay d ≠ 6 →
         OvertimeReport.calculateHoursBreakdown settings report
         = PayrollReview.calculateHoursBreakdown settings report.
Proof.
  split; [reflexivity |]. intros d Hd H0 H6.
  unfold OvertimeReport.calculateHoursBreakdown, PayrollReview.calculateHoursBreakdown.
  destruct (lacksTimeRange report settings); [reflexivity |].
  rewrite Hd.
  destruct (hora_inicio report) as [hi |]; [| reflexivity].
  destruct (hora_fin report) as [hf |]; [| reflexivity].
  destruct settings as [st |]; [| reflexivity].
  apply Z.eqb_neq in H0, H6.
  unfold OvertimeReport.minuteSplit, PayrollReview.minuteSplit.
  rewrite H0, H6. reflexivity.
Qed.

Lemma overnight_minutes a b (limitStart limitEnd : minutes) :
  0 <= a < 24 * 60 → 0 <= b < 24 * 60 → b < a →
  overlapMinutes (Some a) (Some b) limitStart limitEnd = Some 0
  ∧ workedMinutes (Some a) (Some b) = Some (b - a + 24 * 60)
  ∧ mmax (Some 0) (msub (Some (b - a + 24 * 60)) (Some 0)) = Some (b - a + 24 * 60).
Proof.
  intros Ha Hb Hlt. split; [| split].
  - unfold overlapMinutes. destruct limitStart as [ls |], limitEnd as [le |]; simpl;
      try reflexivity.
    destruct (Z.max a ls <? Z.min b le) eqn:E; [| reflexivity].
    apply Z.ltb_lt in E. lia.
  - unfold workedMinutes. simpl.
    destruct (b - a <? 0) eqn:E; [reflexivity |]. apply Z.ltb_ge in E. lia.
  - simpl. f_equal. lia.
Qed.

(** X15: a range that ends before it starts is read as crossing midnight
    and is overtime as a whole: with start [a] and end [b] in minutes of the
    day and [b < a], both splitters count 0 normal minutes and
    [b - a + 1440] overtime minutes, whatever the window and the day, even
    for the part of the range that lies inside the window. *)
Theorem overnight_range_is_all_overtime hi hf fecha st a b :
  timeOfDay hi a → timeOfDay hf b → b < a →
  PayrollReview.minuteSplit hi hf fecha st = allOvertime (b - a + 24 * 60)
  ∧ OvertimeReport.minuteSplit hi hf fecha st = allOvertime (b - a + 24 * 60).
Proof.
  intros [Hi Ha] [Hf Hb] Hlt. unfold allOvertime. split.
  - unfold PayrollReview.minuteSplit. rewrite Hi, Hf.
    destruct (overnight_minutes a b
                (timeToMinutes (settingOr (normal_hours_start st) "07:30"))
                (timeToMinutes (fridayEnd (getDay fecha) st
                                  (settingOr (normal_hours_end st) "17:30")))
                Ha Hb Hlt) as (-> & -> & ->).
    reflexivity.
  - unfold OvertimeReport.minuteSplit. rewrite Hi, Hf.
    destruct (overnight_minutes a b None None Ha Hb Hlt) as (_ & Hw & Hx).
    rewrite Hw.
    destruct (getDay fecha =? 0); [reflexivity |].
    match goal with
    | |- context [overlapMinutes (Some a) (Some b) ?ls ?le] =>
        destruct (overnight_minutes a b ls le Ha Hb Hlt) as (-> & _ & _)
    end.
    rewrite Hx. reflexivity.
Qed.

(** X16: for a range within one day and a window that reads as
    [ls .. le]: a range inside the window has no overtime, all its minutes
    are normal; a range that ends by the start of the window or starts at or
    after its end has no normal minutes, all of it is overtime. *)
Theorem window_decides_overtime hi hf fecha st a b ls le :
  timeOfDay hi a → timeOfDay hf b → a <= b →
  normalWindow st fecha = (Some ls, Some le) →
  (ls <= a → b <= le → PayrollReview.minuteSplit hi hf fecha st = noOvertime (b - a))
  ∧ (b <= ls ∨ le <= a → PayrollReview.minuteSplit hi hf fecha st = allOvertime (b - a)).
Proof.
  intros [Hi Ha] [Hf Hb] Hab Hw. unfold normalWindow in Hw. injection Hw as Hls Hle.
  unfold PayrollReview.minuteSplit. rewrite Hi, Hf, Hls, Hle.
  assert (Hwork : workedMinutes (Some a) (Some b) = Some (b - a)).
  { unfold workedMinutes. simpl.
    destruct (b - a <? 0) eqn:E; [| reflexivity]. apply Z.ltb_lt in E. lia. }
  rewrite Hwork. unfold overlapMinutes, noOvertime, allOvertime. simpl.
  split.
  - intros H1 H2. destruct (Z.max a ls <? Z.min b le) eqn:E.
    + apply Split_eq; lia.
    + apply Z.ltb_ge in E. apply Split_eq; lia.
  - intros H. destruct (Z.max a ls <? Z.min b le) eqn:E.
    + apply Z.ltb_lt in E. lia.
    + apply Split_eq; lia.
Qed.

(** X17: when the start or the end of the normal window in the settings
    does not read as a time (its minute count is NaN), the splitter raises
    nothing: it counts 0 normal minutes and the whole range as overtime. *)
Theorem unreadable_window_is_all_overtime hi hf fecha st a b :
  timeOfDay hi a → timeOfDay hf b → a <= b →
  fst (normalWindow st fecha) = None ∨ snd (normalWindow st fecha) = None →
  PayrollReview.minuteSplit hi hf fecha st = allOvertime (b - a).
Proof.
  intros [Hi Ha] [Hf Hb] Hab Hw. unfold normalWindow in Hw. simpl in Hw.
  unfold PayrollReview.minuteSplit. rewrite Hi, Hf.
  assert (Hwork : workedMinutes (Some a) (Some b) = Some (b - a)).
  { unfold workedMinutes. simpl.
    destruct (b - a <? 0) eqn:E; [| reflexivity]. apply Z.ltb_lt in E. lia. }
  rewrite Hwork. unfold overlapMinutes, allOvertime.
  destruct Hw as [-> | ->]; simpl.
  - apply Split_eq; lia.
  - destruct (timeToMinutes (settingOr (normal_hours_start st) "07:30")); simpl;
      apply Split_eq; lia.
Qed.

Lemma split_prefix s rest :
  noColon s = true → split ":" (s ++ String ":" rest) = s :: split ":" rest.
Proof.
  induction s as [| c s IH]; simpl; intros H.
  - reflexivity.
  - apply andb_prop in H. destruct H as [Hc Hs]. apply negb_true_iff in Hc.
    rewrite Hc, (IH Hs). reflexivity.
Qed.

Lemma split_noColon s : noColon s = true → split ":" s = [s].
Proof.
  induction s as [| c s IH]; simpl; intros H.
  - reflexivity.
  - apply andb_prop in H. destruct H as [Hc Hs]. apply negb_true_iff in Hc.
    rewrite Hc, (IH Hs). reflexivity.
Qed.

(** X18: [timeToMinutes] reads the first two groups of a time and nothing
    else: HH:MM:SS gives what HH:MM gives, 60 times the number of the first
    group plus the number of the second. *)
Theorem timeToMinutes_ignores_seconds hh mm ss :
  noColon hh = true → noColon mm = true →
  timeToMinutes (hh ++ ":" ++ mm ++ ":" ++ ss) = timeToMinutes (hh ++ ":" ++ mm)
  ∧ timeToMinutes (hh ++ ":" ++ mm) = madd (mmul (Number hh) (Some 60)) (Number mm).
Proof.
  intros Hh Hm.
  assert (Hlong : timeToMinutes (hh ++ ":" ++ mm ++ ":" ++ ss)
                  = madd (mmul (Number hh) (Some 60)) (Number mm)).
  { unfold timeToMinutes.
    destruct (hh ++ ":" ++ mm ++ ":" ++ ss)%string eqn:E.
    { destruct hh; discriminate E. }
    rewrite <- E. change (":" ++ mm ++ ":" ++ ss)%string with (String ":" (mm ++ String ":" ss)).
    rewrite (split_prefix hh _ Hh), (split_prefix mm _ Hm). reflexivity. }
  assert (Hshort : timeToMinutes (hh ++ ":" ++ mm)
                   = madd (mmul (Number hh) (Some 60)) (Number mm)).
  { unfold timeToMinutes.
    destruct (hh ++ ":" ++ mm)%string eqn:E.
    { destruct hh; discriminate E. }
    rewrite <- E. change (":" ++ mm)%string with (String ":" mm).
    rewrite (split_prefix hh _ Hh), (split_noColon mm Hm). reflexivity. }
  rewrite Hlong, Hshort. split; reflexivity.
Qed.

End Splitters.

Lemma splitters_agree_from_monday_to_friday_witness :
  OvertimeReport.calculateHoursBreakdown (Some noSettings) tuesdayReport
  = PayrollReview.calculateHoursBreakdown (Some noSettings) tuesdayReport.
Proof.
  apply (proj2 (splitters_agree_from_monday_to_friday (Some noSettings) tuesdayReport)
               martes).
  - reflexivity.
  - vm_compute. discriminate.
  - vm_compute. discriminate.
Defined.

Lemma overnight_range_is_all_overtime_witness :
  PayrollReview.minuteSplit "22:00" "06:00" martes noSettings = allOvertime 480
  ∧ OvertimeReport.minuteSplit "22:00" "06:00" martes noSettings = allOvertime 480.
Proof.
  apply (overnight_range_is_all_overtime "22:00" "06:00" martes noSettings 1320 360).
  - split; [reflexivity | lia].
  - split; [reflexivity | lia].
  - lia.
Defined.

Lemma window_decides_overtime_witness :
  PayrollReview.minuteSplit "08:00" "12:00" martes noSettings = noOvertime 240.
Proof.
  apply (window_decides_overtime "08:00" "12:00" martes noSettings 480 720 450 1050).
  - split; [reflexivity | lia].
  - split; [reflexivity | lia].
  - lia.
  - reflexivity.
  - lia.
  - lia.
Defined.

Lemma unreadable_window_is_all_overtime_witness :
  PayrollReview.minuteSplit "08:00" "12:00" martes garbledSchedule = allOvertime 240.
Proof.
  apply (unreadable_window_is_all_overtime "08:00" "12:00" martes garbledSchedule 480 720).
  - split; [reflexivity | lia].
  - split; [reflexivity | lia].
  - lia.
  - left. reflexivity.
Defined.

Lemma timeToMinutes_ignores_seconds_witness :
  timeToMinutes "07:30:00" = timeToMinutes "07:30"
  ∧ timeToMinutes "07:30" = madd (mmul (Number "07") (Some 60)) (Number "30").
Proof.
  apply (timeToMinutes_ignores_seconds "07" "30" "00"); reflexivity.
Defined.

(** * The summary of the overtime report *)

Section OvertimeSummary.

Import OvertimeReport.

Variable settings : option Settings.

Section RowCounter.

Variable field : Row → number.
Variable part : Reporte → number.

Hypothesis field_count :
  ∀ acc r row,
    addToSummary settings acc r !! documento_id r = Some row →
    num_eq (field row) (nadd (rowField field acc (documento_id r)) (part r)).

Lemma addToSummary_is_Some acc r :
  ∃ row, addToSummary settings acc r !! documento_id r = Some row.
Proof. unfold addToSummary. rewrite lookup_insert_eq. eauto. Qed.

Lemma addToSummary_other acc r (e : Z) :
  documento_id r ≠ e → addToSummary settings acc r !! e = acc !! e.
Proof. intros H. unfold addToSummary. rewrite lookup_insert_ne by exact H. reflexivity. Qed.

Lemma rowField_add acc r (e : Z) :
  num_eq (rowField field (addToSummary settings acc r) e)
         (nadd (rowField field acc e)
               (if documento_id r =? e then part r else Some 0%Q)).
Proof.
  destruct (documento_id r =? e) eqn:He.
  - apply Z.eqb_eq in He. subst e.
    destruct (addToSummary_is_Some acc r) as [row Hrow].
    unfold rowField at 1. rewrite Hrow. apply (field_count acc r row Hrow).
  - apply Z.eqb_neq in He. unfold rowField.
    rewrite (addToSummary_other acc r e He), nadd_zero_r. reflexivity.
Qed.

Lemma foldl_summary passes reports acc (e : Z) :
  num_eq (rowField field (foldl (summaryStep settings (Some passes)) acc reports) e)
         (nadd (rowField field acc e)
               (nsum (map part (reportsOf e (shownReports passes reports))))).
Proof.
  revert acc. induction reports as [| r rs IH]; intros acc; simpl.
  - rewrite nadd_zero_r. reflexivity.
  - unfold shownReports, summaryStep at 2. simpl.
    destruct (fecha_trabajada r) as [d |]; simpl; [| apply IH].
    destruct (passes r); simpl; [| apply IH].
    rewrite IH, rowField_add. unfold reportsOf. simpl.
    destruct (documento_id r =? e); simpl.
    + rewrite nadd_assoc. reflexivity.
    + rewrite nadd_zero_r. reflexivity.
Qed.

End RowCounter.

Lemma summaryData_rows passes reports (e : Z) :
  is_Some (summaryData settings (Some passes) reports !! e)
  ↔ reportsOf e (shownReports passes reports) ≠ [].
Proof.
  unfold summaryData.
  assert (H : ∀ acc,
    is_Some (foldl (summaryStep settings (Some passes)) acc reports !! e)
    ↔ is_Some (acc !! e) ∨ reportsOf e (shownReports passes reports) ≠ []).
  { induction reports as [| r rs IH]; intros acc; simpl.
    - split; [auto | intros [H | H]; [exact H | exfalso; apply H; reflexivity]].
    - unfold shownReports, summaryStep at 2. simpl.
      destruct (fecha_trabajada r) as [d |]; simpl; [| apply IH].
      destruct (passes r); simpl; [| apply IH].
      rewrite IH. unfold reportsOf at 2. simpl.
      destruct (documento_id r =? e) eqn:He.
      + apply Z.eqb_eq in He. subst e.
        destruct (addToSummary_is_Some acc r) as [row ->].
        split; intros _; [right; discriminate | left; eauto].
      + apply Z.eqb_neq in He. rewrite (addToSummary_other acc r e He). reflexivity. }
  rewrite H, lookup_empty. split.
  - intros [[? Hs] | Hs]; [discriminate Hs | exact Hs].
  - auto.
Qed.

Lemma addToSummary_row acc r :
  addToSummary settings acc r !! documento_id r
  = Some
      (let row := default {| row_normal := Some 0%Q; row_extra := Some 0%Q;
                             row_total := Some 0%Q |} (acc !! documento_id r) in
       {| row_normal :=
            nadd (row_normal row) (normal (calculateHoursBreakdown settings r));
          row_extra :=
            if PayrollReview.statusIs r 3 then row_extra row
            else nadd (row_extra row) (extra (calculateHoursBreakdown settings r));
          row_total :=
            nadd (row_total row) (total (calculateHoursBreakdown settings r)) |}).
Proof. unfold addToSummary. rewrite lookup_insert_eq. reflexivity. Qed.

Lemma row_normal_count acc r row :
  addToSummary settings acc r !! documento_id r = Some row →
  num_eq (row_normal row)
         (nadd (rowField row_normal acc (documento_id r))
               (normal (calculateHoursBreakdown settings r))).
Proof.
  rewrite addToSummary_row. intros [= <-]. unfold rowField.
  destruct (acc !! documento_id r); reflexivity.
Qed.

Lemma row_total_count acc r row :
  addToSummary settings acc r !! documento_id r = Some row →
  num_eq (row_total row)
         (nadd (rowField row_total acc (documento_id r))
               (total (calculateHoursBreakdown settings r))).
Proof.
  rewrite addToSummary_row. intros [= <-]. unfold rowField.
  destruct (acc !! documento_id r); reflexivity.
Qed.

Lemma row_extra_count acc r row :
  addToSummary settings acc r !! documento_id r = Some row →
  num_eq (row_extra row)
         (nadd (rowField row_extra acc (documento_id r)) (paidOvertime settings r)).
Proof.
  rewrite addToSummary_row. intros [= <-]. unfold rowField, paidOvertime.
  destruct (acc !! documento_id r); simpl;
    destruct (PayrollReview.statusIs r 3); simpl; rewrite ?nadd_zero_r; reflexivity.
Qed.


End OvertimeSummary.


(** * More on the entry form with ceilings *)

Section LimitsForm.

Import CalendarHoursEntryLimits.

Lemma isEmpty_false s : isEmpty s = false ↔ s ≠ EmptyString.
Proof. destruct s; simpl; split; congruence. Qed.

Lemma find_elementoPEP (l : list Cliente) k c :
  List.find (λ c, String.eqb (elementoPEP c) k) l = Some c →
  In c l ∧ elementoPEP c = k.
Proof.
  intros H. apply find_some in H. destruct H as [Hin Heq].
  apply String.eqb_eq in Heq. auto.
Qed.

(** X21: what the form with ceilings hands to [onSave].  A submission is
    saved only with a date, a positive hour count, a client that is selected
    and in the list, and an area that is not blank and is passed trimmed; on
    a day whose daily limit is not 0; with the day's hours, the edited
    record's taken off, plus the new ones within the daily limit, and the new
    hours within what remains of the week.  With the default limits this
    means Monday to Friday only. *)
Theorem saved_entry_is_well_formed p s c h d a :
  handleSubmit p s = Saved c h d a →
  selectedDate s = Some d ∧ horas s = Some h ∧ (0 < h)%Q
  ∧ c = selectedCliente s ∧ c ≠ EmptyString
  ∧ (∃ cliente, In cliente (clientes p) ∧ elementoPEP cliente = c)
  ∧ a = trim (areaCliente s) ∧ a ≠ EmptyString
  ∧ ¬ (limitOfDay (activeDailyLimits p) (getDay d) == 0)%Q
  ∧ (getDailyHours p d - horasEditando p + h
     <= limitOfDay (activeDailyLimits p) (getDay d))%Q
  ∧ (h <= remaining (weeklyHoursInfo p s))%Q
  ∧ (activeDailyLimits p = DAILY_LIMITS_DEFAULT → 1 <= getDay d <= 5).
Proof.
  intros Hs.
  destruct (handleSubmit_reaches_limits p s) as [_ Hsave].
  destruct (Hsave c h d a Hs) as (Hh & Hd & Hpos & Hchk).
  unfold handleSubmit in Hs.
  destruct (isEmpty (selectedCliente s)) eqn:Hc; [discriminate |].
  destruct (isEmpty (areaCliente s)) eqn:Ha1; [discriminate |].
  destruct (isEmpty (trim (areaCliente s))) eqn:Ha2; [discriminate |].
  simpl in Hs. rewrite Hh, Hd in Hs.
  destruct (Qle_bool h 0); [discriminate |].
  destruct (List.find _ (clientes p)) as [cliente |] eqn:Hfind; [| discriminate].
  clear Hs. unfold checkLimits in Hchk. fold (horasEditando p) in Hchk.
  destruct (Qeq_bool (limitOfDay (activeDailyLimits p) (getDay d)) 0) eqn:Hzero;
    [discriminate |].
  destruct (Qle_bool (getDailyHours p d - horasEditando p + h)
                     (limitOfDay (activeDailyLimits p) (getDay d))) eqn:Hday.
  2: { simpl in Hchk. destruct (Qle_bool _ 0); discriminate. }
  destruct (Qle_bool h (remaining (weeklyHoursInfo p s))) eqn:Hweek; [| discriminate].
  simpl in Hchk. injection Hchk as <- <-.
  apply isEmpty_false in Hc, Ha2. apply Qeq_bool_false in Hzero.
  apply Qle_bool_iff in Hday, Hweek.
  destruct (find_elementoPEP _ _ _ Hfind) as [Hin Hpep].
  assert (Hopen : activeDailyLimits p = DAILY_LIMITS_DEFAULT → 1 <= getDay d <= 5).
  { intros Hdef. rewrite Hdef in Hzero. unfold getDay in *.
    pose proof (Z.mod_pos_bound (d + 4) 7 ltac:(lia)) as Hb.
    assert ((d + 4) mod 7 ≠ 0) by (intros E; rewrite E in Hzero; apply Hzero; reflexivity).
    assert ((d + 4) mod 7 ≠ 6) by (intros E; rewrite E in Hzero; apply Hzero; reflexivity).
    lia. }
  repeat split; auto; try (apply Hopen; assumption).
  exists cliente. auto.
Qed.

(** X22: a click on a day cell opens the form only on a day that is not
    after today, is not a Sunday and whose daily limit is not 0, and selects
    that day; whatever is then typed into the form, an entry that is saved
    has that day as its date. *)
Theorem new_entries_are_not_in_the_future p today day s0 s1 :
  clickDay p today day s0 = Some s1 →
  day <= today ∧ getDay day ≠ 0
  ∧ ¬ (limitOfDay (activeDailyLimits p) (getDay day) == 0)%Q
  ∧ selectedDate s1 = Some day
  ∧ ∀ s2 c h d a,
      selectedDate s2 = selectedDate s1 → handleSubmit p s2 = Saved c h d a →
      d = day.
Proof.
  unfold clickDay, isDisabled, handleDayClick.
  destruct (today <? day) eqn:Hf; [discriminate |]. simpl.
  destruct (Qeq_bool _ 0) eqn:Hz; [discriminate |].
  destruct (getDay day =? 0) eqn:Hs; [discriminate |].
  intros [= <-]. simpl.
  apply Z.ltb_ge in Hf. apply Z.eqb_neq in Hs. apply Qeq_bool_false in Hz.
  repeat split; auto.
  intros s2 c h d a Hd Hsave.
  destruct (handleSubmit_reaches_limits p s2) as [_ H].
  destruct (H c h d a Hsave) as (_ & Hd' & _). congruence.
Qed.

Lemma includes_In l x : includes l x = true ↔ In x l.
Proof.
  unfold includes. rewrite existsb_exists. split.
  - intros (y & Hy & E). apply String.eqb_eq in E. subst. exact Hy.
  - intros H. exists x. split; [exact H | apply String.eqb_refl].
Qed.

(** X23: the two selectors of the form keep client and area compatible.
    After the area has been changed, and after the client has been changed,
    the selection is consistent: if a client and an area are both selected
    and the client is in the list, the area is one of that client's areas
    (the selector clears the other field otherwise).  The field that was
    changed always holds the new value. *)
Theorem selectors_keep_the_selection_consistent p s x :
  consistentSelection p (handleAreaChange p x s)
  ∧ consistentSelection p (handleClienteChange p x s)
  ∧ areaCliente (handleAreaChange p x s) = x
  ∧ selectedCliente (handleClienteChange p x s) = x.
Proof.
  split; [| split; [| split; reflexivity]].
  - unfold consistentSelection, handleAreaChange. simpl.
    destruct (isEmpty (selectedCliente s)) eqn:He.
    { intros c Hc. destruct (selectedCliente s); [congruence | discriminate He]. }
    destruct (List.find _ (clientes p)) as [cliente |] eqn:Hfind.
    + destruct (includes (areas cliente) x) eqn:Hinc; simpl.
      * intros c _ _ Hc. rewrite Hfind in Hc. injection Hc as <-.
        apply includes_In. exact Hinc.
      * intros c Hc. congruence.
    + intros c _ _ Hc. rewrite Hfind in Hc. discriminate Hc.
  - unfold consistentSelection, handleClienteChange. simpl.
    destruct (isEmpty (areaCliente s)) eqn:He.
    { intros c _ Ha. destruct (areaCliente s); [congruence | discriminate He]. }
    destruct (List.find _ (clientes p)) as [cliente |] eqn:Hfind.
    + destruct (includes (areas cliente) (areaCliente s)) eqn:Hinc; simpl.
      * intros c _ _ Hc. injection Hc as <-.
        apply includes_In. exact Hinc.
      * intros c _ Ha. congruence.
    + intros c _ _ Hc. discriminate Hc.
Qed.

Lemma unique_spec l :
  NoDup (unique l) ∧ ∀ x, In x (unique l) ↔ In x l.
Proof.
  unfold unique.
  assert (H : ∀ seen, NoDup seen →
            NoDup (foldl (λ seen x, if includes seen x then seen else seen ++ [x]) seen l)
            ∧ ∀ x, In x (foldl (λ seen x, if includes seen x then seen else seen ++ [x])
                           seen l)
                   ↔ In x seen ∨ In x l).
  { induction l as [| y l IH]; intros seen Hnd; simpl.
    - split; [exact Hnd | intros x; tauto].
    - destruct (includes seen y) eqn:Hy.
      + destruct (IH seen Hnd) as [H1 H2]. split; [exact H1 |].
        intros x. rewrite H2. apply includes_In in Hy.
        split; [tauto |]. intros [H | [<- | H]]; auto.
      + assert (Hnd' : NoDup (seen ++ [y])).
        { apply NoDup_app. split; [exact Hnd |]. split; [| apply NoDup_singleton].
          intros z Hz Hz'. apply list_elem_of_In in Hz'. destruct Hz' as [<- | []].
          apply list_elem_of_In, includes_In in Hz. congruence. }
        destruct (IH _ Hnd') as [H1 H2]. split; [exact H1 |].
        intros x. rewrite H2, in_app_iff. simpl. tauto. }
  destruct (H [] (NoDup_nil_2)) as [H1 H2]. split; [exact H1 |].
  intros x. rewrite H2. simpl. tauto.
Qed.

(** X24: [cleanAreas] lists each area once: the result has no duplicates,
    and a string is in it exactly when it is not empty and is the trimmed
    form of one of the given areas. *)
Theorem cleanAreas_lists_each_area_once areas :
  NoDup (cleanAreas areas)
  ∧ ∀ x, In x (cleanAreas areas) ↔ x ≠ EmptyString ∧ ∃ area, In area areas ∧ trim area = x.
Proof.
  unfold cleanAreas.
  set (kept := List.filter _ areas).
  destruct (unique_spec (map trim kept)) as [Hnd Hin].
  split.
  - rewrite (stableSort_Permutation String.ltb). exact Hnd.
  - intros x.
    assert (Hperm : In x (stableSort String.ltb (unique (map trim kept)))
                    ↔ In x (unique (map trim kept))).
    { rewrite <- !list_elem_of_In, (stableSort_Permutation String.ltb). reflexivity. }
    rewrite Hperm, Hin, in_map_iff. unfold kept. split.
    + intros (area & <- & Hk). apply filter_In in Hk. destruct Hk as [Hk Hne].
      apply andb_prop in Hne. destruct Hne as [_ Hne].
      apply negb_true_iff, isEmpty_false in Hne. eauto.
    + intros [Hx (area & Hk & <-)]. exists area. split; [reflexivity |].
      apply filter_In. split; [exact Hk |].
      apply andb_true_intro. split; apply negb_true_iff, isEmpty_false; [| exact Hx].
      intros E. subst area. apply Hx. reflexivity.
Qed.

End LimitsForm.

Lemma saved_entry_is_well_formed_witness :
  let p := limitsProps [mkRecord 1 6 lunes] None None in
  let s := limitsState lunes 3 in
  (CalendarHoursEntryLimits.getDailyHours p lunes - horasEditando p + 3
   <= CalendarHoursEntryLimits.limitOfDay
        (CalendarHoursEntryLimits.activeDailyLimits p) (getDay lunes))%Q
  ∧ 1 <= getDay lunes <= 5.
Proof.
  intros p s.
  destruct (saved_entry_is_well_formed p s "PEP1" 3 lunes "Campo")
    as (_ & _ & _ & _ & _ & _ & _ & _ & _ & Hday & _ & Hopen).
  - vm_compute. reflexivity.
  - split; [exact Hday | apply Hopen; reflexivity].
Defined.

Lemma new_entries_are_not_in_the_future_witness :
  ∃ s1,
    CalendarHoursEntryLimits.clickDay twoClients martes lunes (limitsState martes 1)
    = Some s1
    ∧ lunes <= martes ∧ getDay lunes ≠ 0
    ∧ CalendarHoursEntryLimits.selectedDate s1 = Some lunes.
Proof.
  eexists. split; [vm_compute; reflexivity |].
  destruct (new_entries_are_not_in_the_future twoClients martes lunes (limitsState martes 1)
              (limitsState lunes 1)) as (H1 & H2 & _ & H4 & _).
  - vm_compute. reflexivity.
  - split; [exact H1 | split; [exact H2 | exact H4]].
Defined.

(** * More on the entry form with a time range *)

Section RangeForm.

Import CalendarHoursEntryRange.

(** X25: what the form with a time range hands to [onSave].  An entry is
    saved only with a date, both times filled in, a description that is not
    blank, a client that is in the list and a trimmed area that is among the
    areas offered for that client; and when the two times read as minute
    counts [a] and [b], the end is after the start and the hours saved are
    [(b - a) / 60]. *)
Theorem time_range_entry_is_well_formed p s g :
  handleSubmit p s = Saved g →
  selectedDate s = Some (g_fecha g)
  ∧ g_cliente g = selectedCliente s
  ∧ g_horaInicio g = horaInicio s ∧ g_horaFin g = horaFin s
  ∧ horaInicio s ≠ EmptyString ∧ horaFin s ≠ EmptyString
  ∧ trim (descripcion s) ≠ EmptyString
  ∧ g_area g = trim (areaCliente s)
  ∧ (∃ cliente, In cliente (clientes p) ∧ elementoPEP cliente = g_cliente g
                ∧ In (g_area g) (areasOffered cliente s))
  ∧ ∀ a b, minutos (horaInicio s) = Some a → minutos (horaFin s) = Some b →
           a < b ∧ num_eq (g_horas g) (Some (inject_Z (b - a) / 60)%Q).
Proof.
  unfold handleSubmit.
  destruct (isEmpty (selectedCliente s)); [discriminate |].
  destruct (isEmpty (areaCliente s) || isEmpty (trim (areaCliente s))); [discriminate |].
  destruct (isEmpty (horaInicio s)) eqn:Hi; [discriminate |].
  destruct (isEmpty (horaFin s)) eqn:Hf; [discriminate |]. simpl.
  destruct (selectedDate s) as [d |]; [| discriminate].
  destruct (List.find _ (clientes p)) as [cliente |] eqn:Hfind; [| discriminate].
  destruct (notPositive _) eqn:Hpos; [discriminate |].
  destruct (isEmpty (descripcion s)) eqn:Hd1; [discriminate |].
  destruct (isEmpty (trim (descripcion s))) eqn:Hd2; [discriminate |]. simpl.
  destruct (includes _ (trim (areaCliente s))) eqn:Hinc; [| discriminate]. simpl.
  destruct (String.eqb (tipoActividad s) "En Cliente" && negb (present (ubicacion s))
            && negb (ubicacionRechazada s)); [discriminate |].
  destruct (String.eqb (tipoActividad s) "En Cliente" && falsy (firma s));
    [discriminate |].
  intros [= <-]. simpl.
  apply isEmpty_false in Hi, Hf, Hd2.
  destruct (find_elementoPEP _ _ _ Hfind) as [Hin Hpep].
  repeat split; auto.
  - exists cliente. split; [exact Hin |]. split; [exact Hpep |].
    unfold areasOffered. unfold includes in Hinc. apply existsb_exists in Hinc.
    destruct Hinc as (y & Hy & E). apply String.eqb_eq in E. subst y. exact Hy.
  - rewrite H, H0 in Hpos. simpl in Hpos. apply Qle_bool_false in Hpos.
    unfold Qdiv in Hpos. change (/ 60)%Q with (1 # 60)%Q in Hpos.
    assert (0 < inject_Z (b - a))%Q as Hq by lra.
    change 0%Q with (inject_Z 0) in Hq. rewrite <- Zlt_Qlt in Hq. lia.
  - rewrite H, H0. simpl. reflexivity.
Qed.

Lemma proposed_settingOr v dflt :
  proposed v dflt ≠ EmptyString → settingOr v dflt = proposed v dflt.
Proof.
  unfold proposed, settingOr. destruct v as [[| c s] |]; simpl; try reflexivity.
  intros H. destruct (if Ascii.eqb c dquote then stripQuotes s else String c (stripQuotes s));
    [congruence | reflexivity].
Qed.

Lemma window_inside hi hf fecha st a b ls le :
  timeOfDay hi a → timeOfDay hf b → a <= b →
  normalWindow st fecha = (Some ls, Some le) → ls <= a → b <= le →
  PayrollReview.minuteSplit hi hf fecha st = noOvertime (b - a).
Proof.
  intros [Hi Ha] [Hf Hb] Hab Hw H1 H2. unfold normalWindow in Hw. injection Hw as Hls Hle.
  unfold PayrollReview.minuteSplit. rewrite Hi, Hf, Hls, Hle.
  assert (Hwork : workedMinutes (Some a) (Some b) = Some (b - a)).
  { unfold workedMinutes. simpl.
    destruct (b - a <? 0) eqn:E; [| reflexivity]. apply Z.ltb_lt in E. lia. }
  rewrite Hwork. unfold overlapMinutes, noOvertime. simpl.
  destruct (Z.max a ls <? Z.min b le) eqn:E.
  - apply Split_eq; lia.
  - apply Z.ltb_ge in E. apply Split_eq; lia.
Qed.

(** X26: the times the form proposes when a day is opened are the normal
    window of the approval screen.  With settings loaded, a click on a day
    that is not after today selects it, and if the two proposed times are
    not empty and read as times of one day (and, on a Friday, the Friday end
    is configured), the splitter of the approval screen finds no overtime in
    the proposed range: all its minutes are normal. *)
Theorem proposed_times_have_no_overtime p st today d s s' a b :
  settings p = Some st →
  handleDayClick p today d s = Some s' →
  (getDay d = 5 → falsy (normal_hours_end_friday st) = false) →
  horaInicio s' ≠ EmptyString → horaFin s' ≠ EmptyString →
  timeOfDay (horaInicio s') a → timeOfDay (horaFin s') b → a <= b →
  d <= today ∧ selectedDate s' = Some d
  ∧ PayrollReview.minuteSplit (horaInicio s') (horaFin s') d st = noOvertime (b - a).
Proof.
  intros Hst Hclick Hfri Hine Hfne Hta Htb Hab.
  unfold handleDayClick in Hclick. rewrite Hst in Hclick. simpl in Hclick.
  destruct (today <? d) eqn:Hfut; [discriminate |].
  apply Z.ltb_ge in Hfut. injection Hclick as <-. simpl in *.
  split; [exact Hfut |]. split; [reflexivity |].
  apply (window_inside _ _ d st a b a b Hta Htb Hab); try lia.
  unfold normalWindow.
  destruct Hta as [Hta _]. destruct Htb as [Htb _]. rewrite <- Hta, <- Htb.
  f_equal; f_equal.
  - apply proposed_settingOr. exact Hine.
  - destruct (getDay d =? 5) eqn:H5.
    + apply Z.eqb_eq in H5. specialize (Hfri H5).
      unfold fridayEnd, proposed in *. rewrite H5.
      destruct (normal_hours_end_friday st) as [[| c f] |]; try discriminate Hfri.
      reflexivity.
    + unfold fridayEnd. rewrite H5.
      rewrite (proposed_settingOr _ _ Hfne).
      destruct (normal_hours_end_friday st) as [[| c f] |]; reflexivity.
Qed.

End RangeForm.

Lemma time_range_entry_is_well_formed_witness :
  ∃ g,
    CalendarHoursEntryRange.handleSubmit (rangeProps [])
      (rangeState martes "08:00" "12:00" "En Oficina" None false None)
    = CalendarHoursEntryRange.Saved g
    ∧ CalendarHoursEntryRange.g_area g = "Campo"%string
    ∧ 480 < 720
    ∧ num_eq (CalendarHoursEntryRange.g_horas g) (Some (inject_Z (720 - 480) / 60)%Q).
Proof.
  eexists. split; [vm_compute; reflexivity |].
  destruct (time_range_entry_is_well_formed (rangeProps [])
              (rangeState martes "08:00" "12:00" "En Oficina" None false None) _ eq_refl)
    as (_ & _ & _ & _ & _ & _ & _ & Harea & _ & Htimes).
  split; [exact Harea |].
  apply (Htimes 480 720); reflexivity.
Defined.

Lemma proposed_times_have_no_overtime_witness :
  ∃ s',
    CalendarHoursEntryRange.handleDayClick scheduleProps (lunes + 4) (lunes + 4)
      (rangeState martes "" "" "En Oficina" None false None)
    = Some s'
    ∧ CalendarHoursEntryRange.horaFin s' = "15:00"%string
    ∧ PayrollReview.minuteSplit (CalendarHoursEntryRange.horaInicio s')
                                (CalendarHoursEntryRange.horaFin s') (lunes + 4)
                                quotedSchedule
      = noOvertime 480.
Proof.
  eexists. split; [vm_compute; reflexivity |]. split; [reflexivity |].
  apply (proposed_times_have_no_overtime scheduleProps quotedSchedule (lunes + 4) (lunes + 4)
           (rangeState martes "" "" "En Oficina" None false None) _ 420 900).
  - reflexivity.
  - vm_compute. reflexivity.
  - intros _. reflexivity.
  - discriminate.
  - discriminate.
  - split; [reflexivity | lia].
  - split; [reflexivity | lia].
  - lia.
Defined.

(** * The dashboard and the entry form together *)

Section Dashboard.

Import CalendarHoursEntryLimits OperativeDashboard.

Lemma same_week d x :
  isWithinInterval d (startOfWeek x) (endOfWeek x) = true → startOfWeek d = startOfWeek x.
Proof.
  unfold isWithinInterval, endOfWeek. intros H.
  apply andb_prop in H. destruct H as [H1 H2]. apply Z.leb_le in H1, H2.
  pose proof (startOfWeek_bounds d) as Hd.
  pose proof (getDay_startOfWeek d) as Gd. pose proof (getDay_startOfWeek x) as Gx.
  unfold getDay in Gd, Gx.
  pose proof (Z.div_mod (startOfWeek d + 4) 7 ltac:(lia)) as Ed.
  pose proof (Z.div_mod (startOfWeek x + 4) 7 ltac:(lia)) as Ex.
  rewrite Gd in Ed. rewrite Gx in Ex. lia.
Qed.

Lemma hoursOfWeek_same d x l :
  startOfWeek d = startOfWeek x → hoursOfWeek x l = hoursOfWeek d l.
Proof. intros H. unfold hoursOfWeek, endOfWeek. rewrite H. reflexivity. Qed.

Lemma hoursOfDay_insert x l1 r l2 :
  (hoursOfDay x (l1 ++ r :: l2)
   == hoursOfDay x (l1 ++ l2) + (if HoursRecord.fecha r =? x then HoursRecord.horas r else 0))%Q.
Proof. unfold hoursOfDay. apply sumHoras_filter_without. Qed.

Lemma hoursOfWeek_insert x l1 r l2 :
  (hoursOfWeek x (l1 ++ r :: l2)
   == hoursOfWeek x (l1 ++ l2)
      + (if isWithinInterval (HoursRecord.fecha r) (startOfWeek x) (endOfWeek x)
         then HoursRecord.horas r else 0))%Q.
Proof. unfold hoursOfWeek. apply sumHoras_filter_without. Qed.

(** What a submission that passes has been checked against. *)
Lemma saved_within_limits p s c h d a :
  handleSubmit p s = Saved c h d a →
  selectedDate s = Some d
  ∧ (getDailyHours p d - horasEditando p + h
     <= limitOfDay (activeDailyLimits p) (getDay d))%Q
  ∧ (h <= remaining (weeklyHoursInfo p s))%Q.
Proof.
  intros Hs.
  destruct (handleSubmit_reaches_limits p s) as [_ Hsave].
  destruct (Hsave c h d a Hs) as (_ & Hd & _ & Hchk).
  split; [exact Hd |].
  unfold checkLimits in Hchk. fold (horasEditando p) in Hchk.
  destruct (Qeq_bool (limitOfDay (activeDailyLimits p) (getDay d)) 0); [discriminate |].
  destruct (Qle_bool (getDailyHours p d - horasEditando p + h)
                     (limitOfDay (activeDailyLimits p) (getDay d))) eqn:Hday.
  2: { simpl in Hchk. destruct (Qle_bool _ 0); discriminate. }
  destruct (Qle_bool h (remaining (weeklyHoursInfo p s))) eqn:Hweek; [| discriminate].
  apply Qle_bool_iff in Hday, Hweek. auto.
Qed.

Lemma map_replace (i : Z) (e e' : Entry) l1 l2 :
  hasId i e = true → (∀ r, In r (l1 ++ l2) → hasId i r = false) →
  map (λ r, if hasId i r then e' else r) (l1 ++ e :: l2) = l1 ++ e' :: l2.
Proof.
  intros He Hno. rewrite map_app. simpl. rewrite He. f_equal; [| f_equal].
  - apply map_fixed. intros r Hr. rewrite Hno; [reflexivity |].
    apply in_or_app. auto.
  - apply map_fixed. intros r Hr. rewrite Hno; [reflexivity |].
    apply in_or_app. auto.
Qed.

(** The records after a submission that passes and whose request succeeds:
    the other records with the saved one among them. *)
Lemma submit_records settings newId s st c h d a :
  editingWellFormed st →
  handleSubmit (formProps settings st) s = Saved c h d a →
  ∃ l1 r' l2,
    recordsOf (submit settings (Some newId) s st) = l1 ++ r' :: l2
    ∧ Others (formProps settings st) (l1 ++ l2)
    ∧ HoursRecord.horas r' = h ∧ HoursRecord.fecha r' = d.
Proof.
  intros Hwf Hs. unfold submit. rewrite Hs. unfold handleSaveHours.
  destruct (saved_within_limits _ _ _ _ _ _ Hs) as (Hd & _).
  assert (Hfound : ∃ cliente, List.find (λ c0, String.eqb (elementoPEP c0) c) (clientes st)
                              = Some cliente).
  { unfold handleSubmit in Hs.
    destruct (isEmpty (selectedCliente s)); [discriminate |].
    destruct (isEmpty (areaCliente s) || isEmpty (trim (areaCliente s))); [discriminate |].
    destruct (horas s) as [h' |]; [| discriminate].
    destruct (Qle_bool h' 0); [discriminate |].
    destruct (selectedDate s) as [d' |]; [| discriminate].
    simpl in Hs.
    destruct (List.find _ (clientes st)) as [cliente |] eqn:Hf; [| discriminate].
    assert (c = selectedCliente s) as ->.
    { unfold checkLimits in Hs.
      repeat match type of Hs with
             | (if ?b then _ else _) = _ => destruct b
             end; try discriminate. injection Hs as <- _ _ _. reflexivity. }
    eauto. }
  destruct Hfound as [cliente ->].
  unfold editingId.
  destruct (editingRecord st) as [e |] eqn:He.
  - destruct (Hwf e He) as (i & l1 & l2 & Hid & Hi & Hl & Hno).
    rewrite Hid. apply Z.eqb_neq in Hi. rewrite Hi.
    unfold recordsOf. simpl. rewrite Hl.
    pose (e' := {| record := {| HoursRecord.id := Some i; HoursRecord.clienteId := c;
                               HoursRecord.horas := h; HoursRecord.fecha := d;
                               HoursRecord.areaCliente := Some a |};
                   aprobado := Some 0 |}).
    assert (Hmap : map (λ r, if hasId i r
                             then {| record :=
                                       {| HoursRecord.id := HoursRecord.id (record r);
                                          HoursRecord.clienteId := c;
                                          HoursRecord.horas := h;
                                          HoursRecord.fecha := d;
                                          HoursRecord.areaCliente := Some a |};
                                     aprobado := Some 0 |}
                             else r) (l1 ++ e :: l2)
                   = l1 ++ e' :: l2).
    { assert (Hei : hasId i e = true) by (unfold hasId; rewrite Hid; apply Z.eqb_refl).
      rewrite <- (map_replace i e e' l1 l2 Hei Hno).
      apply map_ext_in. intros r Hr. destruct (hasId i r) eqn:Hr'; [| reflexivity].
      unfold hasId in Hr'. destruct (HoursRecord.id (record r)) as [j |]; [| discriminate].
      apply Z.eqb_eq in Hr'. subst j. reflexivity. }
    rewrite Hmap, map_app. simpl.
    exists (map record l1), (record e'), (map record l2).
    split; [reflexivity |]. split; [| split; reflexivity].
    apply (others_edit _ (record e)).
    + unfold formProps. simpl. rewrite He. reflexivity.
    + unfold formProps. simpl. rewrite Hl, map_app. reflexivity.
  - unfold recordsOf. simpl. rewrite map_app. simpl.
    eexists _, _, []. split; [reflexivity |]. split; [| split; reflexivity].
    rewrite app_nil_r.
    apply (others_new (formProps settings st)).
    unfold formProps. simpl. rewrite He. reflexivity.
Qed.

(** X27: the ceilings are kept by the dashboard and the form together.
    When the record being edited, if any, is in the list under an identifier
    of its own and the form is open on its day, a submission (validated by
    the form, stored by the dashboard, whether the request succeeds or not)
    leaves every day that was within its daily limit within it, and every
    week that was within the weekly limit within it. *)
Theorem validated_saves_keep_the_ceilings settings respuesta s st x :
  editingWellFormed st → openOnEditedDay st s →
  let p := formProps settings st in
  let after := recordsOf (submit settings respuesta s st) in
  ((hoursOfDay x (recordsOf st) <= limitOfDay (activeDailyLimits p) (getDay x))%Q →
   (hoursOfDay x after <= limitOfDay (activeDailyLimits p) (getDay x))%Q)
  ∧ ((hoursOfWeek x (recordsOf st) <= activeWeeklyLimit p)%Q →
     (hoursOfWeek x after <= activeWeeklyLimit p)%Q).
Proof.
  intros Hwf Hopen p after.
  destruct (handleSubmit p s) as [| m | c h d a] eqn:Hs;
    try (unfold after, submit; fold p; rewrite Hs; tauto).
  destruct respuesta as [newId |].
  2: { unfold after, submit, handleSaveHours. fold p. rewrite Hs.
       destruct (List.find _ (clientes st)); tauto. }
  destruct (submit_records settings newId s st c h d a Hwf Hs)
    as (l1 & r' & l2 & Hafter & Hothers & Hh & Hf).
  fold after in Hafter. fold p in Hothers.
  destruct (saved_within_limits p s c h d a Hs) as (Hd & Hday & Hweek).
  assert (Hedit : editsOnItsDay p d).
  { intros r Hr. unfold p, formProps in Hr. simpl in Hr.
    destruct (editingRecord st) as [e |] eqn:He; [| discriminate].
    simpl in Hr. injection Hr as <-. specialize (Hopen e He). congruence. }
  rewrite (adjusted_day p d _ Hothers Hedit) in Hday.
  rewrite (remaining_week p s d _ Hd Hothers (editsOnItsDay_week p d Hedit)) in Hweek.
  assert (Hold : ∃ k1 k2 gone,
             (hoursOfDay x (recordsOf st)
              == hoursOfDay x (l1 ++ l2) + (if d =? x then gone else 0))%Q
             ∧ (hoursOfWeek x (recordsOf st)
                == hoursOfWeek x (l1 ++ l2)
                   + (if isWithinInterval d (startOfWeek x) (endOfWeek x)
                      then gone else 0))%Q
             ∧ k1 ++ k2 = l1 ++ l2).
  { remember (l1 ++ l2) as others eqn:Ho.
    destruct Hothers as [Hnone | r k1 k2 Hr Hex].
    - exists (existingRecords p), [], 0%Q. rewrite app_nil_r.
      change (recordsOf st) with (existingRecords p).
      split; [| split; [| reflexivity]].
      + destruct (d =? x); ring.
      + destruct (isWithinInterval d _ _); ring.
    - exists k1, k2, (HoursRecord.horas r).
      change (recordsOf st) with (existingRecords p). rewrite Hex.
      rewrite hoursOfDay_insert, hoursOfWeek_insert, (Hedit r Hr).
      split; [reflexivity | split; reflexivity]. }
  destruct Hold as (k1 & k2 & gone & Hod & How & _).
  rewrite Hafter, hoursOfDay_insert, hoursOfWeek_insert, Hh, Hf.
  split.
  - intros Hinv. destruct (d =? x) eqn:Hx.
    + apply Z.eqb_eq in Hx. subst x. exact Hday.
    + rewrite Hod in Hinv. lra.
  - intros Hinv.
    destruct (isWithinInterval d (startOfWeek x) (endOfWeek x)) eqn:Hx.
    + apply same_week in Hx. rewrite (hoursOfWeek_same d x _ Hx). lra.
    + rewrite How in Hinv. lra.
Qed.

(** X28: a saved edit replaces the edited record and nothing else.  When
    the record being edited is in the list under an identifier of its own,
    a submission that passes and whose request succeeds leaves the list as it
    was except for that record, which keeps its identifier, takes the client,
    hours, date and area of the form and goes back to pending, so that its
    edit button (shown for rejected records) is gone; the edit mode ends. *)
Theorem saved_edit_returns_the_record_to_pending
    settings newId s st e i l1 l2 c h d a :
  editingRecord st = Some e →
  HoursRecord.id (record e) = Some i → i ≠ 0 →
  hoursRecords st = l1 ++ e :: l2 →
  (∀ r, In r (l1 ++ l2) → hasId i r = false) →
  handleSubmit (formProps settings st) s = Saved c h d a →
  let e' :=
    {| record := {| HoursRecord.id := Some i; HoursRecord.clienteId := c;
                    HoursRecord.horas := h; HoursRecord.fecha := d;
                    HoursRecord.areaCliente := Some a |};
       aprobado := Some 0 |} in
  submit settings (Some newId) s st
  = {| clientes := clientes st; hoursRecords := l1 ++ e' :: l2; editingRecord := None |}
  ∧ HoursHistoryByDate.showsEdit e' = false.
Proof.
  intros He Hid Hi Hl Hno Hs e'. split; [| reflexivity].
  unfold submit. rewrite Hs. unfold handleSaveHours.
  assert (Hfound : ∃ cliente, List.find (λ c0, String.eqb (elementoPEP c0) c) (clientes st)
                              = Some cliente).
  { unfold handleSubmit in Hs.
    destruct (isEmpty (selectedCliente s)); [discriminate |].
    destruct (isEmpty (areaCliente s) || isEmpty (trim (areaCliente s))); [discriminate |].
    destruct (horas s) as [h' |]; [| discriminate].
    destruct (Qle_bool h' 0); [discriminate |].
    destruct (selectedDate s) as [d' |]; [| discriminate].
    simpl in Hs.
    destruct (List.find _ (clientes st)) as [cliente |] eqn:Hf; [| discriminate].
    assert (c = selectedCliente s) as ->.
    { unfold checkLimits in Hs.
      repeat match type of Hs with
             | (if ?b then _ else _) = _ => destruct b
             end; try discriminate. injection Hs as <- _ _ _. reflexivity. }
    eauto. }
  destruct Hfound as [cliente ->].
  unfold editingId. rewrite He, Hid. apply Z.eqb_neq in Hi. rewrite Hi.
  f_equal. rewrite Hl.
  assert (Hei : hasId i e = true) by (unfold hasId; rewrite Hid; apply Z.eqb_refl).
  rewrite <- (map_replace i e e' l1 l2 Hei Hno).
  apply map_ext_in. intros r Hr. destruct (hasId i r) eqn:Hr'; [| reflexivity].
  unfold hasId in Hr'. destruct (HoursRecord.id (record r)) as [j |]; [| discriminate].
  apply Z.eqb_eq in Hr'. subst j. reflexivity.
Qed.

End Dashboard.

Lemma validated_saves_keep_the_ceilings_witness :
  let edited := mkEntry 2 2 martes 2 in
  let st := sampleDashboard (Some edited) in
  let p := OperativeDashboard.formProps None st in
  let after := recordsOf (OperativeDashboard.submit None (Some 3) (limitsState martes 4) st) in
  ((hoursOfDay martes (recordsOf st)
    <= CalendarHoursEntryLimits.limitOfDay
         (CalendarHoursEntryLimits.activeDailyLimits p) (getDay martes))%Q →
   (hoursOfDay martes after
    <= CalendarHoursEntryLimits.limitOfDay
         (CalendarHoursEntryLimits.activeDailyLimits p) (getDay martes))%Q)
  ∧ ((hoursOfWeek martes (recordsOf st) <= CalendarHoursEntryLimits.activeWeeklyLimit p)%Q →
     (hoursOfWeek martes after <= CalendarHoursEntryLimits.activeWeeklyLimit p)%Q).
Proof.
  intros edited st p after.
  apply (validated_saves_keep_the_ceilings None (Some 3) (limitsState martes 4) st martes).
  - intros e [= <-]. exists 2, [mkEntry 1 6 lunes 1], [].
    split; [reflexivity |]. split; [lia |]. split; [reflexivity |].
    intros r [<- | []]. reflexivity.
  - intros e [= <-]. reflexivity.
Defined.

(** The ceilings are kept only if the form is open on the day of the record
    being edited.  With the rejected record of Tuesday, of eight hours, still
    held as the record being edited and the form opened on a Monday that has
    its nine hours, a submission of five hours passes, and the dashboard
    moves the record to that Monday, which then holds fourteen. *)
Example stale_edit_exceeds_the_daily_ceiling :
  let edited := mkEntry 2 8 martes 2 in
  let st := {| OperativeDashboard.clientes := [acme];
               OperativeDashboard.hoursRecords := [mkEntry 1 9 lunes 1; edited];
               OperativeDashboard.editingRecord := Some edited |} in
  let after := recordsOf (OperativeDashboard.submit None (Some 9) (limitsState lunes 5) st) in
  editingWellFormed st
  ∧ (hoursOfDay lunes (recordsOf st) == 9)%Q
  ∧ (hoursOfDay lunes after == 14)%Q
  ∧ (CalendarHoursEntryLimits.limitOfDay
       (CalendarHoursEntryLimits.activeDailyLimits (OperativeDashboard.formProps None st))
       (getDay lunes) == 9)%Q.
Proof.
  intros edited st after. split; [| repeat split].
  intros e [= <-]. exists 2, [mkEntry 1 9 lunes 1], [].
  split; [reflexivity |]. split; [lia |]. split; [reflexivity |].
  intros r [<- | []]. reflexivity.
Qed.

Lemma saved_edit_returns_the_record_to_pending_witness :
  let e := mkEntry 2 2 martes 2 in
  let e' :=
    {| OperativeDashboard.record :=
         {| HoursRecord.id := Some 2; HoursRecord.clienteId := "PEP1";
            HoursRecord.horas := 4; HoursRecord.fecha := martes;
            HoursRecord.areaCliente := Some "Campo"%string |};
       OperativeDashboard.aprobado := Some 0 |} in
  HoursHistoryByDate.showsEdit e = true
  ∧ OperativeDashboard.submit None (Some 9) (limitsState martes 4)
      (sampleDashboard (Some e))
    = {| OperativeDashboard.clientes := [acme];
         OperativeDashboard.hoursRecords := [mkEntry 1 6 lunes 1] ++ e' :: [];
         OperativeDashboard.editingRecord := None |}
  ∧ HoursHistoryByDate.showsEdit e' = false.
Proof.
  intros e e'. split; [reflexivity |].
  apply (saved_edit_returns_the_record_to_pending None 9 (limitsState martes 4)
           (sampleDashboard (Some e)) e 2 [mkEntry 1 6 lunes 1] [] "PEP1" 4 martes "Campo").
  - reflexivity.
  - reflexivity.
  - lia.
  - reflexivity.
  - intros r [<- | []]. reflexivity.
  - vm_compute. reflexivity.
Defined.
